(** * ielts-mock: the exam application of [app.py]

    A shallow embedding of the request handlers of the application: the
    session engine ([test_start], [api_answer], [test_finish]), the pages
    that read it ([test_select], [test_take], [results_view]), the
    administrative writers ([admin_tests_create], [admin_tests_import])
    under their access decorators, the seed command, and the scoring
    function [band_from_raw]; followed by the properties of the
    specification that concern them and by further properties of the code.

    - Python [float] is IEEE 754 binary64; it is modelled by the Standard
      Library's executable specification [SpecFloat] at precision 53 and
      maximal exponent 1024.
    - Python [int] is [Z].
    - A [sqlite3] table is the list of its rows in rowid order; a row is a
      record with one field per column.  [fetchone()] is [find].
    - The two [str] methods the handlers call, [lower] and [strip], belong to
      the Python runtime; they are an interface ([StrMethods]) with one
      instance for the ASCII range.  [slugify] is a library's, and an
      interface likewise ([Slugify]).
    - What a handler reads from outside the database (the clock, a form, an
      uploaded file, the result of saving a file) is an argument. *)

From Stdlib Require Import ZArith List String Ascii Bool Lia QArith.
From Stdlib Require Import Floats.SpecFloat.
From Stdlib Require Import DecimalString DecimalZ Permutation Sorted.
Import ListNotations.

Open Scope string_scope.
Open Scope Z_scope.

(* ================================================================== *)
(** * Part I.  The model                                               *)
(* ================================================================== *)

(* ------------------------------------------------------------------ *)
(** ** Python numbers                                                  *)
(* ------------------------------------------------------------------ *)

Module PyFloat.

(** binary64 *)
Definition prec : Z := 53.
Definition emax : Z := 1024.

Definition float := spec_float.

(** The exceptions arithmetic can raise. *)
Inductive exn := ZeroDivisionError | OverflowError.

Inductive py (A : Type) :=
| Return (a : A)
| Raise (e : exn).
Arguments Return {A} a.
Arguments Raise {A} e.

(** An [int] as an exact operand of a float operation: mantissa [|z|],
    exponent 0.  It is rounded only by the operation that consumes it. *)
Definition of_int (z : Z) : float :=
  match z with
  | Z0 => S754_zero false
  | Zpos p => S754_finite false p 0
  | Zneg p => S754_finite true p 0
  end.

(** [a / b] on two [int]s: the quotient rounded once, to nearest-even.
    A zero divisor raises [ZeroDivisionError]; a quotient beyond the
    range of binary64 raises [OverflowError]. *)
Definition int_truediv (a b : Z) : py float :=
  if b =? 0 then Raise ZeroDivisionError
  else match SFdiv prec emax (of_int a) (of_int b) with
       | S754_infinity _ => Raise OverflowError
       | q => Return q
       end.

(** A decimal literal [n/d] (d a power of ten): the binary64 nearest to it. *)
Definition decimal (n d : Z) : float := SFdiv prec emax (of_int n) (of_int d).

(** [x >= y] *)
Definition ge (x y : float) : bool := SFleb y x.
(** [x > y] *)
Definition gt (x y : float) : bool := SFltb y x.

(** The rational a finite float denotes. *)
Definition to_Q (x : float) : option Q :=
  match x with
  | S754_zero _ => Some 0%Q
  | S754_finite s m e =>
      let v := match e with
               | Zneg k => Qmake (Zpos m) (2 ^ k)%positive
               | _ => inject_Z (Zpos m * 2 ^ e)
               end in
      Some (if s then Qopp v else v)
  | _ => None
  end.

(** [x] is finite and its value is the rational [q]. *)
Definition denotes (x : float) (q : Q) : Prop :=
  match to_Q x with
  | Some v => (v == q)%Q
  | None => False
  end.

End PyFloat.

Import PyFloat.

(** The literals of [band_from_raw]. *)
Definition f0_0 : float := S754_zero false.
Definition f0_95 : float := decimal 95 100.
Definition f0_9 : float := decimal 9 10.
Definition f0_85 : float := decimal 85 100.
Definition f0_75 : float := decimal 75 100.
Definition f0_7 : float := decimal 7 10.
Definition f0_65 : float := decimal 65 100.
Definition f0_6 : float := decimal 6 10.
Definition f0_55 : float := decimal 55 100.
Definition f0_5 : float := decimal 5 10.
Definition f0_45 : float := decimal 45 100.
Definition f9_0 : float := decimal 90 10.
Definition f8_5 : float := decimal 85 10.
Definition f8_0 : float := decimal 80 10.
Definition f7_5 : float := decimal 75 10.
Definition f7_0 : float := decimal 70 10.
Definition f6_5 : float := decimal 65 10.
Definition f6_0 : float := decimal 60 10.
Definition f5_5 : float := decimal 55 10.
Definition f5_0 : float := decimal 50 10.
Definition f4_5 : float := decimal 45 10.
Definition f4_0 : float := decimal 40 10.
Definition f1_0 : float := decimal 10 10.

(* ------------------------------------------------------------------ *)
(** ** The scoring function (app.py, lines 117-131)                    *)
(* ------------------------------------------------------------------ *)

(** The chain of [if pct >= t: return b] statements. *)
Definition band_of_pct (pct : float) : float :=
  if ge pct f0_95 then f9_0 else
  if ge pct f0_9 then f8_5 else
  if ge pct f0_85 then f8_0 else
  if ge pct f0_75 then f7_5 else
  if ge pct f0_7 then f7_0 else
  if ge pct f0_65 then f6_5 else
  if ge pct f0_6 then f6_0 else
  if ge pct f0_55 then f5_5 else
  if ge pct f0_5 then f5_0 else
  if ge pct f0_45 then f4_5 else
  f4_0.

Definition band_from_raw (raw total : Z) : py float :=
  if total =? 0 then Return f0_0            (* if not total: return 0.0 *)
  else match int_truediv raw total with     (* pct = raw / total *)
       | Raise e => Raise e
       | Return pct => Return (band_of_pct pct)
       end.

(** The threshold table as the specification words it: the percentage is
    the exact quotient [correct / total], tested against the decimal
    thresholds from the highest to the lowest. *)
Definition spec_percentage (correct total : Z) : Q :=
  (inject_Z correct / inject_Z total)%Q.

Definition spec_band_table (pct : Q) : float :=
  if Qle_bool 0.95 pct then f9_0 else
  if Qle_bool 0.90 pct then f8_5 else
  if Qle_bool 0.85 pct then f8_0 else
  if Qle_bool 0.75 pct then f7_5 else
  if Qle_bool 0.70 pct then f7_0 else
  if Qle_bool 0.65 pct then f6_5 else
  if Qle_bool 0.60 pct then f6_0 else
  if Qle_bool 0.55 pct then f5_5 else
  if Qle_bool 0.50 pct then f5_0 else
  if Qle_bool 0.45 pct then f4_5 else
  f4_0.

(* ------------------------------------------------------------------ *)
(** ** Python strings                                                  *)
(* ------------------------------------------------------------------ *)

(** The [str] methods the handlers call.  They are the runtime's, not the
    repository's: every property below holds for any implementation. *)
Class StrMethods := {
  lower : string -> string;
  strip : string -> string
}.

(** The two methods on the ASCII range, for running the model. *)
Module AsciiStr.

Definition is_upper (c : ascii) : bool :=
  ((65 <=? nat_of_ascii c) && (nat_of_ascii c <=? 90))%nat.

Definition lower_char (c : ascii) : ascii :=
  if is_upper c then ascii_of_nat (nat_of_ascii c + 32) else c.

Fixpoint ascii_lower (s : string) : string :=
  match s with
  | EmptyString => EmptyString
  | String c s' => String (lower_char c) (ascii_lower s')
  end.

(** space, and the controls 9..13 and 28..31 *)
Definition is_space (c : ascii) : bool :=
  let n := nat_of_ascii c in
  ((n =? 32) || ((9 <=? n) && (n <=? 13)) || ((28 <=? n) && (n <=? 31)))%nat.

Fixpoint lstrip (s : string) : string :=
  match s with
  | EmptyString => EmptyString
  | String c s' => if is_space c then lstrip s' else s
  end.

Fixpoint rstrip (s : string) : string :=
  match s with
  | EmptyString => EmptyString
  | String c s' =>
      match rstrip s' with
      | EmptyString => if is_space c then EmptyString else String c EmptyString
      | r => String c r
      end
  end.

Definition ascii_strip (s : string) : string := rstrip (lstrip s).

Definition methods : StrMethods :=
  {| lower := ascii_lower; strip := ascii_strip |}.

End AsciiStr.

(* ------------------------------------------------------------------ *)
(** ** The grading step (app.py, lines 216-220)                        *)
(* ------------------------------------------------------------------ *)

(** [q["qtype"] == "mcq"]; a NULL column is [None], equal to no string. *)
Definition is_mcq (qtype : option string) : bool :=
  match qtype with
  | Some t => String.eqb t "mcq"
  | None => false
  end.

(** [response == q["answer_key"]] *)
Definition str_eq_nullable (response : string) (key : option string) : bool :=
  match key with
  | Some k => String.eqb response k
  | None => false
  end.

(** [q["answer_key"] or ""] *)
Definition or_empty (key : option string) : string :=
  match key with
  | Some k => k
  | None => ""
  end.

(** The value of [correct] after lines 216-220, from the question's type
    and key and the response. *)
Definition grade `{StrMethods} (qtype answer_key : option string) (response : string) : Z :=
  if is_mcq qtype then
    if str_eq_nullable response answer_key then 1 else 0
  else
    if String.eqb (lower response) (lower (or_empty answer_key)) then 1 else 0.

(* ------------------------------------------------------------------ *)
(** ** The database (app.py, lines 28-82)                              *)
(* ------------------------------------------------------------------ *)

Record tests_row := {
  t_id : Z;
  t_title : string;
  t_slug : string;
  t_section : string;
  t_level : string;
  t_duration_minutes : Z;
  t_center_id : option Z;
  t_audio_filename : option string
}.

Record questions_row := {
  q_id : Z;
  q_test_id : Z;
  q_qtype : option string;
  q_prompt : string;
  q_options_json : string;
  q_answer_key : option string;
  q_order_index : Z
}.

Record submissions_row := {
  s_id : Z;
  s_user_id : Z;
  s_test_id : Z;
  s_started_at : option string;
  s_finished_at : option string;
  s_raw_score : Z;
  s_band_score : float
}.

Record answers_row := {
  a_id : Z;
  a_submission_id : Z;
  a_question_id : Z;
  a_response : string;
  a_is_correct : Z
}.

Record DB := {
  tests : list tests_row;
  questions : list questions_row;
  submissions : list submissions_row;
  answers : list answers_row
}.

(** The statements the handlers execute. *)
Module Sql.
Section Table.
Context {row : Type}.

(** [SELECT ... WHERE p] followed by [fetchone()] *)
Definition select_one (p : row -> bool) (t : list row) : option row := find p t.

(** [SELECT COUNT( * ) ... WHERE p] *)
Definition count (p : row -> bool) (t : list row) : Z :=
  Z.of_nat (List.length (filter p t)).

(** [UPDATE ... SET f WHERE p] *)
Definition update (p : row -> bool) (f : row -> row) (t : list row) : list row :=
  map (fun r => if p r then f r else r) t.

(** [INSERT]: the new row comes last. *)
Definition insert (r : row) (t : list row) : list row := t ++ [r].
End Table.

(** The rowid of an inserted row: one more than the largest in the table
    (no handler deletes a row, so this is also the largest ever used). *)
Definition next_rowid (ids : list Z) : Z := fold_right Z.max 0 ids + 1.
End Sql.

Definition set_submissions (db : DB) (l : list submissions_row) : DB :=
  {| tests := tests db; questions := questions db;
     submissions := l; answers := answers db |}.

Definition set_answers (db : DB) (l : list answers_row) : DB :=
  {| tests := tests db; questions := questions db;
     submissions := submissions db; answers := l |}.

Definition test_by_slug (slug : string) (db : DB) : option tests_row :=
  Sql.select_one (fun t => String.eqb (t_slug t) slug) (tests db).

Definition submission_by_id (submission_id : Z) (db : DB) : option submissions_row :=
  Sql.select_one (fun s => s_id s =? submission_id) (submissions db).

Definition question_by_id (question_id : Z) (db : DB) : option questions_row :=
  Sql.select_one (fun q => q_id q =? question_id) (questions db).

(** [WHERE submission_id = ? AND question_id = ?] *)
Definition answer_for (submission_id question_id : Z) (a : answers_row) : bool :=
  (a_submission_id a =? submission_id) && (a_question_id a =? question_id).

(* ------------------------------------------------------------------ *)
(** ** The handlers                                                    *)
(* ------------------------------------------------------------------ *)

Inductive response :=
| Json_ok (is_correct : bool)            (* {"ok": True, "is_correct": ...} *)
| Json_not_ok_400                        (* {"ok": False}, 400 *)
| Redirect_dashboard (flash : string)
| Redirect_test_take (slug : string) (submission_id : Z)
| Redirect_results_view (submission_id : Z)
| Uncaught (e : exn).                    (* the exception leaves the handler *)

(** [test_start] (lines 169-184), for the logged-in user [current_user_id]
    at the clock reading [now]. *)
Definition test_start (current_user_id : Z) (now : string) (slug : string)
    (db : DB) : DB * response :=
  match test_by_slug slug db with
  | None => (db, Redirect_dashboard "Test topilmadi")
  | Some test =>
      let sub_id := Sql.next_rowid (map s_id (submissions db)) in
      let row := {| s_id := sub_id; s_user_id := current_user_id;
                    s_test_id := t_id test; s_started_at := Some now;
                    s_finished_at := None; s_raw_score := 0;
                    s_band_score := f0_0 |} in
      (set_submissions db (Sql.insert row (submissions db)),
       Redirect_test_take slug sub_id)
  end.

(** The [UPDATE answers SET response=?, is_correct=?] of line 227. *)
Definition set_answer (response : string) (correct : Z) (a : answers_row) : answers_row :=
  {| a_id := a_id a; a_submission_id := a_submission_id a;
     a_question_id := a_question_id a;
     a_response := response; a_is_correct := correct |}.

(** [(data.get("response") or "").strip()] (line 206); the field is absent
    (or null) or a string. *)
Definition trimmed `{StrMethods} (response_field : option string) : string :=
  strip (or_empty response_field).

(** [api_answer] (lines 200-237).  [submission_id] and [question_id] are the
    two identifiers after [int(...)]; [response_field] is
    [data.get("response")]. *)
Definition api_answer `{StrMethods} (current_user_id : Z)
    (submission_id question_id : Z) (response_field : option string)
    (db : DB) : DB * response :=
  let response := trimmed response_field in
  match submission_by_id submission_id db with
  | None => (db, Json_not_ok_400)
  | Some sub =>
      if negb (s_user_id sub =? current_user_id) then (db, Json_not_ok_400)
      else
        match question_by_id question_id db with
        | None => (db, Json_not_ok_400)
        | Some q =>
            let correct := grade (q_qtype q) (q_answer_key q) response in
            let answers' :=
              match Sql.select_one (answer_for submission_id question_id) (answers db) with
              | Some existing =>
                  Sql.update (fun a => a_id a =? a_id existing)
                             (set_answer response correct) (answers db)
              | None =>
                  Sql.insert {| a_id := Sql.next_rowid (map a_id (answers db));
                                a_submission_id := submission_id;
                                a_question_id := question_id;
                                a_response := response;
                                a_is_correct := correct |}
                             (answers db)
              end in
            (set_answers db answers', Json_ok (negb (correct =? 0)))
        end
  end.

(** The [UPDATE submissions SET raw_score=?, band_score=?, finished_at=?]
    of line 255. *)
Definition set_score (raw : Z) (band : float) (now : string)
    (s : submissions_row) : submissions_row :=
  {| s_id := s_id s; s_user_id := s_user_id s; s_test_id := s_test_id s;
     s_started_at := s_started_at s;
     s_finished_at := Some now; s_raw_score := raw; s_band_score := band |}.

(** [COUNT( * ) FROM questions WHERE test_id=?] *)
Definition count_questions (test_id : Z) (db : DB) : Z :=
  Sql.count (fun q => q_test_id q =? test_id) (questions db).

(** [COUNT( * ) FROM answers WHERE submission_id=? AND is_correct=1] *)
Definition count_correct (submission_id : Z) (db : DB) : Z :=
  Sql.count (fun a => (a_submission_id a =? submission_id) && (a_is_correct a =? 1))
            (answers db).

(** [test_finish] (lines 239-260). *)
Definition test_finish (current_user_id : Z) (now : string) (slug : string)
    (submission_id : Z) (db : DB) : DB * response :=
  match test_by_slug slug db, submission_by_id submission_id db with
  | Some test, Some sub =>
      if negb (s_user_id sub =? current_user_id)
      then (db, Redirect_dashboard "Xatolik")
      else
        let total := count_questions (t_id test) db in
        let correct := count_correct submission_id db in
        match band_from_raw correct total with
        | Raise e => (db, Uncaught e)
        | Return band =>
            (set_submissions db
               (Sql.update (fun s => s_id s =? submission_id)
                           (set_score correct band now) (submissions db)),
             Redirect_results_view submission_id)
        end
  | _, _ => (db, Redirect_dashboard "Xatolik")
  end.

(** [SubmitAnswer] called once per response of [rs], in order, for one
    (submission, question) pair. *)
Definition api_answer_all `{StrMethods} (current_user_id : Z)
    (submission_id question_id : Z) (rs : list (option string)) (db : DB) : DB :=
  fold_left (fun d r => fst (api_answer current_user_id submission_id question_id r d))
            rs db.

(** The stored rows of one (submission, question) pair. *)
Definition answers_of (submission_id question_id : Z) (db : DB) : list answers_row :=
  filter (answer_for submission_id question_id) (answers db).

(** The stored rows of every other pair. *)
Definition answers_besides (submission_id question_id : Z) (db : DB) : list answers_row :=
  filter (fun a => negb (answer_for submission_id question_id a)) (answers db).

(** [id INTEGER PRIMARY KEY] on the answers table: rowids are distinct. *)
Definition answers_pk (db : DB) : Prop := NoDup (map a_id (answers db)).

(** No (submission, question) pair has two rows.  The schema does not ask
    for it; the upsert of [api_answer] maintains it. *)
Definition one_answer_per_pair (db : DB) : Prop :=
  NoDup (map (fun a => (a_submission_id a, a_question_id a)) (answers db)).

Definition answers_wf (db : DB) : Prop := answers_pk db /\ one_answer_per_pair db.

(** The requests of the session engine, and the states it reaches from a
    database without submissions.  Tests and questions are written by the
    administrative screens only, at any time. *)
Inductive request :=
| Start (current_user_id : Z) (now slug : string)
| Answer (current_user_id submission_id question_id : Z) (response_field : option string)
| Finish (current_user_id : Z) (now slug : string) (submission_id : Z).

Definition handle `{StrMethods} (rq : request) (db : DB) : DB * response :=
  match rq with
  | Start u now slug => test_start u now slug db
  | Answer u s q r => api_answer u s q r db
  | Finish u now slug s => test_finish u now slug s db
  end.

Definition set_content (db : DB) (ts : list tests_row) (qs : list questions_row) : DB :=
  {| tests := ts; questions := qs;
     submissions := submissions db; answers := answers db |}.

Inductive reachable `{StrMethods} : DB -> Prop :=
| reach_init (db : DB) :
    submissions db = [] -> answers db = [] -> reachable db
| reach_request (rq : request) (db : DB) :
    reachable db -> reachable (fst (handle rq db))
| reach_admin (ts : list tests_row) (qs : list questions_row) (db : DB) :
    reachable db -> reachable (set_content db ts qs).


(* ------------------------------------------------------------------ *)
(** ** A small database to run the handlers on                         *)
(* ------------------------------------------------------------------ *)

Module Example.

Definition listening : tests_row :=
  {| t_id := 1; t_title := "Listening Sample 1"; t_slug := "listening-sample-1";
     t_section := "listening"; t_level := "general"; t_duration_minutes := 30;
     t_center_id := Some 1; t_audio_filename := Some "listening_sample_1.mp3" |}.

Definition reading : tests_row :=
  {| t_id := 2; t_title := "Reading Sample 1"; t_slug := "reading-sample-1";
     t_section := "reading"; t_level := "general"; t_duration_minutes := 60;
     t_center_id := Some 1; t_audio_filename := None |}.

(** Two questions of the listening test, the second with no key. *)
Definition q1 : questions_row :=
  {| q_id := 1; q_test_id := 1; q_qtype := Some "mcq"; q_prompt := "Pick one";
     q_options_json := "[A, B, C]"; q_answer_key := Some "B"; q_order_index := 1 |}.
Definition q2 : questions_row :=
  {| q_id := 2; q_test_id := 1; q_qtype := Some "gap"; q_prompt := "Fill in";
     q_options_json := "[]"; q_answer_key := None; q_order_index := 2 |}.
(** The one question of the reading test. *)
Definition q3 : questions_row :=
  {| q_id := 3; q_test_id := 2; q_qtype := Some "gap"; q_prompt := "Capital of France";
     q_options_json := "[]"; q_answer_key := Some "Paris"; q_order_index := 1 |}.

Definition db0 : DB :=
  {| tests := [listening; reading]; questions := [q1; q2; q3];
     submissions := []; answers := [] |}.

Definition student : Z := 2.

(** The row of the student's first submission, to the listening and to
    the reading test. *)
Definition sitting : submissions_row :=
  {| s_id := 1; s_user_id := student; s_test_id := 1;
     s_started_at := Some "2025-01-01T10:00:00"; s_finished_at := None;
     s_raw_score := 0; s_band_score := f0_0 |}.
Definition sitting_reading : submissions_row :=
  {| s_id := 1; s_user_id := student; s_test_id := 2;
     s_started_at := Some "2025-01-01T10:00:00"; s_finished_at := None;
     s_raw_score := 0; s_band_score := f0_0 |}.

Definition start (slug : string) (db : DB) : DB :=
  fst (test_start student "2025-01-01T10:00:00" slug db).
Definition answer (question_id : Z) (r : string) (db : DB) : DB :=
  fst (api_answer (H := AsciiStr.methods) student 1 question_id (Some r) db).

(** The student sits the listening test and answers its first question. *)
Definition db_listening : DB := answer 1 "B" (start "listening-sample-1" db0).

(** The student sits the reading test and answers its question and the
    two of the listening test. *)
Definition db_reading : DB :=
  answer 2 "" (answer 1 " B " (answer 3 "paris" (start "reading-sample-1" db0))).

(** A listening test of twenty questions, and a sitting of it with
    seventeen answers flagged correct. *)
Definition db_twenty : DB :=
  {| tests := [listening];
     questions :=
       map (fun i => {| q_id := i; q_test_id := 1; q_qtype := Some "mcq";
                        q_prompt := "Pick one"; q_options_json := "[A, B, C]";
                        q_answer_key := Some "A"; q_order_index := i |})
           (map Z.of_nat (seq 1 20));
     submissions := [sitting];
     answers :=
       map (fun i => {| a_id := i; a_submission_id := 1; a_question_id := i;
                        a_response := "A"; a_is_correct := 1 |})
           (map Z.of_nat (seq 1 17)) |}.

End Example.

(* ------------------------------------------------------------------ *)
(** ** Notions used to state the rounding of [int_truediv]             *)
(* ------------------------------------------------------------------ *)

(** Where the remainder [r] of a division by [b] lies in [0, b): zero, or
    below, at or above the half. *)
Definition loc_of_rem (b r : Z) : location :=
  if r =? 0 then loc_Exact else loc_Inexact (2 * r ?= b).

(** The mantissa [m], scaled by [2^c], is within one half of [N / b]. *)
Definition rounds_to (N b : Z) (m : positive) (c : Z) : Prop :=
  0 <= c /\ 2 ^ 52 <= Zpos m < 2 ^ 53 /\
  (2 * Zpos m - 1) * 2 ^ c * b <= 2 * N <= (2 * Zpos m + 1) * 2 ^ c * b.

(** The left shift [SFdiv] gives the dividend so that the integer
    quotient has at least 53 bits. *)
Definition div_shift (a b : Z) : Z := Z.max 0 (53 + Zdigits2 b - Zdigits2 a).

(* ================================================================== *)
(** * Part I, continued.  The rest of the application                  *)
(* ================================================================== *)

(* ------------------------------------------------------------------ *)
(** ** Users and the access decorators (app.py, lines 84-108)          *)
(* ------------------------------------------------------------------ *)

Record centers_row := {
  c_id : Z;
  c_name : string
}.

Record users_row := {
  u_id : Z;
  u_full_name : string;
  u_email : string;
  u_password_hash : string;
  u_role : option string;
  u_center_id : option Z
}.

(** [class User] (lines 87-93): the row without its password hash. *)
Record User := {
  usr_id : Z;
  usr_full_name : string;
  usr_email : string;
  usr_role : option string;
  usr_center_id : option Z
}.

Definition User_of_row (row : users_row) : User :=
  {| usr_id := u_id row; usr_full_name := u_full_name row;
     usr_email := u_email row; usr_role := u_role row;
     usr_center_id := u_center_id row |}.

(** [load_user] (lines 95-99) *)
Definition load_user (user_id : Z) (users : list users_row) : option User :=
  option_map User_of_row (Sql.select_one (fun u => u_id u =? user_id) users).

(** Flask-Login's [current_user]: the anonymous visitor, or the user
    [load_user] returned for the identifier kept in the session. *)
Inductive current_user :=
| Anonymous
| Authenticated (u : User).

Definition user_of_session (session_user_id : option Z) (users : list users_row)
    : current_user :=
  match session_user_id with
  | None => Anonymous
  | Some user_id =>
      match load_user user_id users with
      | Some u => Authenticated u
      | None => Anonymous
      end
  end.

(** [current_user.role == "admin"] *)
Definition is_admin (u : User) : bool :=
  match usr_role u with
  | Some r => String.eqb r "admin"
  | None => false
  end.

(** The exceptions that leave the handlers below. *)
Inductive error :=
| ValueError | TypeError | AttributeError | KeyError
| IntegrityError | OSError.

(** A row of the query of [admin_results]: the submission with the name
    of its user, the title of its test and the number of questions of
    that test. *)
Record results_row := {
  r_submission : submissions_row;
  r_user_name : string;
  r_test_title : string;
  r_total_q : Z
}.

(** What these handlers answer: a rendered template with its arguments, a
    redirect with the flashed message, or an exception. *)
Inductive reply :=
| Render_test_select (test : tests_row)
| Render_test_take (test : tests_row) (submission : submissions_row)
                   (questions : list questions_row)
| Render_results_view (sub : submissions_row) (test : tests_row) (total : Z)
| Render_admin_results (submissions : list results_row)
| To_login
| To_dashboard (flash : string)
| To_admin_tests (flash : string)
| Raised (e : error).

(** [admin_required] (lines 101-108) around a view that writes. *)
Definition admin_required (view : DB -> DB * reply)
    (cu : current_user) (db : DB) : DB * reply :=
  match cu with
  | Authenticated u =>
      if is_admin u then view db else (db, To_dashboard "Faqat admin")
  | Anonymous => (db, To_dashboard "Faqat admin")
  end.

(* ------------------------------------------------------------------ *)
(** ** The pages that only read                                        *)
(* ------------------------------------------------------------------ *)

(** [ORDER BY]: insertion into a sorted list, so that rows the order does
    not tell apart stay in rowid order (SQLite leaves their order open). *)
Section OrderBy.
Context {row : Type} (le : row -> row -> bool).

Fixpoint insert_sorted (r : row) (t : list row) : list row :=
  match t with
  | [] => [r]
  | x :: t' => if le r x then r :: t else x :: insert_sorted r t'
  end.

Fixpoint order_by (t : list row) : list row :=
  match t with
  | [] => []
  | r :: t' => insert_sorted r (order_by t')
  end.
End OrderBy.

(** [test_select] (lines 159-167) *)
Definition test_select (slug : string) (db : DB) : reply :=
  match test_by_slug slug db with
  | None => To_dashboard "Test topilmadi"
  | Some test => Render_test_select test
  end.

(** [WHERE test_id = ? ORDER BY order_index] *)
Definition questions_in_order (test_id : Z) (db : DB) : list questions_row :=
  order_by (fun q q' => q_order_index q <=? q_order_index q')
           (filter (fun q => q_test_id q =? test_id) (questions db)).

(** [test_take] (lines 186-198) *)
Definition test_take (current_user_id : Z) (slug : string) (submission_id : Z)
    (db : DB) : reply :=
  match test_by_slug slug db, submission_by_id submission_id db with
  | Some test, Some sub =>
      if negb (s_user_id sub =? current_user_id) then To_dashboard "Ruxsat yo'q"
      else Render_test_take test sub (questions_in_order (t_id test) db)
  | _, _ => To_dashboard "Ruxsat yo'q"
  end.

(** [SELECT * FROM tests WHERE id = ?] *)
Definition test_by_id (test_id : Z) (db : DB) : option tests_row :=
  Sql.select_one (fun t => t_id t =? test_id) (tests db).

(** [results_view] (lines 262-272).  The test row is used without a test
    for [None]: [test["id"]] then raises [TypeError]. *)
Definition results_view (cu : User) (submission_id : Z) (db : DB) : reply :=
  match submission_by_id submission_id db with
  | None => To_dashboard "Ruxsat yo'q"
  | Some sub =>
      if negb (s_user_id sub =? usr_id cu) && negb (is_admin cu)
      then To_dashboard "Ruxsat yo'q"
      else
        match test_by_id (s_test_id sub) db with
        | None => Raised TypeError
        | Some test =>
            Render_results_view sub test (count_questions (t_id test) db)
        end
  end.

(* ------------------------------------------------------------------ *)
(** ** The administrative writers                                      *)
(* ------------------------------------------------------------------ *)

Definition set_tests (db : DB) (l : list tests_row) : DB :=
  {| tests := l; questions := questions db;
     submissions := submissions db; answers := answers db |}.

Definition set_questions (db : DB) (l : list questions_row) : DB :=
  {| tests := tests db; questions := l;
     submissions := submissions db; answers := answers db |}.

(** [slugify] is python-slugify's; every property holds for any function. *)
Class Slugify := {
  slugify : string -> string
}.

(** [s.replace(old, new)] for one-character [old] and [new]. *)
Fixpoint replace_char (old new : ascii) (s : string) : string :=
  match s with
  | EmptyString => EmptyString
  | String c s' =>
      String (if Ascii.eqb c old then new else c) (replace_char old new s')
  end.

(** [audio.filename.replace("/", "_").replace("\\", "_")] (line 302) *)
Definition safe_name (filename : string) : string :=
  replace_char "\" "_" (replace_char "/" "_" filename).

(** The [duration] field as [int(... or 60)] reads it: absent or empty, a
    text [int] accepts, or one it rejects. *)
Inductive int_input := Int_default | Int_value (z : Z) | Int_invalid.

(** An uploaded file: its name, and whether creating the directory and
    [audio.save(path)] succeed. *)
Record upload_file := {
  up_filename : string;
  up_saved : bool
}.

Record create_form := {
  f_title : option string;
  f_section : option string;
  f_level : option string;
  f_duration : int_input;
  f_audio : option upload_file
}.

(** [form.get(key, default)] *)
Definition or_default {A : Type} (default : A) (v : option A) : A :=
  match v with
  | Some s => s
  | None => default
  end.

(** [str] of an [int]: its decimal digits. *)
Definition str_of_int (z : Z) : string :=
  DecimalString.NilZero.string_of_int (Z.to_int z).

(** [slugify(title) or f"test-{int(utcnow().timestamp())}"] (line 296) *)
Definition slug_for `{Slugify} (title : string) (now_ts : Z) : string :=
  match slugify title with
  | EmptyString => "test-" ++ str_of_int now_ts
  | s => s
  end.

(** Lines 297-303: the name stored for the audio, once the file is saved.
    An upload is truthy when its file name is not empty. *)
Definition saved_audio (section : string) (audio : option upload_file)
    : option string + error :=
  match audio with
  | Some a =>
      if negb (String.eqb (up_filename a) "") && String.eqb section "listening"
      then if up_saved a then inl (Some (safe_name (up_filename a)))
           else inr OSError
      else inl None
  | None => inl None
  end.

(** [admin_tests_create] (lines 288-314); [now_ts] is the clock reading of
    line 296.  [slug TEXT UNIQUE] makes the INSERT raise on a stored slug;
    nothing is committed then. *)
Definition admin_tests_create `{StrMethods} `{Slugify} (now_ts : Z)
    (form : create_form) (db : DB) : DB * reply :=
  let title := strip (or_default "" (f_title form)) in
  let section := or_default "listening" (f_section form) in
  let level := or_default "academic" (f_level form) in
  match f_duration form with
  | Int_invalid => (db, Raised ValueError)
  | duration_field =>
      let duration := match duration_field with Int_value z => z | _ => 60 end in
      let slug := slug_for title now_ts in
      match saved_audio section (f_audio form) with
      | inr e => (db, Raised e)
      | inl audio_filename =>
          match test_by_slug slug db with
          | Some _ => (db, Raised IntegrityError)
          | None =>
              (set_tests db
                 (Sql.insert
                    {| t_id := Sql.next_rowid (map t_id (tests db));
                       t_title := title; t_slug := slug;
                       t_section := section; t_level := level;
                       t_duration_minutes := duration;
                       t_center_id := None;
                       t_audio_filename := audio_filename |}
                    (tests db)),
               To_admin_tests "Test yaratildi")
          end
      end
  end.

(** The [order] of an item as [int(item.get("order", 0))] reads it. *)
Inductive order_field :=
| Order_absent
| Order_int (z : Z)
| Order_invalid (e : error).

(** One object of an import file.  A field is [None] when its key is
    missing.  [qtype] and [answer_key] are null or a string, [prompt] a
    string; [options] is the text [json.dumps] gives for the value. *)
Record import_item := {
  i_qtype : option (option string);
  i_prompt : option string;
  i_options : option string;
  i_answer_key : option (option string);
  i_order : order_field
}.

(** An element of the uploaded array: an object, or a value without
    [get] (the keys of an object and the characters of a string, when the
    file holds one of these instead of an array, are such values). *)
Inductive import_entry :=
| Item (i : import_item)
| Not_an_object.

Inductive upload :=
| No_file
| Not_json
| Not_iterable
| Items (entries : list import_entry).

(** [int(item.get("order", 0))] *)
Definition order_of (o : order_field) : Z + error :=
  match o with
  | Order_absent => inl 0
  | Order_int z => inl z
  | Order_invalid e => inr e
  end.

(** The row of the INSERT of lines 335-338, with the defaults of lines
    330-333. *)
Definition import_row (test_id id : Z) (i : import_item) (order : Z)
    : questions_row :=
  {| q_id := id;
     q_test_id := test_id;
     q_qtype := or_default (Some "mcq") (i_qtype i);
     q_prompt := or_default "" (i_prompt i);
     q_options_json := or_default "[]" (i_options i);
     q_answer_key := or_default (Some "") (i_answer_key i);
     q_order_index := order |}.

(** The loop of lines 329-338 on the questions table. *)
Fixpoint import_rows (test_id : Z) (entries : list import_entry)
    (qs : list questions_row) : list questions_row + error :=
  match entries with
  | [] => inl qs
  | Not_an_object :: _ => inr AttributeError
  | Item i :: rest =>
      match order_of (i_order i) with
      | inr e => inr e
      | inl order =>
          import_rows test_id rest
            (Sql.insert
               (import_row test_id (Sql.next_rowid (map q_id qs)) i order) qs)
      end
  end.


(** [admin_tests_import] (lines 316-342).  The one [commit] follows the
    loop: an exception inside it leaves the table as it was.  The
    connection of a request does not enforce foreign keys, so [test_id]
    is stored as given. *)
Definition admin_tests_import (test_id : Z) (file : upload) (db : DB)
    : DB * reply :=
  match file with
  | No_file => (db, To_admin_tests "Fayl tanlanmadi")
  | Not_json => (db, To_admin_tests "JSON faylda xato")
  | Not_iterable => (db, Raised TypeError)
  | Items entries =>
      match import_rows test_id entries (questions db) with
      | inl qs => (set_questions db qs, To_admin_tests "Savollar import qilindi")
      | inr e => (db, Raised e)
      end
  end.

(* ------------------------------------------------------------------ *)
(** ** The routes                                                      *)
(* ------------------------------------------------------------------ *)

Inductive route :=
| Test_select (slug : string)
| Test_start (now slug : string)
| Test_take (slug : string) (submission_id : Z)
| Api_answer (submission_id question_id : Z) (response_field : option string)
| Test_finish (now slug : string) (submission_id : Z)
| Results_view (submission_id : Z)
| Admin_tests_create (now_ts : Z) (form : create_form)
| Admin_tests_import (test_id : Z) (file : upload).

Inductive outcome :=
| Session (r : response)
| Page (r : reply).

Definition session (out : DB * response) : DB * outcome :=
  (fst out, Session (snd out)).

Definition page (out : DB * reply) : DB * outcome :=
  (fst out, Page (snd out)).

(** A request under the decorators of its route: every route is
    [@login_required], the two writers of tests and questions are
    [@admin_required] as well. *)
Definition serve `{StrMethods} `{Slugify} (cu : current_user) (rt : route)
    (db : DB) : DB * outcome :=
  match cu with
  | Anonymous => (db, Page To_login)
  | Authenticated u =>
      match rt with
      | Test_select slug => (db, Page (test_select slug db))
      | Test_start now slug => session (test_start (usr_id u) now slug db)
      | Test_take slug sid => (db, Page (test_take (usr_id u) slug sid db))
      | Api_answer sid qid r => session (api_answer (usr_id u) sid qid r db)
      | Test_finish now slug sid => session (test_finish (usr_id u) now slug sid db)
      | Results_view sid => (db, Page (results_view u sid db))
      | Admin_tests_create now_ts form =>
          page (admin_required (admin_tests_create now_ts form) cu db)
      | Admin_tests_import test_id file =>
          page (admin_required (admin_tests_import test_id file) cu db)
      end
  end.

(* ------------------------------------------------------------------ *)
(** ** The database file, and the list of results (lines 344-357)      *)
(* ------------------------------------------------------------------ *)

(** The whole database file: the four tables of the session engine, and
    the two only the seed command writes. *)
Record Site := {
  centers : list centers_row;
  users : list users_row;
  site_db : DB
}.

Definition set_site_db (s : Site) (db : DB) : Site :=
  {| centers := centers s; users := users s; site_db := db |}.

(** The order of two TEXT values: NULL comes before every text, and
    texts compare byte by byte. *)
Definition text_le (a b : option string) : bool :=
  match a, b with
  | None, _ => true
  | Some _, None => false
  | Some x, Some y => String.leb x y
  end.

(** The query of lines 350-356: the two inner joins, the count of the
    questions of the joined test, and [ORDER BY s.started_at DESC]. *)
Definition admin_results_rows (s : Site) : list results_row :=
  order_by
    (fun r r' => text_le (s_started_at (r_submission r'))
                         (s_started_at (r_submission r)))
    (flat_map
       (fun sub =>
          flat_map
            (fun u =>
               map (fun t =>
                      {| r_submission := sub;
                         r_user_name := u_full_name u;
                         r_test_title := t_title t;
                         r_total_q := count_questions (t_id t) (site_db s) |})
                   (filter (fun t => t_id t =? s_test_id sub) (tests (site_db s))))
            (filter (fun u => u_id u =? s_user_id sub) (users s)))
       (submissions (site_db s))).

(** [admin_results] (lines 344-357), under its two decorators. *)
Definition admin_results (cu : current_user) (s : Site) : reply :=
  match cu with
  | Anonymous => To_login
  | Authenticated u =>
      if is_admin u then Render_admin_results (admin_results_rows s)
      else To_dashboard "Faqat admin"
  end.

(* ------------------------------------------------------------------ *)
(** ** The seed command (app.py, lines 364-407)                        *)
(* ------------------------------------------------------------------ *)

(** One object of a seed file; [qtype], [prompt] and [answer_key] are
    read with [i[key]]. *)
Record seed_item := {
  si_qtype : option string;
  si_prompt : string;
  si_options : option string;
  si_answer_key : option string;
  si_order : option Z
}.

(** An element of a seed file: an object with the three keys, or anything
    else. *)
Inductive seed_entry :=
| Seed_item (i : seed_item)
| Seed_invalid (e : error).

(** A seed file: missing, not JSON or not iterable, or its elements. *)
Inductive seed_file :=
| Seed_unreadable (e : error)
| Seed_items (entries : list seed_entry).

(** What the command reads besides the database: the two salted password
    hashes and the two files. *)
Record seed_inputs := {
  hash_admin : string;
  hash_student : string;
  sample_listening : seed_file;
  sample_reading : seed_file
}.

Inductive seed_result :=
| Seed_done
| Seed_raised (e : error).

(** Lines 368-372: the identifier of the default center, created when
    missing. *)
Definition seed_center (cs : list centers_row) : list centers_row * Z :=
  match Sql.select_one (fun c => String.eqb (c_name c) "Default Center") cs with
  | Some c => (cs, c_id c)
  | None =>
      let id := Sql.next_rowid (map c_id cs) in
      (Sql.insert {| c_id := id; c_name := "Default Center" |} cs, id)
  end.

(** Lines 373-380, for one account. *)
Definition seed_user (full_name email password_hash role : string)
    (center_id : Z) (us : list users_row) : list users_row :=
  match Sql.select_one (fun u => String.eqb (u_email u) email) us with
  | Some _ => us
  | None =>
      Sql.insert {| u_id := Sql.next_rowid (map u_id us);
                    u_full_name := full_name; u_email := email;
                    u_password_hash := password_hash; u_role := Some role;
                    u_center_id := Some center_id |} us
  end.

(** The row of the INSERT of lines 391-392 and 403-404. *)
Definition seed_row (test_id id : Z) (i : seed_item) : questions_row :=
  {| q_id := id;
     q_test_id := test_id;
     q_qtype := si_qtype i;
     q_prompt := si_prompt i;
     q_options_json := or_default "[]" (si_options i);
     q_answer_key := si_answer_key i;
     q_order_index := or_default 0 (si_order i) |}.

(** The loop over the items of a seed file. *)
Fixpoint seed_rows (test_id : Z) (entries : list seed_entry)
    (qs : list questions_row) : list questions_row + error :=
  match entries with
  | [] => inl qs
  | Seed_invalid e :: _ => inr e
  | Seed_item i :: rest =>
      seed_rows test_id rest
        (Sql.insert (seed_row test_id (Sql.next_rowid (map q_id qs)) i) qs)
  end.

(** Lines 382-393 and 394-405, for one sample test: [mk] gives its row
    from the rowid.  The test row is committed before the file is opened;
    the questions are committed together after the loop. *)
Definition seed_test (slug : string) (mk : Z -> tests_row) (file : seed_file)
    (db : DB) : DB * seed_result :=
  match test_by_slug slug db with
  | Some _ => (db, Seed_done)
  | None =>
      let test_id := Sql.next_rowid (map t_id (tests db)) in
      let db1 := set_tests db (Sql.insert (mk test_id) (tests db)) in
      match file with
      | Seed_unreadable e => (db1, Seed_raised e)
      | Seed_items entries =>
          match seed_rows test_id entries (questions db1) with
          | inl qs => (set_questions db1 qs, Seed_done)
          | inr e => (db1, Seed_raised e)
          end
      end
  end.

(** The two sample tests; [level] takes the default of the schema. *)
Definition listening_sample (center_id id : Z) : tests_row :=
  {| t_id := id; t_title := "Listening Sample 1"; t_slug := "listening-sample-1";
     t_section := "listening"; t_level := "general"; t_duration_minutes := 30;
     t_center_id := Some center_id;
     t_audio_filename := Some "listening_sample_1.mp3" |}.

Definition reading_sample (center_id id : Z) : tests_row :=
  {| t_id := id; t_title := "Reading Sample 1"; t_slug := "reading-sample-1";
     t_section := "reading"; t_level := "general"; t_duration_minutes := 60;
     t_center_id := Some center_id; t_audio_filename := None |}.

(** [seed_cmd] (lines 364-407), on a database whose tables exist. *)
Definition seed_cmd (inp : seed_inputs) (s : Site) : Site * seed_result :=
  let (centers1, center_id) := seed_center (centers s) in
  let users1 :=
    seed_user "Student" "student@example.com" (hash_student inp) "student" center_id
      (seed_user "Admin" "admin@example.com" (hash_admin inp) "admin" center_id
         (users s)) in
  let s1 := {| centers := centers1; users := users1; site_db := site_db s |} in
  match seed_test "listening-sample-1" (listening_sample center_id)
                  (sample_listening inp) (site_db s1) with
  | (db2, Seed_raised e) => (set_site_db s1 db2, Seed_raised e)
  | (db2, Seed_done) =>
      match seed_test "reading-sample-1" (reading_sample center_id)
                      (sample_reading inp) db2 with
      | (db3, result) => (set_site_db s1 db3, result)
      end
  end.

(* ------------------------------------------------------------------ *)
(** ** The application as a whole                                      *)
(* ------------------------------------------------------------------ *)

(** What happens to the database file: a request, from a browser whose
    session names a user or nobody, or a run of the seed command. *)
Inductive event :=
| Request (session_user_id : option Z) (rt : route)
| Seed (inp : seed_inputs).

Definition run `{StrMethods} `{Slugify} (ev : event) (s : Site) : Site :=
  match ev with
  | Request session_user_id rt =>
      set_site_db s
        (fst (serve (user_of_session session_user_id (users s)) rt (site_db s)))
  | Seed inp => fst (seed_cmd inp s)
  end.

(** The database [init_db] creates: every table empty. *)
Definition empty_site : Site :=
  {| centers := []; users := [];
     site_db := {| tests := []; questions := []; submissions := []; answers := [] |} |}.

Definition run_all `{StrMethods} `{Slugify} (evs : list event) (s : Site) : Site :=
  fold_left (fun st ev => run ev st) evs s.

(** The states the application reaches from the empty database. *)
Inductive site_reachable `{StrMethods} `{Slugify} : Site -> Prop :=
| site_init : site_reachable empty_site
| site_step (ev : event) (s : Site) :
    site_reachable s -> site_reachable (run ev s).

(* ------------------------------------------------------------------ *)
(** ** Notions used to state the properties of the application         *)
(* ------------------------------------------------------------------ *)

(** The constraints of the schema the handlers rely on, and what they
    maintain themselves. *)
Definition tests_pk (db : DB) : Prop := NoDup (map t_id (tests db)).
Definition slug_unique (db : DB) : Prop := NoDup (map t_slug (tests db)).
Definition questions_pk (db : DB) : Prop := NoDup (map q_id (questions db)).
Definition submissions_pk (db : DB) : Prop := NoDup (map s_id (submissions db)).

(** Every submission is of a stored test. *)
Definition submissions_ref (db : DB) : Prop :=
  forall s, In s (submissions db) -> exists t, test_by_id (s_test_id s) db = Some t.

(** Every answer is to a stored question, in a stored submission. *)
Definition answers_ref (db : DB) : Prop :=
  forall a, In a (answers db) ->
    (exists s, submission_by_id (a_submission_id a) db = Some s) /\
    (exists q, question_by_id (a_question_id a) db = Some q).

(** The bands [band_from_raw] returns. *)
Definition bands : list float :=
  [f0_0; f4_0; f4_5; f5_0; f5_5; f6_0; f6_5; f7_0; f7_5; f8_0; f8_5; f9_0].

(** The rows of one submission in the answers table. *)
Definition answered (submission_id : Z) (db : DB) : Z :=
  Sql.count (fun a => a_submission_id a =? submission_id) (answers db).

Definition scores_wf (db : DB) : Prop :=
  forall s, In s (submissions db) ->
    s_started_at s <> None /\
    0 <= s_raw_score s <= answered (s_id s) db /\
    In (s_band_score s) bands /\
    (s_finished_at s = None -> s_raw_score s = 0 /\ s_band_score s = f0_0).

Definition flags_wf (db : DB) : Prop :=
  forall a, In a (answers db) -> a_is_correct a = 0 \/ a_is_correct a = 1.

Record db_wf (db : DB) : Prop := {
  wf_tests_pk : tests_pk db;
  wf_slug_unique : slug_unique db;
  wf_questions_pk : questions_pk db;
  wf_submissions_pk : submissions_pk db;
  wf_answers : answers_wf db;
  wf_submissions_ref : submissions_ref db;
  wf_answers_ref : answers_ref db;
  wf_scores : scores_wf db;
  wf_flags : flags_wf db
}.

(** [id INTEGER PRIMARY KEY] on the users table. *)
Definition users_pk (s : Site) : Prop := NoDup (map u_id (users s)).

(** Every submission is of a stored user. *)
Definition submissions_user_ref (s : Site) : Prop :=
  forall sub, In sub (submissions (site_db s)) ->
    exists u, Sql.select_one (fun u => u_id u =? s_user_id sub) (users s) = Some u.

Record site_wf (s : Site) : Prop := {
  wf_db : db_wf (site_db s);
  wf_users_pk : users_pk s;
  wf_user_ref : submissions_user_ref s
}.

(** The questions of a test, and a sitting in which each of them is
    answered with its own key. *)
Definition questions_of (test_id : Z) (db : DB) : list questions_row :=
  filter (fun q => q_test_id q =? test_id) (questions db).

Definition answer_with_keys `{StrMethods} (current_user_id submission_id : Z)
    (qs : list questions_row) (db : DB) : DB :=
  fold_left
    (fun d q => fst (api_answer current_user_id submission_id (q_id q)
                       (q_answer_key q) d))
    qs db.

(** The submissions of the users other than [user_id], and the answers in
    the submissions of those users. *)
Definition submissions_of_others (user_id : Z) (db : DB) : list submissions_row :=
  filter (fun s => negb (s_user_id s =? user_id)) (submissions db).

Definition owned_by (user_id : Z) (db : DB) (submission_id : Z) : bool :=
  match submission_by_id submission_id db with
  | Some s => s_user_id s =? user_id
  | None => false
  end.

Definition answers_of_others (user_id : Z) (db : DB) : list answers_row :=
  filter (fun a => negb (owned_by user_id db (a_submission_id a))) (answers db).

(** The thresholds as tests on the two counts: [pct >= 0.95] is
    [19 * total <= 20 * correct], and so on down the chain. *)
Definition band_by_count (correct total : Z) : float :=
  if 19 * total <=? 20 * correct then f9_0 else
  if 9 * total <=? 10 * correct then f8_5 else
  if 17 * total <=? 20 * correct then f8_0 else
  if 3 * total <=? 4 * correct then f7_5 else
  if 7 * total <=? 10 * correct then f7_0 else
  if 13 * total <=? 20 * correct then f6_5 else
  if 3 * total <=? 5 * correct then f6_0 else
  if 11 * total <=? 20 * correct then f5_5 else
  if 1 * total <=? 2 * correct then f5_0 else
  if 9 * total <=? 20 * correct then f4_5 else
  f4_0.

(** Rows inserted one after the other take consecutive rowids. *)
Fixpoint numbered_rows {A : Type} (mk : Z -> A -> questions_row) (first : Z)
    (items : list A) : list questions_row :=
  match items with
  | [] => []
  | i :: rest => mk first i :: numbered_rows mk (first + 1) rest
  end.

(** The items of the entries of an import file, each with its order, when
    every entry is acceptable. *)
Fixpoint import_items (entries : list import_entry) : option (list (import_item * Z)) :=
  match entries with
  | [] => Some []
  | Not_an_object :: _ => None
  | Item i :: rest =>
      match order_of (i_order i), import_items rest with
      | inl order, Some items => Some ((i, order) :: items)
      | _, _ => None
      end
  end.

(** The items of the entries of a seed file, likewise. *)
Fixpoint seed_items (entries : list seed_entry) : option (list seed_item) :=
  match entries with
  | [] => Some []
  | Seed_invalid _ :: _ => None
  | Seed_item i :: rest => option_map (cons i) (seed_items rest)
  end.

(** What a complete run of the seed command leaves behind. *)
Definition seeded (s : Site) : Prop :=
  (exists c, Sql.select_one (fun c => String.eqb (c_name c) "Default Center")
               (centers s) = Some c) /\
  (exists a, Sql.select_one (fun u => String.eqb (u_email u) "admin@example.com")
               (users s) = Some a) /\
  (exists st, Sql.select_one (fun u => String.eqb (u_email u) "student@example.com")
                (users s) = Some st) /\
  (exists t1, test_by_slug "listening-sample-1" (site_db s) = Some t1) /\
  (exists t2, test_by_slug "reading-sample-1" (site_db s) = Some t2).

(* ------------------------------------------------------------------ *)
(** ** A small site to run the application on                          *)
(* ------------------------------------------------------------------ *)

(** A stand-in for [slugify] on ASCII letters, digits and separators:
    lower case, and one hyphen for every run of other characters between
    two kept ones. *)
Module AsciiSlug.

Definition is_alnum (c : ascii) : bool :=
  let n := nat_of_ascii c in
  (((48 <=? n) && (n <=? 57)) || ((97 <=? n) && (n <=? 122)))%nat.

(** [pending]: a run of other characters has been skipped; [started]: a
    character has been kept already. *)
Fixpoint slug_chars (pending started : bool) (s : string) : string :=
  match s with
  | EmptyString => EmptyString
  | String c s' =>
      let c' := AsciiStr.lower_char c in
      if is_alnum c' then
        if pending && started
        then String "-" (String c' (slug_chars false true s'))
        else String c' (slug_chars false true s')
      else slug_chars true started s'
  end.

Definition ascii_slugify (s : string) : string := slug_chars false false s.

Definition methods : Slugify := {| slugify := ascii_slugify |}.

End AsciiSlug.

Module Sample.

Definition gap (prompt key : string) (order : Z) : seed_entry :=
  Seed_item {| si_qtype := Some "gap"; si_prompt := prompt; si_options := None;
               si_answer_key := Some key; si_order := Some order |}.

Definition mcq (prompt options key : string) (order : Z) : seed_entry :=
  Seed_item {| si_qtype := Some "mcq"; si_prompt := prompt;
               si_options := Some options;
               si_answer_key := Some key; si_order := Some order |}.

Definition inputs : seed_inputs :=
  {| hash_admin := "pbkdf2:sha256:admin";
     hash_student := "pbkdf2:sha256:student";
     sample_listening :=
       Seed_items [mcq "Where does the speaker live?" "[A, B, C]" "B" 2;
                   gap "The capital of France is" "Paris" 1;
                   gap "The meeting is on" "Monday" 3];
     sample_reading :=
       Seed_items [gap "The author was born in" "1950" 1;
                   mcq "The text is about" "[A, B]" "A" 2] |}.

(** A run whose listening file cannot be read. *)
Definition inputs_unreadable : seed_inputs :=
  {| hash_admin := "pbkdf2:sha256:other";
     hash_student := "pbkdf2:sha256:other";
     sample_listening := Seed_unreadable OSError;
     sample_reading := Seed_unreadable OSError |}.

(** The two accounts of the seed command, as [load_user] returns them. *)
Definition admin : User :=
  {| usr_id := 1; usr_full_name := "Admin"; usr_email := "admin@example.com";
     usr_role := Some "admin"; usr_center_id := Some 1 |}.

Definition student : User :=
  {| usr_id := 2; usr_full_name := "Student"; usr_email := "student@example.com";
     usr_role := Some "student"; usr_center_id := Some 1 |}.

Definition writing_form : create_form :=
  {| f_title := Some " Writing Sample 1 "; f_section := Some "writing";
     f_level := None; f_duration := Int_value 40;
     f_audio := Some {| up_filename := "../intro/part1.mp3"; up_saved := true |} |}.

(** A form without a title. *)
Definition untitled_form : create_form :=
  {| f_title := None; f_section := None; f_level := None;
     f_duration := Int_default; f_audio := None |}.

(** An item with no key at all, and one with its fields given. *)
Definition bare_item : import_item :=
  {| i_qtype := None; i_prompt := None; i_options := None;
     i_answer_key := None; i_order := Order_absent |}.

Definition essay_item : import_item :=
  {| i_qtype := Some (Some "gap"); i_prompt := Some "Describe the chart";
     i_options := None; i_answer_key := Some None; i_order := Order_int 1 |}.

Definition writing_file : upload := Items [Item essay_item; Item bare_item].


(** The database is seeded; the student sits the listening test and the
    administrator the reading test; a browser whose session names no user
    and the student try what they may not; the administrator creates a
    test and imports its questions. *)
Definition events_before : list event :=
  [Seed inputs;
   Request (Some 2) (Test_start "2025-01-01T10:00:00" "listening-sample-1");
   Request (Some 1) (Test_start "2025-01-01T10:05:00" "reading-sample-1");
   Request (Some 2) (Api_answer 1 1 (Some "B"));
   Request (Some 2) (Api_answer 1 2 (Some " paris "));
   Request (Some 1) (Api_answer 2 4 (Some "1949"));
   Request (Some 3) (Api_answer 1 1 (Some "C"));
   Request (Some 2) (Admin_tests_create 1735725600 writing_form);
   Request (Some 1) (Admin_tests_create 1735725600 writing_form);
   Request (Some 1) (Admin_tests_import 3 writing_file)].

(** Then the student finishes. *)
Definition events : list event :=
  events_before ++
  [Request (Some 2) (Test_finish "2025-01-01T10:30:00" "listening-sample-1" 1)].

Definition before : Site :=
  run_all (H := AsciiStr.methods) (H0 := AsciiSlug.methods) events_before empty_site.

Definition site : Site :=
  run_all (H := AsciiStr.methods) (H0 := AsciiSlug.methods) events empty_site.

End Sample.

(* ================================================================== *)
(** * Part II.  Properties                                             *)
(* ================================================================== *)

(* ------------------------------------------------------------------ *)
(** ** Rounding of the quotient of two integers                        *)
(* ------------------------------------------------------------------ *)

Lemma digits2_pos_bounds (p : positive) :
  2 ^ (Zpos (digits2_pos p) - 1) <= Zpos p < 2 ^ Zpos (digits2_pos p).
Proof.
  induction p as [p IH | p IH |]; cbn [digits2_pos].
  - rewrite Pos2Z.inj_succ.
    replace (Z.succ (Zpos (digits2_pos p)) - 1) with (Z.succ (Zpos (digits2_pos p) - 1)) by lia.
    rewrite !Z.pow_succ_r by lia. lia.
  - rewrite Pos2Z.inj_succ.
    replace (Z.succ (Zpos (digits2_pos p)) - 1) with (Z.succ (Zpos (digits2_pos p) - 1)) by lia.
    rewrite !Z.pow_succ_r by lia. lia.
  - cbn. lia.
Qed.

Lemma Zdigits2_bounds (z : Z) :
  0 < z -> 0 < Zdigits2 z /\ 2 ^ (Zdigits2 z - 1) <= z < 2 ^ Zdigits2 z.
Proof.
  destruct z as [|p|p]; try lia. intros _. cbn [Zdigits2].
  split; [lia | apply digits2_pos_bounds].
Qed.

Lemma Zdigits2_le (z n : Z) : 0 < z < 2 ^ n -> 0 <= n -> Zdigits2 z <= n.
Proof.
  intros Hz Hn. destruct (Zdigits2_bounds z (proj1 Hz)) as [Hd [Hlo _]].
  destruct (Z.le_gt_cases (Zdigits2 z) n) as [|G]; [assumption|exfalso].
  assert (2 ^ n <= 2 ^ (Zdigits2 z - 1)) by (apply Z.pow_le_mono_r; lia). lia.
Qed.

Lemma Zdigits2_ge (z n : Z) : 2 ^ n <= z -> 0 <= n -> n < Zdigits2 z.
Proof.
  intros Hz Hn.
  assert (0 < z) by (pose proof (Z.pow_pos_nonneg 2 n); lia).
  destruct (Zdigits2_bounds z ltac:(assumption)) as [Hd [_ Hhi]].
  destruct (Z.lt_ge_cases n (Zdigits2 z)) as [|G]; [assumption|exfalso].
  assert (2 ^ Zdigits2 z <= 2 ^ n) by (apply Z.pow_le_mono_r; lia). lia.
Qed.

Lemma new_location_spec (b r : Z) :
  0 < b -> 0 <= r < b -> new_location b r = loc_of_rem b r.
Proof.
  intros Hb Hr. unfold new_location, new_location_even, new_location_odd, loc_of_rem.
  destruct (Z.even b) eqn:Ev.
  - reflexivity.
  - destruct (r =? 0); [reflexivity|]. f_equal.
    assert (Hodd : Z.odd b = true) by (rewrite <- Z.negb_even, Ev; reflexivity).
    apply Z.odd_spec in Hodd. destruct Hodd as [k Hk].
    destruct (2 * r + 1 ?= b) eqn:C.
    + apply Z.compare_eq in C. symmetry. apply Z.compare_lt_iff. lia.
    + rewrite Z.compare_lt_iff in C. symmetry. apply Z.compare_lt_iff. lia.
    + rewrite Z.compare_gt_iff in C. symmetry. apply Z.compare_gt_iff. lia.
Qed.

Ltac compare_facts :=
  repeat match goal with
  | H : (_ =? _) = true |- _ => apply Z.eqb_eq in H
  | H : (_ =? _) = false |- _ => apply Z.eqb_neq in H
  | H : (_ ?= _) = Eq |- _ => apply Z.compare_eq_iff in H
  | H : (_ ?= _) = Lt |- _ => rewrite Z.compare_lt_iff in H
  | H : (_ ?= _) = Gt |- _ => rewrite Z.compare_gt_iff in H
  end.

Ltac pow_consts :=
  change (2 ^ 52) with 4503599627370496 in *;
  change (2 ^ 53) with 9007199254740992 in *;
  change (2 ^ 54) with 18014398509481984 in *.

(** Decides [loc_of_rem] in the goal from the facts at hand. *)
Ltac decide_loc :=
  unfold loc_of_rem;
  repeat match goal with
  | |- context [?x =? 0] => destruct (x =? 0) eqn:?
  | |- context [?x ?= ?y] => destruct (x ?= y) eqn:?
  end;
  compare_facts; first [reflexivity | exfalso; lia].

(** One shift: the location of [(q*b + r) / (2*b)] between [q/2] and
    [q/2 + 1]. *)
Lemma shr_1_of_rem (b q r : Z) :
  0 < b -> 0 <= r < b -> 0 <= q ->
  shr_1 (shr_record_of_loc q (loc_of_rem b r)) =
  shr_record_of_loc (q / 2) (loc_of_rem (2 * b) ((q mod 2) * b + r)).
Proof.
  intros Hb Hr Hq.
  assert (Hdiv : forall p, Zpos p~0 / 2 = Zpos p /\ Zpos p~0 mod 2 = 0).
  { intros p. rewrite (Pos2Z.inj_xO p). rewrite Z.mul_comm.
    rewrite Z.div_mul, Z.mod_mul by lia. auto. }
  assert (Hdiv' : forall p, Zpos p~1 / 2 = Zpos p /\ Zpos p~1 mod 2 = 1).
  { intros p. rewrite (Pos2Z.inj_xI p).
    replace (2 * Zpos p + 1) with (1 + Zpos p * 2) by lia.
    rewrite Z.div_add, Z.mod_add by lia. cbn. auto. }
  destruct q as [|[p|p|]|]; try lia.
  - change (0 / 2) with 0. change (0 mod 2) with 0.
    unfold loc_of_rem at 1.
    destruct (r =? 0) eqn:E0; [| destruct (2 * r ?= b) eqn:C];
      cbn [shr_record_of_loc shr_1 orb]; compare_facts; decide_loc.
  - destruct (Hdiv' p) as [-> ->]. unfold loc_of_rem at 1.
    destruct (r =? 0) eqn:E0; [| destruct (2 * r ?= b) eqn:C];
      cbn [shr_record_of_loc shr_1 orb]; compare_facts; decide_loc.
  - destruct (Hdiv p) as [-> ->]. unfold loc_of_rem at 1.
    destruct (r =? 0) eqn:E0; [| destruct (2 * r ?= b) eqn:C];
      cbn [shr_record_of_loc shr_1 orb]; compare_facts; decide_loc.
  - change (1 / 2) with 0. change (1 mod 2) with 1. unfold loc_of_rem at 1.
    destruct (r =? 0) eqn:E0; [| destruct (2 * r ?= b) eqn:C];
      cbn [shr_record_of_loc shr_1 orb]; compare_facts; decide_loc.
Qed.

(** Two shifts in a row are one shift by the sum. *)
Lemma shift_compose (b q r P Q : Z) :
  0 < b -> 0 <= r < b -> 0 <= q -> 0 < P -> 0 < Q ->
  q / P / Q = q / (P * Q) /\
  (q / P) mod Q * (P * b) + (q mod P * b + r) = q mod (P * Q) * b + r /\
  0 <= q mod P * b + r < P * b /\ 0 <= q / P.
Proof.
  intros Hb Hr Hq HP HQ.
  pose proof (Z.mod_pos_bound q P HP) as HmP.
  split; [apply Z.div_div; lia|]. split; [| split].
  - rewrite (Z.rem_mul_r q P Q) by lia. ring.
  - nia.
  - apply Z.div_pos; lia.
Qed.

Lemma pow2_xO (k : positive) : 2 ^ Zpos k~0 = 2 ^ Zpos k * 2 ^ Zpos k.
Proof.
  replace (Zpos k~0) with (Zpos k + Zpos k) by lia.
  apply Z.pow_add_r; lia.
Qed.

Lemma pow2_xI (k : positive) : 2 ^ Zpos k~1 = 2 * (2 ^ Zpos k * 2 ^ Zpos k).
Proof.
  replace (Zpos k~1) with (1 + (Zpos k + Zpos k)) by lia.
  rewrite !Z.pow_add_r by lia. reflexivity.
Qed.

(** [k] shifts: the location of [(q*b + r) / (2^k * b)]. *)
Lemma iter_pos_shr_1 (k : positive) :
  forall b q r, 0 < b -> 0 <= r < b -> 0 <= q ->
  iter_pos shr_1 k (shr_record_of_loc q (loc_of_rem b r)) =
  shr_record_of_loc (q / 2 ^ Zpos k)
                    (loc_of_rem (2 ^ Zpos k * b) ((q mod 2 ^ Zpos k) * b + r)).
Proof.
  induction k as [k IH | k IH |]; intros b q r Hb Hr Hq; cbn [iter_pos].
  - (* 2k + 1 *)
    assert (HP : 0 < 2 ^ Zpos k) by (apply Z.pow_pos_nonneg; lia).
    rewrite shr_1_of_rem by assumption.
    destruct (shift_compose b q r 2 (2 ^ Zpos k) Hb Hr Hq ltac:(lia) HP)
      as [E1 [E2 [B1 B2]]].
    rewrite IH by (try assumption; lia).
    destruct (shift_compose (2 * b) (q / 2) (q mod 2 * b + r) (2 ^ Zpos k) (2 ^ Zpos k)
                ltac:(lia) B1 B2 HP HP) as [E3 [E4 [B3 B4]]].
    rewrite IH by (try assumption; nia).
    rewrite pow2_xI.
    rewrite E3, E4.
    destruct (shift_compose b q r 2 (2 ^ Zpos k * 2 ^ Zpos k) Hb Hr Hq ltac:(lia) ltac:(nia))
      as [E5 [E6 _]].
    rewrite E5, E6. f_equal. f_equal. ring.
  - (* 2k *)
    assert (HP : 0 < 2 ^ Zpos k) by (apply Z.pow_pos_nonneg; lia).
    destruct (shift_compose b q r (2 ^ Zpos k) (2 ^ Zpos k) Hb Hr Hq HP HP)
      as [E1 [E2 [B1 B2]]].
    rewrite IH by assumption.
    rewrite IH by (try assumption; nia).
    rewrite pow2_xO.
    rewrite E1, E2. f_equal. f_equal. ring.
  - change (2 ^ 1) with 2. apply shr_1_of_rem; assumption.
Qed.

Lemma Zdigits2_unique (z n : Z) :
  0 < n -> 2 ^ (n - 1) <= z < 2 ^ n -> Zdigits2 z = n.
Proof.
  intros Hn [Hlo Hhi].
  pose proof (Zdigits2_le z n) as Hle. pose proof (Zdigits2_ge z (n - 1)) as Hge.
  assert (0 < z) by (pose proof (Z.pow_pos_nonneg 2 (n - 1)); lia).
  lia.
Qed.

Lemma fexp_normal (x : Z) :
  emin prec emax + prec <= x -> fexp prec emax x = x - prec.
Proof. unfold fexp. lia. Qed.

Lemma shr_m_of_loc m l : shr_m (shr_record_of_loc m l) = m.
Proof. destruct l as [|[]]; reflexivity. Qed.

Lemma loc_of_shr_of_loc m l : loc_of_shr_record (shr_record_of_loc m l) = l.
Proof. destruct l as [|[]]; reflexivity. Qed.

(** The first alignment of [binary_round_aux] on a quotient of at least 53
    bits: the bits beyond 53 are shifted out, [k] of them. *)
Lemma shr_fexp_quotient (b q r e : Z) :
  0 < b -> 0 <= r < b -> 2 ^ 52 <= q -> emin prec emax <= e ->
  let k := Zdigits2 q - 53 in
  0 <= k /\ 2 ^ 52 <= q / 2 ^ k < 2 ^ 53 /\
  shr_fexp prec emax q e (loc_of_rem b r) =
    (shr_record_of_loc (q / 2 ^ k) (loc_of_rem (2 ^ k * b) ((q mod 2 ^ k) * b + r)),
     e + k).
Proof.
  intros Hb Hr Hq He k.
  assert (Hq0 : 0 < q) by (pow_consts; lia).
  destruct (Zdigits2_bounds q Hq0) as [Hd [Hlo Hhi]].
  pose proof (Zdigits2_ge q 52 Hq ltac:(lia)) as Hd52.
  assert (Hk : 0 <= k) by (unfold k; lia).
  assert (HP : 0 < 2 ^ k) by (apply Z.pow_pos_nonneg; lia).
  assert (Hlo' : 2 ^ k * 2 ^ 52 <= q).
  { rewrite <- Z.pow_add_r by lia. replace (k + 52) with (Zdigits2 q - 1) by (unfold k; lia).
    exact Hlo. }
  assert (Hhi' : q < 2 ^ k * 2 ^ 53).
  { rewrite <- Z.pow_add_r by lia. replace (k + 53) with (Zdigits2 q) by (unfold k; lia).
    exact Hhi. }
  split; [exact Hk|]. split.
  { split; [apply Z.div_le_lower_bound | apply Z.div_lt_upper_bound]; lia. }
  unfold shr_fexp. rewrite fexp_normal by (unfold prec in *; lia).
  replace (Zdigits2 q + e - prec - e) with k by (unfold k, prec; lia).
  unfold shr. destruct k as [|pk|pk] eqn:Ek; try lia.
  - change (2 ^ 0) with 1. rewrite Z.div_1_r, Z.mod_1_r, Z.mul_1_l, Z.mul_0_l, Z.add_0_l, Z.add_0_r.
    reflexivity.
  - rewrite iter_pos_shr_1 by (try assumption; lia). reflexivity.
Qed.

(** The second alignment: a mantissa that rounding carried to [2^53] is
    renormalised. *)
Lemma shr_fexp_after_round (m e : Z) :
  2 ^ 52 <= m <= 2 ^ 53 -> emin prec emax <= e ->
  let r := shr_fexp prec emax m e loc_Exact in
  (shr_m (fst r), snd r) = if m =? 2 ^ 53 then (2 ^ 52, e + 1) else (m, e).
Proof.
  intros Hm He. unfold shr_fexp.
  destruct (m =? 2 ^ 53) eqn:E.
  - apply Z.eqb_eq in E. subst m.
    change (Zdigits2 (2 ^ 53)) with 54.
    rewrite fexp_normal by (unfold prec in *; lia).
    replace (54 + e - prec - e) with 1 by (unfold prec; lia).
    reflexivity.
  - apply Z.eqb_neq in E.
    rewrite (Zdigits2_unique m 53) by lia.
    rewrite fexp_normal by (unfold prec in *; lia).
    replace (53 + e - prec - e) with 0 by (unfold prec; lia).
    reflexivity.
Qed.

Lemma binary_round_aux_stage2 (mx ex : Z) (lx : location) mrs e1 m1 :
  shr_fexp prec emax mx ex lx = (mrs, e1) ->
  round_nearest_even (shr_m mrs) (loc_of_shr_record mrs) = m1 ->
  2 ^ 52 <= m1 <= 2 ^ 53 ->
  emin prec emax <= e1 < emax - prec ->
  binary_round_aux prec emax false mx ex lx =
    if m1 =? 2 ^ 53 then S754_finite false (2 ^ 52) (e1 + 1)
    else S754_finite false (Z.to_pos m1) e1.
Proof.
  intros H1 H2 Hm He. unfold binary_round_aux. rewrite H1, H2.
  pose proof (shr_fexp_after_round m1 e1 Hm (proj1 He)) as H3. cbv zeta in H3.
  destruct (shr_fexp prec emax m1 e1 loc_Exact) as [mrs2 e2]. cbn [fst snd] in H3.
  destruct (m1 =? 2 ^ 53) eqn:E; injection H3 as Hm2 He2; rewrite Hm2, He2.
  - change (2 ^ 52) with (Zpos (2 ^ 52)).
    assert (Hle : (e1 + 1 <=? emax - prec) = true) by (apply Z.leb_le; lia).
    rewrite Hle. reflexivity.
  - assert (Hle : (e1 <=? emax - prec) = true) by (apply Z.leb_le; lia).
    rewrite Hle. destruct m1 as [|p|p]; [exfalso | reflexivity | exfalso].
    + change (2 ^ 52) with 4503599627370496 in Hm. lia.
    + change (2 ^ 52) with 4503599627370496 in Hm. lia.
Qed.

Lemma round_nearest_even_rem_bounds (b q r : Z) :
  0 < b -> 0 <= r < b ->
  let m1 := round_nearest_even q (loc_of_rem b r) in
  q <= m1 <= q + 1 /\ (2 * m1 - 1) * b <= 2 * (q * b + r) <= (2 * m1 + 1) * b.
Proof.
  intros Hb Hr. unfold round_nearest_even, loc_of_rem.
  destruct (r =? 0) eqn:E0; [| destruct (2 * r ?= b) eqn:C; [destruct (Z.even q) | |]];
    compare_facts; cbv zeta; lia.
Qed.

(** Rounding a quotient [q] with remainder [r]: the result is normal and
    within one half of [(q*b + r) / b] in its last place. *)
Lemma binary_round_aux_div (b q r e : Z) :
  0 < b -> 0 <= r < b -> 2 ^ 52 <= q ->
  emin prec emax <= e -> e + (Zdigits2 q - 53) + 1 <= emax - prec ->
  exists m c,
    binary_round_aux prec emax false q e (loc_of_rem b r) = S754_finite false m (e + c)
    /\ rounds_to (q * b + r) b m c.
Proof.
  intros Hb Hr Hq He Hmax.
  destruct (shr_fexp_quotient b q r e Hb Hr Hq He) as [Hk [Hh Hshr]].
  set (k := Zdigits2 q - 53) in *.
  assert (HP : 0 < 2 ^ k) by (apply Z.pow_pos_nonneg; lia).
  assert (Hb' : 0 < 2 ^ k * b) by nia.
  pose proof (Z.mod_pos_bound q (2 ^ k) HP) as Hmod.
  assert (Hr' : 0 <= q mod 2 ^ k * b + r < 2 ^ k * b) by nia.
  pose proof (round_nearest_even_rem_bounds (2 ^ k * b) (q / 2 ^ k) _ Hb' Hr') as Hrne.
  cbv zeta in Hrne.
  set (m1 := round_nearest_even (q / 2 ^ k) (loc_of_rem (2 ^ k * b) (q mod 2 ^ k * b + r))) in *.
  assert (HN : q / 2 ^ k * (2 ^ k * b) + (q mod 2 ^ k * b + r) = q * b + r).
  { rewrite (Z.div_mod q (2 ^ k)) at 3 by lia. ring. }
  rewrite HN in Hrne.
  rewrite (binary_round_aux_stage2 q e _ _ (e + k) m1 Hshr);
    [ | rewrite shr_m_of_loc, loc_of_shr_of_loc; reflexivity | pow_consts; lia | lia ].
  set (B := 2 ^ k * b) in *.
  destruct (m1 =? 2 ^ 53) eqn:E; compare_facts.
  - exists (2 ^ 52)%positive, (k + 1). rewrite Z.add_assoc. split; [reflexivity|].
    unfold rounds_to. change (Zpos (2 ^ 52)) with (2 ^ 52).
    rewrite Z.pow_add_r by lia. change (2 ^ 1) with 2.
    replace ((2 * 2 ^ 52 - 1) * (2 ^ k * 2) * b) with ((2 * 2 ^ 52 - 1) * 2 * B) by (unfold B; ring).
    replace ((2 * 2 ^ 52 + 1) * (2 ^ k * 2) * b) with ((2 * 2 ^ 52 + 1) * 2 * B) by (unfold B; ring).
    pow_consts. lia.
  - exists (Z.to_pos m1), k. split; [reflexivity|].
    unfold rounds_to. rewrite Z2Pos.id by (pow_consts; lia).
    replace ((2 * m1 - 1) * 2 ^ k * b) with ((2 * m1 - 1) * B) by (unfold B; ring).
    replace ((2 * m1 + 1) * 2 ^ k * b) with ((2 * m1 + 1) * B) by (unfold B; ring).
    pow_consts. lia.
Qed.

Lemma SFdiv_core_int (a b : Z) :
  0 < a < 2 ^ 1023 -> 0 < b < 2 ^ 53 ->
  let s := div_shift a b in
  let q := a * 2 ^ s / b in
  0 <= s <= 105 /\ 2 ^ 52 <= q /\ Zdigits2 q <= 1023 + s /\
  SFdiv_core_binary prec emax a 0 b 0 = (q, - s, loc_of_rem b ((a * 2 ^ s) mod b)).
Proof.
  intros Ha Hb s q.
  destruct (Zdigits2_bounds a (proj1 Ha)) as [Hda [Halo Hahi]].
  destruct (Zdigits2_bounds b (proj1 Hb)) as [Hdb [Hblo Hbhi]].
  pose proof (Zdigits2_le b 53 Hb ltac:(lia)) as Hdb'.
  assert (Hs : 0 <= s <= 105) by (unfold s, div_shift; lia).
  assert (HP : 0 < 2 ^ s) by (apply Z.pow_pos_nonneg; lia).
  assert (Hq : 2 ^ 52 <= q).
  { apply Z.div_le_lower_bound; [lia|].
    assert (E : 2 ^ 52 * 2 ^ Zdigits2 b <= 2 ^ (Zdigits2 a - 1) * 2 ^ s).
    { rewrite <- !Z.pow_add_r by lia. apply Z.pow_le_mono_r; [lia|].
      unfold s, div_shift. lia. }
    assert (2 ^ (Zdigits2 a - 1) * 2 ^ s <= a * 2 ^ s)
      by (apply Z.mul_le_mono_nonneg_r; lia).
    assert (b * 2 ^ 52 <= 2 ^ Zdigits2 b * 2 ^ 52)
      by (apply Z.mul_le_mono_nonneg_r; [apply Z.pow_nonneg|]; lia).
    lia. }
  assert (Hdq : Zdigits2 q <= 1023 + s).
  { apply Zdigits2_le; [| lia]. split; [pow_consts; lia|].
    apply Z.div_lt_upper_bound; [lia|].
    rewrite Z.pow_add_r by lia.
    assert (a * 2 ^ s < 2 ^ 1023 * 2 ^ s) by (apply Z.mul_lt_mono_pos_r; lia).
    assert (2 ^ 1023 * 2 ^ s <= b * (2 ^ 1023 * 2 ^ s)) by nia.
    lia. }
  split; [exact Hs|]. split; [exact Hq|]. split; [exact Hdq|].
  unfold SFdiv_core_binary.
  replace (Z.min (fexp prec emax (Zdigits2 a + 0 - (Zdigits2 b + 0))) (0 - 0)) with (- s)
    by (unfold fexp, emin, prec, emax, s, div_shift; lia).
  replace (0 - 0 - - s) with s by lia.
  pose proof (Z.mod_pos_bound (a * 2 ^ s) b (proj1 Hb)) as Hr.
  unfold q. clear Hq Hdq q.
  destruct s as [|ps|ps] eqn:Es; try lia.
  - change (2 ^ 0) with 1 in *. rewrite Z.mul_1_r in *.
    unfold Z.div, Z.modulo in *.
    destruct (Z.div_eucl a b) as [q r].
    rewrite new_location_spec by lia. reflexivity.
  - rewrite Z.shiftl_mul_pow2 by lia.
    unfold Z.div, Z.modulo in *.
    destruct (Z.div_eucl (a * 2 ^ Zpos ps) b) as [q r].
    rewrite new_location_spec by lia. reflexivity.
Qed.

(** The quotient of two positive integers: a normal binary64 within one
    half of [a / b] in its last place. *)
Lemma SFdiv_int_spec (a b : Z) :
  0 < a < 2 ^ 1023 -> 0 < b < 2 ^ 53 ->
  exists m s c,
    SFdiv prec emax (of_int a) (of_int b) = S754_finite false m (c - s)
    /\ 0 <= s /\ rounds_to (a * 2 ^ s) b m c.
Proof.
  intros Ha Hb.
  destruct (SFdiv_core_int a b Ha Hb) as [Hs [Hq [Hdq Hcore]]].
  set (s := div_shift a b) in *.
  pose proof (Z.mod_pos_bound (a * 2 ^ s) b (proj1 Hb)) as Hr.
  destruct (binary_round_aux_div b (a * 2 ^ s / b) ((a * 2 ^ s) mod b) (- s)
              (proj1 Hb) Hr Hq) as [m [c [Hres Hrt]]].
  { unfold emin, emax, prec. lia. }
  { unfold emax, prec. lia. }
  exists m, s, c. split; [| split; [lia|]].
  - destruct a as [|pa|pa]; try lia. destruct b as [|pb|pb]; try lia.
    cbn [of_int SFdiv xorb]. rewrite Hcore. rewrite Hres. f_equal. lia.
  - replace (a * 2 ^ s / b * b + (a * 2 ^ s) mod b) with (a * 2 ^ s) in Hrt; [exact Hrt|].
    rewrite (Z.div_mod (a * 2 ^ s) b) at 1 by lia. lia.
Qed.

Lemma SFleb_pos_finite (M m : positive) (E e : Z) :
  SFleb (S754_finite false M E) (S754_finite false m e) =
  (E <? e) || ((E =? e) && (Zpos M <=? Zpos m)).
Proof.
  unfold SFleb, SFcompare.
  destruct (Z.compare_spec E e) as [Heq | Hlt | Hgt].
  - subst e. rewrite Z.ltb_irrefl, Z.eqb_refl. cbn [orb andb].
    change (Pos.compare_cont Eq M m) with (Zpos M ?= Zpos m).
    destruct (Z.compare_spec (Zpos M) (Zpos m)); symmetry;
      [apply Z.leb_le | apply Z.leb_le | apply Z.leb_gt]; lia.
  - replace (E <? e) with true by (symmetry; apply Z.ltb_lt; lia). reflexivity.
  - replace (E <? e) with false by (symmetry; apply Z.ltb_ge; lia).
    replace (E =? e) with false by (symmetry; apply Z.eqb_neq; lia). reflexivity.
Qed.

(** What a rounded quotient of exponent [c - s] says of [a / b], by the
    place of that exponent against [- n]. *)
Lemma rounds_to_cases (a b : Z) (m : positive) (s c n : Z) :
  rounds_to (a * 2 ^ s) b m c -> 0 <= s -> 0 < a -> 0 < b -> 0 < n ->
  (- n < c - s -> (2 * Zpos m - 1) * b <= 2 ^ n * a) /\
  (- n = c - s -> (2 * Zpos m - 1) * b <= 2 ^ (n + 1) * a <= (2 * Zpos m + 1) * b) /\
  (c - s < - n -> 2 ^ (n + 2) * a <= (2 * Zpos m + 1) * b).
Proof.
  intros [Hc [Hm [Hlo Hhi]]] Hs Ha Hb Hn.
  assert (HC : 0 < 2 ^ c) by (apply Z.pow_pos_nonneg; lia).
  assert (cancel : forall x y, x * 2 ^ c <= y * 2 ^ c -> x <= y).
  { intros x y H. apply Z.mul_le_mono_pos_r in H; assumption. }
  split; [| split]; intros Hcmp.
  - assert (Hp : 2 ^ s <= 2 ^ c * 2 ^ (n - 1)).
    { rewrite <- Z.pow_add_r by lia. apply Z.pow_le_mono_r; lia. }
    assert (a * 2 ^ s <= a * (2 ^ c * 2 ^ (n - 1))) by (apply Z.mul_le_mono_nonneg_l; lia).
    apply cancel.
    replace (2 ^ n) with (2 * 2 ^ (n - 1))
      by (rewrite <- Z.pow_succ_r by lia; f_equal; lia).
    nia.
  - assert (Hp : 2 ^ s = 2 ^ c * 2 ^ n).
    { rewrite <- Z.pow_add_r by lia. f_equal. lia. }
    rewrite Hp in Hlo, Hhi. rewrite Z.pow_add_r by lia. change (2 ^ 1) with 2.
    split; apply cancel; nia.
  - assert (Hp : 2 ^ c * 2 ^ (n + 1) <= 2 ^ s).
    { rewrite <- Z.pow_add_r by lia. apply Z.pow_le_mono_r; lia. }
    assert (a * (2 ^ c * 2 ^ (n + 1)) <= a * 2 ^ s) by (apply Z.mul_le_mono_nonneg_l; lia).
    apply cancel.
    replace (2 ^ (n + 2)) with (2 * 2 ^ (n + 1))
      by (rewrite <- Z.pow_succ_r by lia; f_equal; lia).
    nia.
Qed.

(** [a/b >= num/den] decided on the rounded quotient, for a threshold
    [num/den] (in lowest terms) whose binary64 is [M * 2^(-n)]. *)
Ltac threshold_cases M E n :=
  match goal with
  | Hrt : rounds_to (?a * 2 ^ ?s) ?b ?m ?c |- _ =>
      let Hgt := fresh "Hgt" in let Heq := fresh "Heq" in let Hlt := fresh "Hlt" in
      destruct (rounds_to_cases a b m s c n Hrt ltac:(lia) ltac:(lia) ltac:(lia) ltac:(lia))
        as [Hgt [Heq Hlt]];
      let v1 := eval vm_compute in (2 ^ n) in
      let v2 := eval vm_compute in (2 ^ (n + 1)) in
      let v3 := eval vm_compute in (2 ^ (n + 2)) in
      change (2 ^ n) with v1 in Hgt;
      change (2 ^ (n + 1)) with v2 in Heq;
      change (2 ^ (n + 2)) with v3 in Hlt;
      destruct Hrt as [_ [Hm _]];
      assert (Hmb1 : 2 ^ 52 * b <= Zpos m * b)
        by (apply Z.mul_le_mono_nonneg_r; lia);
      assert (Hmb2 : Zpos m * b <= (2 ^ 53 - 1) * b)
        by (apply Z.mul_le_mono_nonneg_r; lia);
      rewrite SFleb_pos_finite;
      destruct (Z.lt_trichotomy E (c - s)) as [Hc | [Hc | Hc]];
      [ specialize (Hgt Hc);
        replace (E <? c - s) with true by (symmetry; apply Z.ltb_lt; lia);
        cbn [orb]; symmetry; apply Z.leb_le; pow_consts; lia
      | specialize (Heq Hc);
        replace (E <? c - s) with false by (symmetry; apply Z.ltb_ge; lia);
        replace (E =? c - s) with true by (symmetry; apply Z.eqb_eq; lia);
        cbn [orb andb];
        destruct (Z.leb_spec M (Zpos m)) as [HM | HM]; symmetry;
        [ apply Z.leb_le;
          assert (M * b <= Zpos m * b) by (apply Z.mul_le_mono_nonneg_r; lia)
        | apply Z.leb_gt;
          assert (Zpos m * b <= (M - 1) * b) by (apply Z.mul_le_mono_nonneg_r; lia) ];
        pow_consts; lia
      | specialize (Hlt Hc);
        replace (E <? c - s) with false by (symmetry; apply Z.ltb_ge; lia);
        replace (E =? c - s) with false by (symmetry; apply Z.eqb_neq; lia);
        cbn [orb andb]; symmetry; apply Z.leb_gt; pow_consts; lia ]
  end.

Ltac ge_threshold f :=
  let Ha := fresh "Ha" in let Hb := fresh "Hb" in
  intros Ha Hb;
  change (2 ^ 48) with 281474976710656 in Hb;
  match goal with
  | |- ge (SFdiv _ _ (of_int ?a) (of_int ?b)) _ = _ =>
      destruct (SFdiv_int_spec a b Ha ltac:(pow_consts; lia))
        as [m [s [c [Hres [Hs Hrt]]]]];
      rewrite Hres; unfold ge;
      let v := eval vm_compute in f in
      change f with v;
      match v with
      | S754_finite false ?M (Zneg ?n) => threshold_cases (Zpos M) (Zneg n) (Zpos n)
      end
  end.

Section Thresholds.
Variables a b : Z.
Hypothesis Ha : 0 < a < 2 ^ 1023.
Hypothesis Hb : 0 < b <= 2 ^ 48.

Lemma ge_0_95 : ge (SFdiv prec emax (of_int a) (of_int b)) f0_95 = (19 * b <=? 20 * a).
Proof. revert Ha Hb. ge_threshold f0_95. Qed.
Lemma ge_0_9 : ge (SFdiv prec emax (of_int a) (of_int b)) f0_9 = (9 * b <=? 10 * a).
Proof. revert Ha Hb. ge_threshold f0_9. Qed.
Lemma ge_0_85 : ge (SFdiv prec emax (of_int a) (of_int b)) f0_85 = (17 * b <=? 20 * a).
Proof. revert Ha Hb. ge_threshold f0_85. Qed.
Lemma ge_0_75 : ge (SFdiv prec emax (of_int a) (of_int b)) f0_75 = (3 * b <=? 4 * a).
Proof. revert Ha Hb. ge_threshold f0_75. Qed.
Lemma ge_0_7 : ge (SFdiv prec emax (of_int a) (of_int b)) f0_7 = (7 * b <=? 10 * a).
Proof. revert Ha Hb. ge_threshold f0_7. Qed.
Lemma ge_0_65 : ge (SFdiv prec emax (of_int a) (of_int b)) f0_65 = (13 * b <=? 20 * a).
Proof. revert Ha Hb. ge_threshold f0_65. Qed.
Lemma ge_0_6 : ge (SFdiv prec emax (of_int a) (of_int b)) f0_6 = (3 * b <=? 5 * a).
Proof. revert Ha Hb. ge_threshold f0_6. Qed.
Lemma ge_0_55 : ge (SFdiv prec emax (of_int a) (of_int b)) f0_55 = (11 * b <=? 20 * a).
Proof. revert Ha Hb. ge_threshold f0_55. Qed.
Lemma ge_0_5 : ge (SFdiv prec emax (of_int a) (of_int b)) f0_5 = (1 * b <=? 2 * a).
Proof. revert Ha Hb. ge_threshold f0_5. Qed.
Lemma ge_0_45 : ge (SFdiv prec emax (of_int a) (of_int b)) f0_45 = (9 * b <=? 20 * a).
Proof. revert Ha Hb. ge_threshold f0_45. Qed.
End Thresholds.

Lemma Qle_bool_percentage (n : Z) (d : positive) (a b : Z) :
  0 < b ->
  Qle_bool (n # d) (spec_percentage a b) = (n * b <=? Zpos d * a).
Proof.
  intros Hb. destruct b as [|pb|pb]; try lia.
  unfold spec_percentage, Qle_bool, Qdiv, Qinv, Qmult, inject_Z.
  cbn [Qnum Qden].
  destruct (Z.leb_spec (n * Zpos (1 * pb)) (a * 1 * Zpos d));
    symmetry; [apply Z.leb_le | apply Z.leb_gt]; lia.
Qed.

Lemma leb_scale (k x y : Z) : 0 < k -> (k * x <=? k * y) = (x <=? y).
Proof.
  intros Hk. destruct (Z.leb_spec x y); [apply Z.leb_le | apply Z.leb_gt]; nia.
Qed.

(* ------------------------------------------------------------------ *)
(** ** The scoring function                                            *)
(* ------------------------------------------------------------------ *)

Lemma int_truediv_zero (b : Z) : 0 < b -> int_truediv 0 b = Return (S754_zero false).
Proof. intros Hb. destruct b as [|pb|pb]; try lia. reflexivity. Qed.

Lemma int_truediv_finite (a b : Z) :
  0 < a < 2 ^ 1023 -> 0 < b < 2 ^ 53 ->
  int_truediv a b = Return (SFdiv prec emax (of_int a) (of_int b)).
Proof.
  intros Ha Hb. unfold int_truediv.
  replace (b =? 0) with false by (symmetry; apply Z.eqb_neq; lia).
  destruct (SFdiv_int_spec a b Ha Hb) as [m [s [c [Hres _]]]].
  rewrite Hres. reflexivity.
Qed.

(** The chain of float comparisons decides the exact percentage. *)
Lemma band_of_pct_table (a b : Z) :
  0 < a < 2 ^ 1023 -> 0 < b <= 2 ^ 48 ->
  band_of_pct (SFdiv prec emax (of_int a) (of_int b)) =
  spec_band_table (spec_percentage a b).
Proof.
  intros Ha Hb. unfold band_of_pct, spec_band_table.
  rewrite ge_0_95, ge_0_9, ge_0_85, ge_0_75, ge_0_7, ge_0_65, ge_0_6,
          ge_0_55, ge_0_5, ge_0_45 by assumption.
  rewrite !Qle_bool_percentage by lia.
  rewrite <- (leb_scale 5 (19 * b)), <- (leb_scale 10 (9 * b)),
          <- (leb_scale 5 (17 * b)), <- (leb_scale 25 (3 * b)),
          <- (leb_scale 10 (7 * b)), <- (leb_scale 5 (13 * b)),
          <- (leb_scale 20 (3 * b)), <- (leb_scale 5 (11 * b)),
          <- (leb_scale 50 (1 * b)), <- (leb_scale 5 (9 * b)) by lia.
  repeat match goal with
         | |- context [?k * (?n * b)] =>
             replace (k * (n * b)) with ((k * n) * b) by lia
         | |- context [?k * (?n * a)] =>
             replace (k * (n * a)) with ((k * n) * a) by lia
         end.
  reflexivity.
Qed.

(** The band computation returns on every count a table can hold here. *)
Lemma band_from_raw_returns (raw total : Z) :
  0 <= raw < 2 ^ 1023 -> 0 <= total <= 2 ^ 48 ->
  exists band, band_from_raw raw total = Return band.
Proof.
  intros Hr Ht. unfold band_from_raw.
  destruct (Z.eqb_spec total 0) as [-> | Hnz]; [eexists; reflexivity|].
  assert (Hz : raw = 0 \/ 0 < raw < 2 ^ 1023) by lia.
  destruct Hz as [-> | Hpos].
  - rewrite int_truediv_zero by lia. eexists; reflexivity.
  - rewrite int_truediv_finite;
      [eexists; reflexivity | exact Hpos
      | change (2 ^ 48) with 281474976710656 in Ht; pow_consts; lia].
Qed.

(** C2 (as amended): for every pair of natural numbers (correct, total)
    with [0 < total <= 2^48] and [correct < 2^1023], [band_from_raw] returns
    the first matching entry of the threshold table, tested from the
    highest to the lowest on the exact percentage [correct / total]:
    >= 0.95 gives 9.0, >= 0.90 gives 8.5, >= 0.85 gives 8.0, >= 0.75 gives
    7.5, >= 0.70 gives 7.0, >= 0.65 gives 6.5, >= 0.60 gives 6.0, >= 0.55
    gives 5.5, >= 0.50 gives 5.0, >= 0.45 gives 4.5, otherwise 4.0; there
    is no 0.80 threshold. *)
Theorem band_from_raw_table (correct total : Z) :
  0 <= correct < 2 ^ 1023 -> 0 < total <= 2 ^ 48 ->
  band_from_raw correct total =
    Return (spec_band_table (spec_percentage correct total)).
Proof.
  intros Hc Ht. unfold band_from_raw.
  replace (total =? 0) with false by (symmetry; apply Z.eqb_neq; lia).
  assert (Hz : correct = 0 \/ 0 < correct < 2 ^ 1023) by lia.
  destruct Hz as [-> | Hpos].
  - rewrite int_truediv_zero by lia. reflexivity.
  - rewrite int_truediv_finite;
      [ | exact Hpos | change (2 ^ 48) with 281474976710656 in Ht; pow_consts; lia].
    f_equal. apply band_of_pct_table; assumption.
Qed.

(* ------------------------------------------------------------------ *)
(** ** Tables                                                          *)
(* ------------------------------------------------------------------ *)

Section TableFacts.
Context {row : Type}.
Implicit Types (p q : row -> bool) (f : row -> row) (t : list row).

Lemma select_one_some p t r :
  Sql.select_one p t = Some r -> In r t /\ p r = true.
Proof. apply find_some. Qed.

Lemma select_one_none p t r :
  Sql.select_one p t = None -> In r t -> p r = false.
Proof. intros Hn Hin. exact (find_none p t Hn r Hin). Qed.

Lemma select_one_none_filter p t :
  Sql.select_one p t = None -> filter p t = [].
Proof.
  unfold Sql.select_one. induction t as [|r t IH]; cbn; [reflexivity|].
  destruct (p r); [discriminate | exact IH].
Qed.

(** An update that keeps the selecting column rewrites the selected row. *)
Lemma select_one_update p f t :
  (forall r, p r = true -> p (f r) = true) ->
  Sql.select_one p (Sql.update p f t) = option_map f (Sql.select_one p t).
Proof.
  intros Hf. unfold Sql.select_one, Sql.update.
  induction t as [|r t IH]; cbn; [reflexivity|].
  destruct (p r) eqn:E.
  - rewrite (Hf r E). reflexivity.
  - rewrite E. exact IH.
Qed.

Lemma update_length q f t : List.length (Sql.update q f t) = List.length t.
Proof. apply length_map. Qed.

(** Filtering commutes with an update that keeps the filtered column. *)
Lemma filter_update p q f t :
  (forall r, p (f r) = p r) ->
  filter p (Sql.update q f t) = Sql.update q f (filter p t).
Proof.
  intros Hf. unfold Sql.update. induction t as [|r t IH]; cbn; [reflexivity|].
  destruct (q r) eqn:Eq.
  - rewrite Hf. destruct (p r); cbn; [rewrite Eq|]; rewrite IH; reflexivity.
  - destruct (p r); cbn; [rewrite Eq|]; rewrite IH; reflexivity.
Qed.

(** An update leaves alone the rows it does not select. *)
Lemma update_id_on q f t :
  (forall r, In r t -> q r = false) -> Sql.update q f t = t.
Proof.
  intros Hq. unfold Sql.update. induction t as [|r t IH]; cbn; [reflexivity|].
  rewrite (Hq r (or_introl eq_refl)). f_equal. apply IH.
  intros r' Hin. apply Hq. right. exact Hin.
Qed.

Lemma map_update {K : Type} (key : row -> K) q f t :
  (forall r, key (f r) = key r) -> map key (Sql.update q f t) = map key t.
Proof.
  intros Hk. unfold Sql.update. rewrite map_map. apply map_ext.
  intros r. destruct (q r); [apply Hk | reflexivity].
Qed.

Lemma NoDup_map_inj {K : Type} (key : row -> K) t r r' :
  NoDup (map key t) -> In r t -> In r' t -> key r = key r' -> r = r'.
Proof.
  induction t as [|x t IH]; cbn; [contradiction|].
  intros Hnd Hr Hr' Hk. inversion Hnd as [|? ? Hnotin Hnd']; subst.
  destruct Hr as [-> | Hr], Hr' as [-> | Hr'].
  - reflexivity.
  - exfalso. apply Hnotin. rewrite Hk. apply in_map. exact Hr'.
  - exfalso. apply Hnotin. rewrite <- Hk. apply in_map. exact Hr.
  - apply IH; assumption.
Qed.

(** With a unique key, the rows a key selects are the one [fetchone] finds. *)
Lemma filter_unique {K : Type} (key : row -> K) p t r :
  NoDup (map key t) ->
  (forall x y, In x t -> In y t -> p x = true -> p y = true -> key x = key y) ->
  Sql.select_one p t = Some r -> filter p t = [r].
Proof.
  unfold Sql.select_one. intros Hnd Hk.
  induction t as [|x t IH]; cbn; [discriminate|].
  inversion Hnd as [|? ? Hnotin Hnd']; subst.
  destruct (p x) eqn:E.
  - intros [= ->]. f_equal.
    destruct (filter p t) as [|y l] eqn:F; [reflexivity | exfalso].
    assert (Hy : In y (filter p t)) by (rewrite F; left; reflexivity).
    apply filter_In in Hy. destruct Hy as [Hy Hpy].
    apply Hnotin. rewrite (Hk r y); [apply in_map; exact Hy | left; reflexivity | right; exact Hy | exact E | exact Hpy].
  - intros Hf. apply IH; [exact Hnd' | | exact Hf].
    intros a b Ha Hb. apply Hk; right; assumption.
Qed.
End TableFacts.

Lemma next_rowid_above (ids : list Z) (i : Z) : In i ids -> i < Sql.next_rowid ids.
Proof.
  unfold Sql.next_rowid. induction ids as [|j ids IH]; cbn; [contradiction|].
  intros [-> | Hin]; [lia | specialize (IH Hin); lia].
Qed.

Lemma next_rowid_fresh (ids : list Z) : ~ In (Sql.next_rowid ids) ids.
Proof. intros Hin. apply next_rowid_above in Hin. lia. Qed.

(* ------------------------------------------------------------------ *)
(** ** [api_answer]                                                    *)
(* ------------------------------------------------------------------ *)

Lemma answer_for_iff (sid qid : Z) (a : answers_row) :
  answer_for sid qid a = true <-> (a_submission_id a, a_question_id a) = (sid, qid).
Proof.
  unfold answer_for. rewrite andb_true_iff, !Z.eqb_eq.
  split; [intros [-> ->]; reflexivity | intros [= -> ->]; auto].
Qed.

Lemma answer_for_set_answer sid qid r c a :
  answer_for sid qid (set_answer r c a) = answer_for sid qid a.
Proof. reflexivity. Qed.

Lemma NoDup_snoc {A : Type} (l : list A) (x : A) :
  NoDup l -> ~ In x l -> NoDup (l ++ [x]).
Proof.
  induction l as [|y l IH]; cbn; intros Hnd Hx.
  - constructor; [intros [] | constructor].
  - inversion Hnd as [|? ? Hy Hnd']; subst. constructor.
    + rewrite in_app_iff. cbn. intros [Hin | [-> | []]]; [auto | apply Hx; auto].
    + apply IH; [exact Hnd' | intros Hin; apply Hx; auto].
Qed.

Section ApiAnswer.
Context `{StrMethods}.
Variables (uid sid qid : Z) (db : DB) (sub : submissions_row) (q : questions_row).
Hypothesis Hsub : submission_by_id sid db = Some sub.
Hypothesis Hown : s_user_id sub = uid.
Hypothesis Hq : question_by_id qid db = Some q.

(** The answers table after an accepted call. *)
Lemma api_answer_accepted (r : option string) :
  api_answer uid sid qid r db =
    (set_answers db
       match Sql.select_one (answer_for sid qid) (answers db) with
       | Some existing =>
           Sql.update (fun a => a_id a =? a_id existing)
                      (set_answer (trimmed r) (grade (q_qtype q) (q_answer_key q) (trimmed r))) (answers db)
       | None =>
           Sql.insert {| a_id := Sql.next_rowid (map a_id (answers db));
                         a_submission_id := sid; a_question_id := qid;
                         a_response := trimmed r; a_is_correct := grade (q_qtype q) (q_answer_key q) (trimmed r) |}
                      (answers db)
       end,
     Json_ok (negb (grade (q_qtype q) (q_answer_key q) (trimmed r) =? 0))).
Proof.
  unfold api_answer. rewrite Hsub, Hq.
  replace (s_user_id sub =? uid) with true by (symmetry; apply Z.eqb_eq; exact Hown).
  reflexivity.
Qed.

Lemma api_answer_keeps_rest (r : option string) :
  let db1 := fst (api_answer uid sid qid r db) in
  tests db1 = tests db /\ questions db1 = questions db /\
  submissions db1 = submissions db.
Proof. rewrite api_answer_accepted. cbn. auto. Qed.

(** The rows of every other pair are left as they were. *)
Lemma api_answer_besides (r : option string) :
  answers_pk db ->
  answers_besides sid qid (fst (api_answer uid sid qid r db)) =
  answers_besides sid qid db.
Proof.
  intros Hids. rewrite api_answer_accepted. cbn [fst].
  unfold answers_pk, answers_besides in *. cbn [answers set_answers].
  destruct (Sql.select_one (answer_for sid qid) (answers db)) as [ex|] eqn:Esel.
  - destruct (select_one_some _ _ _ Esel) as [Hin Hp].
    rewrite filter_update by (intros a; rewrite answer_for_set_answer; reflexivity).
    apply update_id_on. intros a Ha.
    apply filter_In in Ha. destruct Ha as [Ha Hnp].
    destruct (a_id a =? a_id ex) eqn:E; [exfalso | reflexivity].
    apply Z.eqb_eq in E.
    rewrite (NoDup_map_inj a_id (answers db) a ex Hids Ha Hin E), Hp in Hnp.
    discriminate.
  - unfold Sql.insert. rewrite filter_app. cbn [filter].
    unfold answer_for at 2. cbn. rewrite !Z.eqb_refl. cbn. apply app_nil_r.
Qed.

(** The upsert on a well-formed answers table. *)
Lemma api_answer_upsert (r : option string) :
  answers_wf db ->
  let db1 := fst (api_answer uid sid qid r db) in
  answers_wf db1 /\
  exists a, answers_of sid qid db1 = [a] /\
            a_response a = trimmed r /\ a_is_correct a = grade (q_qtype q) (q_answer_key q) (trimmed r) /\
            (forall a0, answers_of sid qid db = [a0] -> a_id a = a_id a0) /\
            List.length (answers db1) =
              (List.length (answers db) +
               match answers_of sid qid db with [] => 1 | _ => 0 end)%nat.
Proof.
  intros [Hids Hpairs]. rewrite api_answer_accepted. cbn [fst].
  unfold answers_wf, answers_pk, one_answer_per_pair, answers_of in *.
  cbn [answers set_answers].
  destruct (Sql.select_one (answer_for sid qid) (answers db)) as [ex|] eqn:Esel.
  - (* UPDATE *)
    assert (Hone : filter (answer_for sid qid) (answers db) = [ex]).
    { apply (filter_unique (fun a => (a_submission_id a, a_question_id a)));
        [exact Hpairs | | exact Esel].
      intros x y _ _ Hx Hy. apply answer_for_iff in Hx, Hy. congruence. }
    split; [split|].
    + rewrite map_update by reflexivity. exact Hids.
    + rewrite map_update by reflexivity. exact Hpairs.
    + exists (set_answer (trimmed r) (grade (q_qtype q) (q_answer_key q) (trimmed r)) ex).
      rewrite filter_update by reflexivity. rewrite Hone.
      unfold Sql.update. cbn [map]. rewrite Z.eqb_refl.
      split; [reflexivity|]. split; [reflexivity|]. split; [reflexivity|].
      split; [intros a0 [= <-]; reflexivity|].
      rewrite length_map. lia.
  - (* INSERT *)
    pose proof (select_one_none_filter _ _ Esel) as Hnone.
    unfold Sql.insert.
    assert (Hnew : answer_for sid qid
              {| a_id := Sql.next_rowid (map a_id (answers db));
                 a_submission_id := sid; a_question_id := qid;
                 a_response := trimmed r; a_is_correct := grade (q_qtype q) (q_answer_key q) (trimmed r) |} = true)
      by (unfold answer_for; cbn; rewrite !Z.eqb_refl; reflexivity).
    split; [split|].
    + rewrite map_app. apply NoDup_snoc; [exact Hids | apply next_rowid_fresh].
    + rewrite map_app. apply NoDup_snoc; [exact Hpairs|]. cbn.
      intros Hin. apply in_map_iff in Hin. destruct Hin as [a [Ha Hin]].
      apply answer_for_iff in Ha.
      rewrite (select_one_none _ _ a Esel Hin) in Ha. discriminate.
    + eexists. rewrite filter_app, Hnone. cbn [filter app]. rewrite Hnew.
      split; [reflexivity|]. split; [reflexivity|]. split; [reflexivity|].
      split; [intros a0 Habs; discriminate Habs|].
      rewrite length_app. reflexivity.
Qed.
End ApiAnswer.

(** X1: every state the session engine reaches from a database without
    submissions and answers has a well-formed answers table: distinct
    rowids, and at most one row per (submission, question) pair. *)
Lemma reachable_answers_wf `{StrMethods} (db : DB) : reachable db -> answers_wf db.
Proof.
  induction 1 as [db Hs Ha | rq db Hr IH | ts qs db Hr IH].
  - unfold answers_wf, answers_pk, one_answer_per_pair. rewrite Ha. split; constructor.
  - destruct rq as [u now slug | u s q r | u now slug s]; cbn [handle].
    + unfold test_start. destruct (test_by_slug slug db); exact IH.
    + destruct (submission_by_id s db) as [sub|] eqn:Es;
        [| unfold api_answer; rewrite Es; exact IH].
      destruct (Z.eqb_spec (s_user_id sub) u) as [Hu | Hu];
        [| unfold api_answer; rewrite Es;
           replace (s_user_id sub =? u) with false by (symmetry; apply Z.eqb_neq; exact Hu);
           exact IH].
      destruct (question_by_id q db) as [qu|] eqn:Eq;
        [| unfold api_answer; rewrite Es, Eq;
           destruct (negb (s_user_id sub =? u)); exact IH].
      exact (proj1 (api_answer_upsert u s q db sub qu Es Hu Eq r IH)).
    + unfold test_finish.
      destruct (test_by_slug slug db); [| exact IH].
      destruct (submission_by_id s db) as [sub|]; [| exact IH].
      destruct (negb (s_user_id sub =? u)); [exact IH|].
      destruct (band_from_raw _ _); exact IH.
  - exact IH.
Qed.

Lemma api_answer_all_snoc_cons `{StrMethods} uid sid qid r1 rs db :
  api_answer_all uid sid qid (r1 :: rs) db =
  api_answer_all uid sid qid rs (fst (api_answer uid sid qid r1 db)).
Proof. reflexivity. Qed.

(** C4: for every submission and question, calling SubmitAnswer any number
    of times, with the same or differing responses, leaves exactly one
    stored Answer row for the pair; its response and correctness flag are
    those of the latest call; a later call overwrites the row in place
    (same rowid, no row added) instead of inserting a duplicate. *)
Theorem api_answer_all_one_row `{StrMethods} (uid sid qid : Z)
    (sub : submissions_row) (q : questions_row)
    (rs : list (option string)) (r : option string) (db : DB) :
  answers_wf db ->
  submission_by_id sid db = Some sub -> s_user_id sub = uid ->
  question_by_id qid db = Some q ->
  let db' := api_answer_all uid sid qid (rs ++ [r]) db in
  answers_wf db' /\
  exists a,
    answers_of sid qid db' = [a] /\
    a_response a = trimmed r /\
    a_is_correct a = grade (q_qtype q) (q_answer_key q) (trimmed r) /\
    (forall a0, answers_of sid qid db = [a0] -> a_id a = a_id a0) /\
    List.length (answers db') =
      (List.length (answers db) +
       match answers_of sid qid db with [] => 1 | _ => 0 end)%nat.
Proof.
  revert db. induction rs as [|r1 rs IH]; intros db Hwf Hsub Hown Hq.
  - exact (api_answer_upsert uid sid qid db sub q Hsub Hown Hq r Hwf).
  - cbn [app]. rewrite api_answer_all_snoc_cons.
    destruct (api_answer_upsert uid sid qid db sub q Hsub Hown Hq r1 Hwf)
      as [Hwf1 [a1 [Hone1 [_ [_ [Hid1 Hlen1]]]]]].
    destruct (api_answer_keeps_rest uid sid qid db sub q Hsub Hown Hq r1)
      as [_ [Hqs Hss]].
    set (db1 := fst (api_answer uid sid qid r1 db)) in *.
    assert (Hsub1 : submission_by_id sid db1 = Some sub)
      by (unfold submission_by_id; rewrite Hss; exact Hsub).
    assert (Hq1 : question_by_id qid db1 = Some q)
      by (unfold question_by_id; rewrite Hqs; exact Hq).
    destruct (IH db1 Hwf1 Hsub1 Hown Hq1) as [Hwf' [a [Hone [Hr [Hc [Hid Hlen]]]]]].
    split; [exact Hwf'|]. exists a.
    split; [exact Hone|]. split; [exact Hr|]. split; [exact Hc|]. split.
    + intros a0 Ha0. rewrite (Hid a1 Hone1). exact (Hid1 a0 Ha0).
    + rewrite Hlen, Hone1, Hlen1. lia.
Qed.

(** C9: for every successful SubmitAnswer call the submissions table, and
    with it the addressed submission's row (raw_score, band_score,
    started_at, finished_at), is unchanged; so are tests and questions, and
    every Answer row of another (submission, question) pair. *)
Theorem api_answer_frame `{StrMethods} (uid sid qid : Z) (r : option string)
    (db db' : DB) (is_correct : bool) :
  answers_pk db ->
  api_answer uid sid qid r db = (db', Json_ok is_correct) ->
  submissions db' = submissions db /\
  submission_by_id sid db' = submission_by_id sid db /\
  tests db' = tests db /\ questions db' = questions db /\
  answers_besides sid qid db' = answers_besides sid qid db.
Proof.
  intros Hpk Hcall.
  destruct (submission_by_id sid db) as [sub|] eqn:Es;
    [| unfold api_answer in Hcall; rewrite Es in Hcall; discriminate].
  destruct (Z.eqb_spec (s_user_id sub) uid) as [Hu | Hu];
    [| unfold api_answer in Hcall; rewrite Es in Hcall;
       replace (s_user_id sub =? uid) with false in Hcall
         by (symmetry; apply Z.eqb_neq; exact Hu);
       discriminate].
  destruct (question_by_id qid db) as [q|] eqn:Eq;
    [| unfold api_answer in Hcall; rewrite Es, Eq in Hcall;
       destruct (negb (s_user_id sub =? uid)); discriminate].
  pose proof (api_answer_keeps_rest uid sid qid db sub q Es Hu Eq r) as [Ht [Hq Hs]].
  pose proof (api_answer_besides uid sid qid db sub q Es Hu Eq r Hpk) as Hb.
  rewrite Hcall in Ht, Hq, Hs, Hb. cbn [fst] in *.
  repeat split; try assumption.
  unfold submission_by_id. rewrite Hs. exact Es.
Qed.


(* ------------------------------------------------------------------ *)
(** ** [test_finish]                                                   *)
(* ------------------------------------------------------------------ *)

(** The run of an accepted finish request. *)
Lemma test_finish_accepted (uid : Z) (now slug : string) (sid : Z)
    (db : DB) (test : tests_row) (sub : submissions_row) (band : float) :
  test_by_slug slug db = Some test ->
  submission_by_id sid db = Some sub ->
  s_user_id sub = uid ->
  band_from_raw (count_correct sid db) (count_questions (t_id test) db) = Return band ->
  test_finish uid now slug sid db =
    (set_submissions db
       (Sql.update (fun s => s_id s =? sid)
                   (set_score (count_correct sid db) band now) (submissions db)),
     Redirect_results_view sid).
Proof.
  intros Ht Hs Hu Hband. unfold test_finish. rewrite Ht, Hs.
  replace (s_user_id sub =? uid) with true by (symmetry; apply Z.eqb_eq; exact Hu).
  cbn [negb]. rewrite Hband. reflexivity.
Qed.

Lemma submission_by_id_set_score (sid raw : Z) (band : float) (now : string)
    (db : DB) (sub : submissions_row) :
  submission_by_id sid db = Some sub ->
  submission_by_id sid
    (set_submissions db
       (Sql.update (fun s => s_id s =? sid) (set_score raw band now) (submissions db)))
  = Some (set_score raw band now sub).
Proof.
  intros Hs. unfold submission_by_id in *. cbn [submissions set_submissions].
  rewrite select_one_update by (intros s Hp; exact Hp).
  rewrite Hs. reflexivity.
Qed.


(** X2: the end-to-end scenario of the specification.  On a test of 20
    questions, a submission with 17 answers flagged correct finishes with
    raw_score 17 and band_score 8.0. *)
Lemma test_finish_17_of_20 (uid : Z) (now slug : string) (sid : Z)
    (db : DB) (test : tests_row) (sub : submissions_row) :
  test_by_slug slug db = Some test ->
  submission_by_id sid db = Some sub ->
  s_user_id sub = uid ->
  count_questions (t_id test) db = 20 ->
  count_correct sid db = 17 ->
  exists sub',
    submission_by_id sid (fst (test_finish uid now slug sid db)) = Some sub' /\
    s_raw_score sub' = 17 /\ s_band_score sub' = f8_0 /\ denotes (s_band_score sub') 8.
Proof.
  intros Ht Hs Hu Hq Hc.
  assert (Hband : band_from_raw (count_correct sid db) (count_questions (t_id test) db)
                  = Return f8_0) by (rewrite Hq, Hc; reflexivity).
  rewrite (test_finish_accepted uid now slug sid db test sub f8_0 Ht Hs Hu Hband).
  cbn [fst]. rewrite (submission_by_id_set_score _ _ _ _ _ _ Hs).
  eexists. split; [reflexivity|]. cbn [s_raw_score s_band_score set_score].
  split; [exact Hc|]. split; reflexivity.
Qed.

(* ------------------------------------------------------------------ *)
(** ** [test_start]                                                    *)
(* ------------------------------------------------------------------ *)

(** X3: StartSubmission on a slug that names no test creates no
    Submission row; on an existing test it appends one row, owned by the
    acting user, for that test, with a new id, the start time set, no
    finish time and scores 0 and 0.0, and leaves every other row as it
    was. *)
Lemma test_start_creates_submission (uid : Z) (now slug : string) (db : DB) :
  (test_by_slug slug db = None ->
   test_start uid now slug db = (db, Redirect_dashboard "Test topilmadi")) /\
  (forall test, test_by_slug slug db = Some test ->
   exists sub_id,
     ~ In sub_id (map s_id (submissions db)) /\
     test_start uid now slug db =
       ({| tests := tests db; questions := questions db;
           submissions := submissions db ++
             [{| s_id := sub_id; s_user_id := uid; s_test_id := t_id test;
                 s_started_at := Some now; s_finished_at := None;
                 s_raw_score := 0; s_band_score := f0_0 |}];
           answers := answers db |},
        Redirect_test_take slug sub_id)).
Proof.
  unfold test_start. split.
  - intros ->. reflexivity.
  - intros test ->. eexists. split; [apply next_rowid_fresh | reflexivity].
Qed.

(* ------------------------------------------------------------------ *)
(** ** Grading                                                         *)
(* ------------------------------------------------------------------ *)

Lemma is_mcq_iff (qtype : option string) : is_mcq qtype = true <-> qtype = Some "mcq".
Proof.
  destruct qtype as [t|]; cbn.
  - rewrite String.eqb_eq. split; congruence.
  - split; discriminate.
Qed.

(** C3: for every answer key and response, grading a multiple-choice
    question flags the response correct iff it equals the key exactly
    (case-sensitively), and grading any other question flags it correct
    iff the lower-cased response equals the lower-cased key; the response
    is compared as given, untrimmed. *)
Theorem grade_correct_iff `{StrMethods} (qtype : option string) (key response : string) :
  (grade qtype (Some key) response = 1 \/ grade qtype (Some key) response = 0) /\
  (qtype = Some "mcq" ->
   (grade qtype (Some key) response = 1 <-> response = key)) /\
  (qtype <> Some "mcq" ->
   (grade qtype (Some key) response = 1 <-> lower response = lower key)).
Proof.
  unfold grade. cbn [str_eq_nullable or_empty].
  split; [| split].
  - destruct (is_mcq qtype); [destruct (response =? key)%string | destruct (lower response =? lower key)%string]; auto.
  - intros Hm. apply is_mcq_iff in Hm. rewrite Hm.
    destruct (String.eqb_spec response key); split; intros; try reflexivity; try assumption; try discriminate; contradiction.
  - intros Hm. destruct (is_mcq qtype) eqn:E; [apply is_mcq_iff in E; contradiction|].
    destruct (String.eqb_spec (lower response) (lower key)); split; intros; try reflexivity; try assumption; try discriminate; contradiction.
Qed.

(** C7 (as amended): for every question that is not multiple-choice,
    grading with a null answer key behaves as if the key were the empty
    string, and an empty response against an unset key is flagged correct;
    for a multiple-choice question a null key equals no response, the
    empty one included, so the answer is flagged incorrect. *)
Theorem grade_null_key `{StrMethods} (qtype : option string) (response : string) :
  (qtype <> Some "mcq" ->
   grade qtype None response = grade qtype (Some "") response /\
   grade qtype None "" = 1) /\
  (qtype = Some "mcq" -> grade qtype None response = 0).
Proof.
  unfold grade. split.
  - intros Hm. destruct (is_mcq qtype) eqn:E; [apply is_mcq_iff in E; contradiction|].
    cbn [or_empty]. split; [reflexivity|]. rewrite String.eqb_refl. reflexivity.
  - intros ->. reflexivity.
Qed.

Lemma filter_nil_select_one {row : Type} (p : row -> bool) (t : list row) :
  filter p t = [] -> Sql.select_one p t = None.
Proof.
  unfold Sql.select_one. induction t as [|r t IH]; cbn; [reflexivity|].
  destruct (p r); [discriminate | exact IH].
Qed.

Lemma in_update {row : Type} (q : row -> bool) (f : row -> row) (t : list row) (r : row) :
  In r t -> q r = true -> In (f r) (Sql.update q f t).
Proof.
  intros Hin Hq. unfold Sql.update. apply in_map_iff. exists r.
  rewrite Hq. auto.
Qed.

(** An accepted answer is graded and stored, whichever test its question
    belongs to; a first correct answer adds one to the submission's count. *)
Lemma api_answer_stored `{StrMethods} (uid sid qid : Z) (r : option string) (db : DB)
    (sub : submissions_row) (q : questions_row) :
  submission_by_id sid db = Some sub -> s_user_id sub = uid ->
  question_by_id qid db = Some q ->
  let response := trimmed r in
  let correct := grade (q_qtype q) (q_answer_key q) response in
  let db1 := fst (api_answer uid sid qid r db) in
  snd (api_answer uid sid qid r db) = Json_ok (negb (correct =? 0)) /\
  (exists a, In a (answers db1) /\
             a_submission_id a = sid /\ a_question_id a = qid /\
             a_response a = response /\ a_is_correct a = correct) /\
  (answers_of sid qid db = [] -> correct = 1 ->
   count_correct sid db1 = count_correct sid db + 1) /\
  count_questions (s_test_id sub) db1 = count_questions (s_test_id sub) db.
Proof.
  intros Hsub Hown Hq response correct db1.
  subst db1. rewrite (api_answer_accepted uid sid qid db sub q Hsub Hown Hq r).
  cbn [fst snd]. fold response. fold correct.
  split; [reflexivity|].
  unfold answers_of, count_correct, count_questions, Sql.count.
  cbn [answers questions set_answers].
  destruct (Sql.select_one (answer_for sid qid) (answers db)) as [ex|] eqn:Esel.
  - destruct (select_one_some _ _ _ Esel) as [Hin Hp]. apply answer_for_iff in Hp.
    injection Hp as Hs Hqid.
    split; [| split; [| reflexivity]].
    + exists (set_answer response correct ex).
      split; [apply in_update; [exact Hin | apply Z.eqb_refl]|].
      cbn. auto.
    + intros Hnone. apply filter_nil_select_one in Hnone. congruence.
  - split; [| split; [| reflexivity]].
    + eexists. split; [apply in_or_app; right; left; reflexivity|].
      cbn. auto.
    + intros _ Hc. unfold Sql.insert. rewrite filter_app, length_app.
      cbn [filter a_submission_id a_is_correct]. rewrite Hc, !Z.eqb_refl. cbn. lia.
Qed.

(** Finishing, through the slug of its own test, the submission so
    answered: the stored raw_score counts every row flagged correct, and
    the band is taken against the questions of the submission's test. *)
Lemma test_finish_after_answer `{StrMethods} (uid sid qid : Z) (r : option string)
    (db : DB) (sub : submissions_row) (q : questions_row)
    (now slug : string) (test : tests_row) (band : float) :
  submission_by_id sid db = Some sub -> s_user_id sub = uid ->
  question_by_id qid db = Some q ->
  let db1 := fst (api_answer uid sid qid r db) in
  test_by_slug slug db1 = Some test -> t_id test = s_test_id sub ->
  band_from_raw (count_correct sid db1) (count_questions (s_test_id sub) db1)
    = Return band ->
  submission_by_id sid (fst (test_finish uid now slug sid db1)) =
    Some (set_score (count_correct sid db1) band now sub).
Proof.
  intros Hsub Hown Hq db1 Ht Hid Hband.
  destruct (api_answer_keeps_rest uid sid qid db sub q Hsub Hown Hq r) as [_ [_ Hss]].
  fold db1 in Hss.
  assert (Hsub1 : submission_by_id sid db1 = Some sub)
    by (unfold submission_by_id; rewrite Hss; exact Hsub).
  rewrite <- Hid in Hband.
  rewrite (test_finish_accepted uid now slug sid db1 test sub band Ht Hsub1 Hown Hband).
  cbn [fst]. exact (submission_by_id_set_score sid _ band now db1 sub Hsub1).
Qed.

(** C10: SubmitAnswer does not check that the question belongs to the
    submission's test.  For every submission owned by the acting user and
    every existing question, of whichever test, the answer is accepted,
    graded against that question's key and stored; a first correct answer
    raises the submission's count of correct answers by one while the
    number of questions of the submission's test stays the same; and
    FinishSubmission, through the slug of the submission's test, stores
    that count as raw_score and the band of that count against the
    questions of the submission's test.  So a finished submission can hold
    a raw_score above its test's question count, its band computed from a
    percentage above 1: in the example the student's reading submission
    (one question) finishes with raw_score 3, percentage 3.0 and band
    9.0. *)
Theorem foreign_answer_counted :
  (forall (H : StrMethods) (uid sid qid : Z) (r : option string) (db : DB)
          (sub : submissions_row) (q : questions_row),
     submission_by_id sid db = Some sub -> s_user_id sub = uid ->
     question_by_id qid db = Some q ->
     let response := trimmed r in
     let correct := grade (q_qtype q) (q_answer_key q) response in
     let db1 := fst (api_answer uid sid qid r db) in
     snd (api_answer uid sid qid r db) = Json_ok (negb (correct =? 0)) /\
     (exists a, In a (answers db1) /\
                a_submission_id a = sid /\ a_question_id a = qid /\
                a_response a = response /\ a_is_correct a = correct) /\
     (answers_of sid qid db = [] -> correct = 1 ->
      count_correct sid db1 = count_correct sid db + 1) /\
     count_questions (s_test_id sub) db1 = count_questions (s_test_id sub) db /\
     (forall (now slug : string) (test : tests_row) (band : float),
        test_by_slug slug db1 = Some test -> t_id test = s_test_id sub ->
        band_from_raw (count_correct sid db1) (count_questions (s_test_id sub) db1)
          = Return band ->
        submission_by_id sid (fst (test_finish uid now slug sid db1)) =
          Some (set_score (count_correct sid db1) band now sub)))
  /\
  (let db := Example.db_reading in
   let db' := fst (test_finish Example.student "2025-01-01T11:00:00"
                               "reading-sample-1" 1 db) in
   exists sub pct,
     test_by_slug "reading-sample-1" db = Some Example.reading /\
     submission_by_id 1 db' = Some sub /\
     s_user_id sub = Example.student /\ s_test_id sub = t_id Example.reading /\
     s_raw_score sub = 3 /\ count_questions (s_test_id sub) db' = 1 /\
     int_truediv (s_raw_score sub) (count_questions (s_test_id sub) db') = Return pct /\
     gt pct f1_0 = true /\
     s_band_score sub = f9_0).
Proof.
  split.
  - intros H uid sid qid r db sub q Hsub Hown Hq response correct db1.
    destruct (api_answer_stored uid sid qid r db sub q Hsub Hown Hq)
      as [Hout [Hrow [Hcount Hqs]]].
    split; [exact Hout|]. split; [exact Hrow|]. split; [exact Hcount|].
    split; [exact Hqs|].
    intros now slug test band.
    exact (test_finish_after_answer uid sid qid r db sub q now slug test band
             Hsub Hown Hq).
  - cbv zeta.
    exists (set_score 3 f9_0 "2025-01-01T11:00:00"
              Example.sitting_reading),
           (decimal 3 1).
    repeat split; vm_compute; reflexivity.
Qed.

(* ------------------------------------------------------------------ *)
(** ** The claims at concrete inputs                                   *)
(* ------------------------------------------------------------------ *)

(** The band literals denote the decimals they are written as. *)
Lemma band_literals_exact :
  denotes f9_0 9 /\ denotes f8_5 8.5 /\ denotes f8_0 8 /\ denotes f7_5 7.5 /\
  denotes f7_0 7 /\ denotes f6_5 6.5 /\ denotes f6_0 6 /\ denotes f5_5 5.5 /\
  denotes f5_0 5 /\ denotes f4_5 4.5 /\ denotes f4_0 4 /\ denotes f0_0 0 /\
  denotes f1_0 1.
Proof. repeat split. Qed.

(** The boundary values of the table on a total of 100: each threshold
    and the count just below it, and 80, which has no threshold of its
    own and shares 7.5 with 75 and 84. *)
Lemma band_from_raw_boundaries :
  map (fun correct => band_from_raw correct 100)
      [100; 95; 94; 90; 89; 85; 84; 80; 75; 74; 70; 69; 65; 64; 60; 59; 55; 54;
       50; 49; 45; 44; 0]
  = map Return
      [f9_0; f9_0; f8_5; f8_5; f8_0; f8_0; f7_5; f7_5; f7_5; f7_0; f7_0; f6_5;
       f6_5; f6_0; f6_0; f5_5; f5_5; f5_0; f5_0; f4_5; f4_5; f4_0; f4_0].
Proof. vm_compute. reflexivity. Qed.

(** C2, witness: 19 correct of 20. *)
Lemma band_from_raw_table_witness :
  (0 <= 19 < 2 ^ 1023) /\ (0 < 20 <= 2 ^ 48) /\
  band_from_raw 19 20 = Return (spec_band_table (spec_percentage 19 20)).
Proof.
  assert (H1 : 0 <= 19 < 2 ^ 1023) by (split; [discriminate | reflexivity]).
  assert (H2 : 0 < 20 <= 2 ^ 48) by (split; [reflexivity | discriminate]).
  split; [exact H1 | split; [exact H2 | exact (band_from_raw_table 19 20 H1 H2)]].
Defined.

(** C2, counterexample: with a total of 10^17 and one correct answer short
    of 95 %, the quotient rounds to the binary64 of 0.95 and the function
    returns 9.0, where the table on the exact percentage gives 8.5. *)
Lemma band_from_raw_table_large_total :
  0 < 100000000000000000 /\
  band_from_raw 94999999999999999 100000000000000000 = Return f9_0 /\
  spec_band_table (spec_percentage 94999999999999999 100000000000000000) = f8_5 /\
  f9_0 <> f8_5.
Proof.
  split; [reflexivity|]. split; [vm_compute; reflexivity|].
  split; [vm_compute; reflexivity|]. vm_compute. discriminate.
Qed.

(** C6 (as amended): [band_from_raw 19 20 = 9.0] and
    [band_from_raw 17 20 = 8.0]: 17/20 is the 0.85 threshold itself. *)
Theorem band_boundary_examples :
  band_from_raw 19 20 = Return f9_0 /\ band_from_raw 17 20 = Return f8_0.
Proof. split; vm_compute; reflexivity. Qed.

(** C6, counterexample: 17 of 20 does not give 8.5. *)
Lemma band_17_of_20_not_8_5 : band_from_raw 17 20 <> Return f8_5.
Proof. vm_compute. discriminate. Qed.

(** C8: for every value of correct, [band_from_raw correct 0] returns 0.0;
    the division, which would raise on a zero total, is not evaluated. *)
Theorem band_from_raw_zero_total (correct : Z) :
  band_from_raw correct 0 = Return f0_0 /\
  int_truediv correct 0 = Raise ZeroDivisionError.
Proof. split; reflexivity. Qed.



(** C3, witness: "B" against "b" as a multiple-choice answer, "Paris"
    against "paris" and " paris" as a free-text answer. *)
Lemma grade_correct_iff_witness :
  grade (H := AsciiStr.methods) (Some "mcq") (Some "B") "b" <> 1 /\
  grade (H := AsciiStr.methods) (Some "fill") (Some "Paris") "paris" = 1 /\
  grade (H := AsciiStr.methods) (Some "fill") (Some "Paris") " paris" <> 1.
Proof.
  pose proof (grade_correct_iff (H := AsciiStr.methods) (Some "mcq") "B" "b") as [_ [Hm _]].
  pose proof (grade_correct_iff (H := AsciiStr.methods) (Some "fill") "Paris" "paris") as [_ [_ Hf]].
  pose proof (grade_correct_iff (H := AsciiStr.methods) (Some "fill") "Paris" " paris") as [_ [_ Hg]].
  split; [| split].
  - intros E. apply (Hm eq_refl) in E. discriminate E.
  - apply (Hf ltac:(discriminate)). reflexivity.
  - intros E. apply (Hg ltac:(discriminate)) in E. discriminate E.
Defined.

(** C7, counterexample: an empty response to a multiple-choice question
    is flagged incorrect against a null key and correct against the empty
    key. *)
Lemma grade_null_key_mcq_differs :
  grade (H := AsciiStr.methods) (Some "mcq") None "" = 0 /\
  grade (H := AsciiStr.methods) (Some "mcq") (Some "") "" = 1.
Proof. split; reflexivity. Qed.

(** C7, witness: a gap question and a multiple-choice one. *)
Lemma grade_null_key_witness :
  grade (H := AsciiStr.methods) (Some "gap") None "" = 1 /\
  grade (H := AsciiStr.methods) (Some "mcq") None "B" = 0.
Proof.
  split.
  - exact (proj2 (proj1 (grade_null_key (H := AsciiStr.methods) (Some "gap") "")
                    ltac:(discriminate))).
  - exact (proj2 (grade_null_key (H := AsciiStr.methods) (Some "mcq") "B") eq_refl).
Defined.

Lemma example_started_wf : answers_wf (Example.start "listening-sample-1" Example.db0).
Proof. split; constructor. Defined.

(** C4, witness: three answers to the first question of a fresh listening
    submission; one row remains, holding the third. *)
Lemma api_answer_all_one_row_witness :
  let db := Example.start "listening-sample-1" Example.db0 in
  let db' := api_answer_all (H := AsciiStr.methods) Example.student 1 1
               [Some "A"; Some " b "; Some "B"] db in
  answers_wf db /\
  (exists a, answers_of 1 1 db' = [a] /\ a_response a = "B" /\ a_is_correct a = 1) /\
  List.length (answers db') = 1%nat.
Proof.
  cbv zeta.
  destruct (api_answer_all_one_row (H := AsciiStr.methods) Example.student 1 1
              Example.sitting
              Example.q1 [Some "A"; Some " b "] (Some "B")
              (Example.start "listening-sample-1" Example.db0)
              example_started_wf eq_refl eq_refl eq_refl)
    as [_ [a [Hone [Hr [Hc [_ Hlen]]]]]].
  split; [exact example_started_wf|]. split.
  - exists a. split; [exact Hone|]. split; [exact Hr | exact Hc].
  - exact Hlen.
Defined.


(** C9, witness: the student revises the answer to the first question
    after answering the second. *)
Lemma api_answer_frame_witness :
  let db := Example.answer 2 "x" Example.db_listening in
  let db' := Example.answer 1 "C" db in
  answers_pk db /\
  submissions db' = submissions db /\
  answers_besides 1 1 db' = answers_besides 1 1 db.
Proof.
  cbv zeta.
  assert (Hpk : answers_pk (Example.answer 2 "x" Example.db_listening)).
  { unfold answers_pk. cbn. constructor.
    - cbn. intros [E | []]. discriminate E.
    - constructor; [intros [] | constructor]. }
  destruct (api_answer_frame (H := AsciiStr.methods) Example.student 1 1 (Some "C")
              (Example.answer 2 "x" Example.db_listening)
              (Example.answer 1 "C" (Example.answer 2 "x" Example.db_listening))
              false Hpk eq_refl)
    as [Hs [_ [_ [_ Hb]]]].
  split; [exact Hpk | split; [exact Hs | exact Hb]].
Defined.

(** C10, witness: the student answers, under the reading submission, the
    first question of the listening test. *)
Lemma foreign_answer_counted_witness :
  let db := Example.answer 3 "paris" (Example.start "reading-sample-1" Example.db0) in
  q_test_id Example.q1 <> 2 /\
  snd (api_answer (H := AsciiStr.methods) Example.student 1 1 (Some " B ") db) = Json_ok true /\
  count_correct 1 (Example.answer 1 " B " db) = count_correct 1 db + 1 /\
  count_questions 2 (Example.answer 1 " B " db) = count_questions 2 db.
Proof.
  cbv zeta.
  destruct (proj1 foreign_answer_counted AsciiStr.methods Example.student 1 1
              (Some " B ")
              (Example.answer 3 "paris" (Example.start "reading-sample-1" Example.db0))
              Example.sitting_reading
              Example.q1 eq_refl eq_refl eq_refl)
    as [Hout [_ [Hcount [Hq _]]]].
  split; [discriminate|]. split; [exact Hout|]. split.
  - exact (Hcount eq_refl eq_refl).
  - exact Hq.
Defined.

(** X1, witness: the student's listening sitting is reached in two requests. *)
Lemma reachable_answers_wf_witness :
  reachable (H := AsciiStr.methods) Example.db_listening /\
  answers_wf Example.db_listening.
Proof.
  assert (Hr : reachable (H := AsciiStr.methods) Example.db_listening).
  { change Example.db_listening with
      (fst (handle (H := AsciiStr.methods) (Answer Example.student 1 1 (Some "B"))
         (fst (handle (H := AsciiStr.methods)
                 (Start Example.student "2025-01-01T10:00:00" "listening-sample-1")
                 Example.db0)))).
    apply reach_request. apply reach_request. apply reach_init; reflexivity. }
  split; [exact Hr | exact (reachable_answers_wf (H := AsciiStr.methods) _ Hr)].
Defined.

(** X2, witness: a test of twenty questions, seventeen answered correctly. *)
Lemma test_finish_17_of_20_witness :
  exists sub',
    submission_by_id 1 (fst (test_finish Example.student "2025-01-01T11:00:00"
                               "listening-sample-1" 1 Example.db_twenty)) = Some sub' /\
    s_raw_score sub' = 17 /\ s_band_score sub' = f8_0.
Proof.
  destruct (test_finish_17_of_20 Example.student "2025-01-01T11:00:00"
              "listening-sample-1" 1 Example.db_twenty Example.listening Example.sitting
              eq_refl eq_refl eq_refl eq_refl eq_refl)
    as [sub' [Hrow [Hraw [Hband _]]]].
  exists sub'. split; [exact Hrow | split; [exact Hraw | exact Hband]].
Defined.

(** X3, witness: the student starts the reading test on the empty database. *)
Lemma test_start_creates_submission_witness :
  test_start Example.student "2025-01-01T10:00:00" "no-such-test" Example.db0
    = (Example.db0, Redirect_dashboard "Test topilmadi") /\
  exists sub_id,
    snd (test_start Example.student "2025-01-01T10:00:00" "reading-sample-1" Example.db0)
      = Redirect_test_take "reading-sample-1" sub_id.
Proof.
  destruct (test_start_creates_submission Example.student "2025-01-01T10:00:00"
              "no-such-test" Example.db0) as [Hnone _].
  destruct (test_start_creates_submission Example.student "2025-01-01T10:00:00"
              "reading-sample-1" Example.db0) as [_ Hsome].
  destruct (Hsome Example.reading eq_refl) as [sub_id [_ Hrun]].
  split; [exact (Hnone eq_refl)|].
  exists sub_id. rewrite Hrun. reflexivity.
Defined.

(* ================================================================== *)
(** * Part III.  Further properties of the code                        *)
(* ================================================================== *)

(* ------------------------------------------------------------------ *)
(** ** The band as a function of the two counts                        *)
(* ------------------------------------------------------------------ *)

Lemma band_from_raw_by_count (correct total : Z) :
  0 <= correct < 2 ^ 1023 -> 0 < total <= 2 ^ 48 ->
  band_from_raw correct total = Return (band_by_count correct total).
Proof.
  intros Hc Ht. unfold band_from_raw.
  replace (total =? 0) with false by (symmetry; apply Z.eqb_neq; lia).
  assert (Hz : correct = 0 \/ 0 < correct < 2 ^ 1023) by lia.
  destruct Hz as [-> | Hpos].
  - rewrite int_truediv_zero by lia. unfold band_by_count.
    repeat match goal with
           | |- context [?x <=? ?y] =>
               replace (x <=? y) with false by (symmetry; apply Z.leb_gt; lia)
           end.
    reflexivity.
  - rewrite int_truediv_finite;
      [ | exact Hpos | change (2 ^ 48) with 281474976710656 in Ht; pow_consts; lia].
    f_equal. unfold band_of_pct, band_by_count.
    rewrite ge_0_95, ge_0_9, ge_0_85, ge_0_75, ge_0_7, ge_0_65, ge_0_6,
            ge_0_55, ge_0_5, ge_0_45 by assumption.
    reflexivity.
Qed.

Lemma band_by_count_monotone (c1 c2 total : Z) :
  0 < total -> c1 <= c2 ->
  ge (band_by_count c2 total) (band_by_count c1 total) = true.
Proof.
  intros Ht Hc. unfold band_by_count.
  repeat match goal with
         | |- context [?x <=? ?y] => destruct (Z.leb_spec x y)
         end;
    try lia; vm_compute; reflexivity.
Qed.

(** X4: for a test of at most 2^48 questions, more correct answers never
    give a lower band: [band_from_raw] returns on both counts and the band
    of the larger count is at least the band of the smaller.  The band of
    no correct answer is 4.0 and the band of all answers correct is 9.0, so
    every band of a test with questions lies between the two; 0.0 is
    returned for the test without questions only. *)
Theorem band_from_raw_monotone (c1 c2 total : Z) :
  0 < total <= 2 ^ 48 -> 0 <= c1 -> c1 <= c2 -> c2 < 2 ^ 1023 ->
  exists b1 b2,
    band_from_raw c1 total = Return b1 /\
    band_from_raw c2 total = Return b2 /\
    ge b2 b1 = true /\
    ge b1 f4_0 = true /\ ge f9_0 b2 = true /\
    band_from_raw 0 total = Return f4_0 /\
    band_from_raw total total = Return f9_0.
Proof.
  intros Ht H1 H12 H2.
  assert (Hbig : 2 ^ 48 < 2 ^ 1023)
    by (apply Z.pow_lt_mono_r; lia).
  exists (band_by_count c1 total), (band_by_count c2 total).
  rewrite !band_from_raw_by_count by lia.
  split; [reflexivity|]. split; [reflexivity|].
  split; [apply band_by_count_monotone; lia|].
  split.
  { replace f4_0 with (band_by_count 0 total).
    - apply band_by_count_monotone; lia.
    - unfold band_by_count.
      repeat match goal with
             | |- context [?x <=? ?y] =>
                 replace (x <=? y) with false by (symmetry; apply Z.leb_gt; lia)
             end.
      reflexivity. }
  assert (Hfull : band_by_count total total = f9_0).
  { unfold band_by_count.
    replace (19 * total <=? 20 * total) with true by (symmetry; apply Z.leb_le; lia).
    reflexivity. }
  assert (Hzero : band_by_count 0 total = f4_0).
  { unfold band_by_count.
    repeat match goal with
           | |- context [?x <=? ?y] =>
               replace (x <=? y) with false by (symmetry; apply Z.leb_gt; lia)
           end.
    reflexivity. }
  split.
  { unfold band_by_count.
    repeat match goal with
           | |- context [?x <=? ?y] => destruct (Z.leb_spec x y)
           end; vm_compute; reflexivity. }
  rewrite Hzero, Hfull. split; reflexivity.
Qed.
(* ------------------------------------------------------------------ *)
(** ** More on tables                                                  *)
(* ------------------------------------------------------------------ *)

Section TableFacts2.
Context {row : Type}.
Implicit Types (p q : row -> bool) (f : row -> row) (t : list row) (r : row).

Lemma select_one_app p t l :
  Sql.select_one p (t ++ l) =
  match Sql.select_one p t with
  | Some r => Some r
  | None => Sql.select_one p l
  end.
Proof.
  unfold Sql.select_one. induction t as [|x t IH]; cbn; [reflexivity|].
  destruct (p x); [reflexivity | exact IH].
Qed.

Lemma select_one_found p t r :
  In r t -> p r = true -> exists r', Sql.select_one p t = Some r'.
Proof.
  intros Hin Hp. destruct (Sql.select_one p t) as [r'|] eqn:E; [eauto|].
  rewrite (select_one_none _ _ _ E Hin) in Hp. discriminate.
Qed.

Lemma select_one_insert_found p t r r0 :
  Sql.select_one p t = Some r -> Sql.select_one p (Sql.insert r0 t) = Some r.
Proof. intros E. unfold Sql.insert. rewrite select_one_app, E. reflexivity. Qed.

Lemma select_one_update_key p q f t :
  (forall r, p (f r) = p r) ->
  Sql.select_one p (Sql.update q f t) =
  option_map (fun r => if q r then f r else r) (Sql.select_one p t).
Proof.
  intros Hf. unfold Sql.select_one, Sql.update.
  induction t as [|x t IH]; cbn; [reflexivity|].
  replace (p (if q x then f x else x)) with (p x)
    by (destruct (q x); [rewrite Hf|]; reflexivity).
  destruct (p x); [reflexivity | exact IH].
Qed.

Lemma select_one_pk (key : row -> Z) t r :
  NoDup (map key t) -> In r t ->
  Sql.select_one (fun x => key x =? key r) t = Some r.
Proof.
  intros Hnd Hin.
  destruct (select_one_found (fun x => key x =? key r) t r Hin (Z.eqb_refl _))
    as [r' E].
  rewrite E. f_equal.
  destruct (select_one_some _ _ _ E) as [Hin' Hk]. apply Z.eqb_eq in Hk.
  exact (NoDup_map_inj key t r' r Hnd Hin' Hin Hk).
Qed.

Lemma count_nonneg p t : 0 <= Sql.count p t.
Proof. unfold Sql.count. lia. Qed.

Lemma count_app p t l : Sql.count p (t ++ l) = Sql.count p t + Sql.count p l.
Proof. unfold Sql.count. rewrite filter_app, length_app. lia. Qed.

Lemma count_update p q f t :
  (forall r, p (f r) = p r) -> Sql.count p (Sql.update q f t) = Sql.count p t.
Proof.
  intros Hf. unfold Sql.count. rewrite filter_update by exact Hf.
  rewrite update_length. reflexivity.
Qed.

Lemma count_le p q t :
  (forall r, p r = true -> q r = true) -> Sql.count p t <= Sql.count q t.
Proof.
  intros Hpq. unfold Sql.count. apply inj_le.
  induction t as [|x t IH]; cbn [filter]; [lia|].
  destruct (p x) eqn:Ep.
  - rewrite (Hpq x Ep). cbn [List.length]. apply le_n_S. exact IH.
  - destruct (q x); cbn [List.length]; lia.
Qed.

Lemma count_none p t :
  (forall r, In r t -> p r = false) -> Sql.count p t = 0.
Proof.
  intros Hp. unfold Sql.count. induction t as [|x t IH]; cbn; [reflexivity|].
  rewrite (Hp x) by (left; reflexivity). apply IH.
  intros r Hr. apply Hp. right. exact Hr.
Qed.

Lemma in_update_inv q f t r :
  In r (Sql.update q f t) ->
  exists r0, In r0 t /\ r = (if q r0 then f r0 else r0).
Proof.
  unfold Sql.update. intros Hin. apply in_map_iff in Hin.
  destruct Hin as [r0 [E Hin]]. exists r0. split; [exact Hin | symmetry; exact E].
Qed.

Lemma in_insert r0 t r : In r (Sql.insert r0 t) <-> In r t \/ r = r0.
Proof.
  unfold Sql.insert. rewrite in_app_iff. cbn. intuition congruence.
Qed.
End TableFacts2.

Lemma fold_max_nonneg (ids : list Z) : 0 <= fold_right Z.max 0 ids.
Proof. induction ids as [|x ids IH]; cbn; lia. Qed.

Lemma next_rowid_snoc (ids : list Z) (i : Z) :
  Sql.next_rowid ids <= i -> Sql.next_rowid (ids ++ [i]) = i + 1.
Proof.
  unfold Sql.next_rowid.
  induction ids as [|x ids IH]; cbn; intros Hi; [lia|].
  pose proof (fold_max_nonneg ids). specialize (IH ltac:(lia)). lia.
Qed.

Lemma next_rowid_positive (ids : list Z) : 0 < Sql.next_rowid ids.
Proof. unfold Sql.next_rowid. pose proof (fold_max_nonneg ids). lia. Qed.
(* ------------------------------------------------------------------ *)
(** ** What each writer does to the database                           *)
(* ------------------------------------------------------------------ *)

Lemma grade_flag `{StrMethods} (qtype key : option string) (response : string) :
  grade qtype key response = 0 \/ grade qtype key response = 1.
Proof.
  unfold grade. destruct (is_mcq qtype).
  - destruct (str_eq_nullable response key); auto.
  - destruct (String.eqb _ _); auto.
Qed.

Lemma band_of_pct_in_bands (pct : float) : In (band_of_pct pct) bands.
Proof.
  unfold band_of_pct, bands.
  repeat match goal with
         | |- context [if ?b then _ else _] => destruct b
         end; cbn; tauto.
Qed.

Lemma band_from_raw_in_bands (raw total : Z) (band : float) :
  band_from_raw raw total = Return band -> In band bands.
Proof.
  unfold band_from_raw. destruct (total =? 0).
  - intros [= <-]. left. reflexivity.
  - destruct (int_truediv raw total); [|discriminate].
    intros [= <-]. apply band_of_pct_in_bands.
Qed.

(** The three session handlers write nothing, or one of three things. *)
Lemma test_start_cases (uid : Z) (now slug : string) (db : DB) :
  fst (test_start uid now slug db) = db \/
  exists test,
    test_by_slug slug db = Some test /\
    fst (test_start uid now slug db) =
      set_submissions db
        (Sql.insert
           {| s_id := Sql.next_rowid (map s_id (submissions db));
              s_user_id := uid; s_test_id := t_id test;
              s_started_at := Some now; s_finished_at := None;
              s_raw_score := 0; s_band_score := f0_0 |}
           (submissions db)).
Proof.
  unfold test_start. destruct (test_by_slug slug db) as [test|];
    [right; exists test; split; reflexivity | left; reflexivity].
Qed.

Lemma api_answer_cases `{StrMethods} (uid sid qid : Z) (r : option string) (db : DB) :
  api_answer uid sid qid r db = (db, Json_not_ok_400) \/
  exists sub q,
    submission_by_id sid db = Some sub /\ s_user_id sub = uid /\
    question_by_id qid db = Some q.
Proof.
  unfold api_answer.
  destruct (submission_by_id sid db) as [sub|]; [|left; reflexivity].
  destruct (Z.eqb_spec (s_user_id sub) uid) as [Hu|Hu]; cbn [negb];
    [|left; reflexivity].
  destruct (question_by_id qid db) as [q|]; [|left; reflexivity].
  right. exists sub, q. auto.
Qed.

Lemma test_finish_cases (uid : Z) (now slug : string) (sid : Z) (db : DB) :
  fst (test_finish uid now slug sid db) = db /\
    snd (test_finish uid now slug sid db) <> Redirect_results_view sid \/
  exists test sub band,
    test_by_slug slug db = Some test /\
    submission_by_id sid db = Some sub /\ s_user_id sub = uid /\
    band_from_raw (count_correct sid db) (count_questions (t_id test) db) = Return band.
Proof.
  unfold test_finish.
  destruct (test_by_slug slug db) as [test|]; [|left; split; [reflexivity|discriminate]].
  destruct (submission_by_id sid db) as [sub|]; [|left; split; [reflexivity|discriminate]].
  destruct (Z.eqb_spec (s_user_id sub) uid) as [Hu|Hu]; cbn [negb];
    [|left; split; [reflexivity|discriminate]].
  destruct (band_from_raw _ _) as [band|e] eqn:Eb;
    [|left; split; [reflexivity|discriminate]].
  right. exists test, sub, band. auto.
Qed.
(* ------------------------------------------------------------------ *)
(** ** The writes keep the database well formed                        *)
(* ------------------------------------------------------------------ *)

Lemma empty_db_wf (db : DB) :
  tests db = [] -> questions db = [] -> submissions db = [] -> answers db = [] ->
  db_wf db.
Proof.
  intros Ht Hq Hs Ha.
  split;
    unfold tests_pk, slug_unique, questions_pk, submissions_pk, answers_wf,
      answers_pk, one_answer_per_pair, submissions_ref, answers_ref,
      scores_wf, flags_wf;
    rewrite ?Ht, ?Hq, ?Hs, ?Ha; cbn [map];
    first [ intros ? [] | split; constructor | constructor ].
Qed.

Lemma wf_insert_submission (db : DB) (row : submissions_row) :
  db_wf db ->
  s_id row = Sql.next_rowid (map s_id (submissions db)) ->
  (exists t, test_by_id (s_test_id row) db = Some t) ->
  s_started_at row <> None -> s_raw_score row = 0 -> s_band_score row = f0_0 ->
  db_wf (set_submissions db (Sql.insert row (submissions db))).
Proof.
  intros [Htp Hsl Hqp Hsp Haw Hsr Har Hsc Hfl] Hid Htest Hst Hraw Hband.
  split; try assumption.
  - unfold submissions_pk. cbn [submissions set_submissions]. unfold Sql.insert.
    rewrite map_app. apply NoDup_snoc; [exact Hsp|].
    cbn [map]. rewrite Hid. apply next_rowid_fresh.
  - intros s Hs. cbn [submissions set_submissions] in Hs.
    apply in_insert in Hs. destruct Hs as [Hs | ->].
    + exact (Hsr s Hs).
    + exact Htest.
  - intros a Ha. destruct (Har a Ha) as [[s Es] Hq]. split; [|exact Hq].
    exists s. unfold submission_by_id in *. cbn [submissions set_submissions].
    apply select_one_insert_found. exact Es.
  - intros s Hs. cbn [submissions set_submissions] in Hs.
    apply in_insert in Hs. destruct Hs as [Hs | ->].
    + exact (Hsc s Hs).
    + split; [exact Hst|]. split.
      * rewrite Hraw. split; [lia | apply count_nonneg].
      * split; [rewrite Hband; left; reflexivity|]. intros _. auto.
Qed.

Lemma wf_update_score (db : DB) (sid raw : Z) (band : float) (now : string) :
  db_wf db -> 0 <= raw <= answered sid db -> In band bands ->
  db_wf (set_submissions db
           (Sql.update (fun s => s_id s =? sid) (set_score raw band now)
                       (submissions db))).
Proof.
  intros [Htp Hsl Hqp Hsp Haw Hsr Har Hsc Hfl] Hraw Hband.
  split; try assumption.
  - unfold submissions_pk. cbn [submissions set_submissions].
    rewrite map_update by reflexivity. exact Hsp.
  - intros s Hs. cbn [submissions set_submissions] in Hs.
    apply in_update_inv in Hs. destruct Hs as [s0 [Hs0 ->]].
    destruct (s_id s0 =? sid); exact (Hsr s0 Hs0).
  - intros a Ha. destruct (Har a Ha) as [[s Es] Hq]. split; [|exact Hq].
    unfold submission_by_id in *. cbn [submissions set_submissions].
    rewrite select_one_update_key by reflexivity. rewrite Es. cbn. eauto.
  - intros s Hs. cbn [submissions set_submissions] in Hs.
    apply in_update_inv in Hs. destruct Hs as [s0 [Hs0 ->]].
    destruct (Z.eqb_spec (s_id s0) sid) as [E|E].
    + destruct (Hsc s0 Hs0) as [Hst _]. cbn. rewrite E.
      split; [exact Hst|]. split; [exact Hraw|]. split; [exact Hband|].
      discriminate.
    + exact (Hsc s0 Hs0).
Qed.

Lemma count_correct_bounds (sid : Z) (db : DB) :
  0 <= count_correct sid db <= answered sid db.
Proof.
  split; [apply count_nonneg|]. apply count_le.
  intros a Ha. apply andb_true_iff in Ha. tauto.
Qed.

Lemma wf_test_finish (uid : Z) (now slug : string) (sid : Z) (db : DB) :
  db_wf db -> db_wf (fst (test_finish uid now slug sid db)).
Proof.
  intros Hwf.
  destruct (test_finish_cases uid now slug sid db)
    as [[-> _] | [test [sub [band [Ht [Hs [Hu Hb]]]]]]]; [exact Hwf|].
  rewrite (test_finish_accepted uid now slug sid db test sub band Ht Hs Hu Hb).
  cbn [fst]. apply wf_update_score;
    [exact Hwf | apply count_correct_bounds | exact (band_from_raw_in_bands _ _ _ Hb)].
Qed.

Lemma test_by_id_of_slug (slug : string) (db : DB) (test : tests_row) :
  test_by_slug slug db = Some test ->
  exists t, test_by_id (t_id test) db = Some t.
Proof.
  intros E. destruct (select_one_some _ _ _ E) as [Hin _].
  exact (select_one_found (fun t => t_id t =? t_id test) (tests db) test Hin
           (Z.eqb_refl _)).
Qed.

Lemma wf_test_start (uid : Z) (now slug : string) (db : DB) :
  db_wf db -> db_wf (fst (test_start uid now slug db)).
Proof.
  intros Hwf.
  destruct (test_start_cases uid now slug db) as [-> | [test [Ht ->]]];
    [exact Hwf|].
  apply wf_insert_submission; cbn;
    [exact Hwf | reflexivity | exact (test_by_id_of_slug slug db test Ht)
    | discriminate | reflexivity | reflexivity].
Qed.

Lemma answered_api_answer `{StrMethods} (uid sid qid : Z) (r : option string)
    (db : DB) (s : Z) :
  answered s db <= answered s (fst (api_answer uid sid qid r db)).
Proof.
  destruct (api_answer_cases uid sid qid r db) as [-> | [sub [q [Hs [Hu Hq]]]]];
    [cbn; lia|].
  rewrite (api_answer_accepted uid sid qid db sub q Hs Hu Hq). cbn [fst].
  unfold answered. cbn [answers set_answers].
  destruct (Sql.select_one _ _).
  - rewrite count_update by reflexivity. lia.
  - unfold Sql.insert. rewrite count_app.
    pose proof (count_nonneg (fun a => a_submission_id a =? s)
                  [{| a_id := Sql.next_rowid (map a_id (answers db));
                      a_submission_id := sid; a_question_id := qid;
                      a_response := trimmed r;
                      a_is_correct := grade (q_qtype q) (q_answer_key q) (trimmed r) |}]).
    lia.
Qed.

Lemma wf_api_answer `{StrMethods} (uid sid qid : Z) (r : option string) (db : DB) :
  db_wf db -> db_wf (fst (api_answer uid sid qid r db)).
Proof.
  intros Hwf.
  pose proof (answered_api_answer uid sid qid r db) as Hgrow.
  destruct (api_answer_cases uid sid qid r db) as [-> | [sub [q [Hs [Hu Hq]]]]];
    [exact Hwf|].
  pose proof (api_answer_upsert uid sid qid db sub q Hs Hu Hq r (wf_answers db Hwf))
    as [Haw' _].
  revert Hgrow Haw'.
  rewrite (api_answer_accepted uid sid qid db sub q Hs Hu Hq). cbn [fst].
  intros Hgrow Haw'.
  destruct Hwf as [Htp Hsl Hqp Hsp Haw Hsr Har Hsc Hfl].
  split; try assumption.
  - (* answers_ref *)
    intros a Ha. cbn [answers set_answers] in Ha.
    unfold submission_by_id, question_by_id. cbn [submissions questions set_answers].
    destruct (Sql.select_one (answer_for sid qid) (answers db)) as [ex|].
    + apply in_update_inv in Ha. destruct Ha as [a0 [Ha0 ->]].
      destruct (a_id a0 =? a_id ex); exact (Har a0 Ha0).
    + apply in_insert in Ha. destruct Ha as [Ha | ->]; [exact (Har a Ha)|].
      cbn. split; [exists sub; exact Hs | exists q; exact Hq].
  - (* scores_wf *)
    intros s Hin. cbn [submissions set_answers] in Hin.
    destruct (Hsc s Hin) as [H1 [H2 H3]]. split; [exact H1|]. split; [|exact H3].
    specialize (Hgrow (s_id s)). lia.
  - (* flags_wf *)
    intros a Ha. cbn [answers set_answers] in Ha.
    destruct (Sql.select_one (answer_for sid qid) (answers db)) as [ex|].
    + apply in_update_inv in Ha. destruct Ha as [a0 [Ha0 ->]].
      destruct (a_id a0 =? a_id ex); [|exact (Hfl a0 Ha0)].
      cbn. destruct (grade_flag (q_qtype q) (q_answer_key q) (trimmed r)); auto.
    + apply in_insert in Ha. destruct Ha as [Ha | ->]; [exact (Hfl a Ha)|].
      cbn. destruct (grade_flag (q_qtype q) (q_answer_key q) (trimmed r)); auto.
Qed.

Lemma wf_insert_test (db : DB) (row : tests_row) :
  db_wf db ->
  t_id row = Sql.next_rowid (map t_id (tests db)) ->
  test_by_slug (t_slug row) db = None ->
  db_wf (set_tests db (Sql.insert row (tests db))).
Proof.
  intros [Htp Hsl Hqp Hsp Haw Hsr Har Hsc Hfl] Hid Hslug.
  split; try assumption.
  - unfold tests_pk. cbn [tests set_tests]. unfold Sql.insert.
    rewrite map_app. apply NoDup_snoc; [exact Htp|].
    cbn [map]. rewrite Hid. apply next_rowid_fresh.
  - unfold slug_unique. cbn [tests set_tests]. unfold Sql.insert.
    rewrite map_app. apply NoDup_snoc; [exact Hsl|].
    cbn [map]. intros Hin. apply in_map_iff in Hin. destruct Hin as [t [E Hin]].
    pose proof (select_one_none _ _ t Hslug Hin) as Hno. cbn in Hno.
    rewrite E, String.eqb_refl in Hno. discriminate.
  - intros s Hs. destruct (Hsr s Hs) as [t E]. exists t.
    unfold test_by_id in *. cbn [tests set_tests].
    apply select_one_insert_found. exact E.
Qed.

Lemma wf_append_questions (db : DB) (new : list questions_row) :
  db_wf db -> NoDup (map q_id (questions db ++ new)) ->
  db_wf (set_questions db (questions db ++ new)).
Proof.
  intros [Htp Hsl Hqp Hsp Haw Hsr Har Hsc Hfl] Hnd.
  split; try assumption.
  intros a Ha. destruct (Har a Ha) as [Hs [q Eq]]. split; [exact Hs|].
  exists q. unfold question_by_id in *. cbn [questions set_questions].
  rewrite select_one_app, Eq. reflexivity.
Qed.
(* ------------------------------------------------------------------ *)
(** ** The administrative writers                                      *)
(* ------------------------------------------------------------------ *)

Section NumberedRows.
Context {A : Type} (mk : Z -> A -> questions_row).
Hypothesis mk_id : forall id x, q_id (mk id x) = id.


Lemma numbered_rows_ids first items q :
  In q (numbered_rows mk first items) ->
  first <= q_id q < first + Z.of_nat (List.length items).
Proof.
  revert first. induction items as [|x items IH]; intros first; cbn [numbered_rows];
    [intros []|].
  intros [<- | Hin].
  - rewrite mk_id. cbn [List.length]. lia.
  - specialize (IH _ Hin). cbn [List.length]. lia.
Qed.

Lemma numbered_rows_NoDup first items :
  NoDup (map q_id (numbered_rows mk first items)).
Proof.
  revert first. induction items as [|x items IH]; intros first; cbn;
    [constructor|].
  constructor; [|apply IH].
  rewrite mk_id. intros Hin. apply in_map_iff in Hin.
  destruct Hin as [q [E Hin]]. apply numbered_rows_ids in Hin. lia.
Qed.

Lemma numbered_rows_fresh (qs : list questions_row) items :
  NoDup (map q_id qs) ->
  NoDup (map q_id (qs ++ numbered_rows mk (Sql.next_rowid (map q_id qs)) items)%list).
Proof.
  intros Hnd. rewrite map_app. apply NoDup_app.
  - exact Hnd.
  - apply numbered_rows_NoDup.
  - intros id Hold Hnew. apply in_map_iff in Hnew.
    destruct Hnew as [q [E Hin]]. apply numbered_rows_ids in Hin.
    pose proof (next_rowid_above _ _ Hold). lia.
Qed.

Lemma numbered_rows_snoc (qs : list questions_row) x items :
  ((qs ++ [mk (Sql.next_rowid (map q_id qs)) x]) ++
    numbered_rows mk (Sql.next_rowid
                        (map q_id (qs ++ [mk (Sql.next_rowid (map q_id qs)) x]))) items
  = qs ++ numbered_rows mk (Sql.next_rowid (map q_id qs)) (x :: items))%list.
Proof.
  rewrite <- app_assoc. cbn [app numbered_rows]. do 3 f_equal.
  rewrite map_app. cbn [map]. rewrite mk_id.
  apply next_rowid_snoc. lia.
Qed.
End NumberedRows.

Lemma import_rows_spec (test_id : Z) (entries : list import_entry)
    (qs : list questions_row) :
  match import_items entries with
  | Some items =>
      import_rows test_id entries qs =
        inl (qs ++ numbered_rows (fun id io => import_row test_id id (fst io) (snd io))
                     (Sql.next_rowid (map q_id qs)) items)%list
  | None => exists e, import_rows test_id entries qs = inr e
  end.
Proof.
  revert qs. induction entries as [|[i|] entries IH]; intros qs; cbn.
  - rewrite app_nil_r. reflexivity.
  - destruct (order_of (i_order i)) as [order|e]; [|eauto].
    specialize (IH (Sql.insert (import_row test_id (Sql.next_rowid (map q_id qs)) i order) qs)).
    destruct (import_items entries) as [items|]; [|exact IH].
    rewrite IH. unfold Sql.insert. f_equal.
    exact (numbered_rows_snoc (fun id io => import_row test_id id (fst io) (snd io))
             (fun _ _ => eq_refl) qs (i, order) items).
  - eauto.
Qed.



Lemma seed_rows_spec (test_id : Z) (entries : list seed_entry)
    (qs : list questions_row) :
  match seed_items entries with
  | Some items =>
      seed_rows test_id entries qs =
        inl (qs ++ numbered_rows (seed_row test_id)
                     (Sql.next_rowid (map q_id qs)) items)%list
  | None => exists e, seed_rows test_id entries qs = inr e
  end.
Proof.
  revert qs. induction entries as [|[i|e] entries IH]; intros qs; cbn.
  - rewrite app_nil_r. reflexivity.
  - specialize (IH (Sql.insert (seed_row test_id (Sql.next_rowid (map q_id qs)) i) qs)).
    destruct (seed_items entries) as [items|]; cbn; [|exact IH].
    rewrite IH. unfold Sql.insert. f_equal.
    exact (numbered_rows_snoc (seed_row test_id) (fun _ _ => eq_refl) qs i items).
  - eauto.
Qed.

(** [admin_tests_import] writes nothing, or appends numbered rows. *)
Lemma admin_tests_import_cases (test_id : Z) (file : upload) (db : DB) :
  fst (admin_tests_import test_id file db) = db /\
    snd (admin_tests_import test_id file db) <> To_admin_tests "Savollar import qilindi" \/
  exists entries items,
    file = Items entries /\ import_items entries = Some items /\
    admin_tests_import test_id file db =
      (set_questions db
         (questions db ++
          numbered_rows (fun id io => import_row test_id id (fst io) (snd io))
            (Sql.next_rowid (map q_id (questions db))) items),
       To_admin_tests "Savollar import qilindi").
Proof.
  destruct file as [ | | |entries]; cbn;
    try (left; split; [reflexivity | discriminate]).
  pose proof (import_rows_spec test_id entries (questions db)) as Hspec.
  destruct (import_items entries) as [items|] eqn:E.
  - right. exists entries, items. rewrite Hspec. auto.
  - destruct Hspec as [e ->]. left. split; [reflexivity | discriminate].
Qed.

Lemma wf_admin_tests_import (test_id : Z) (file : upload) (db : DB) :
  db_wf db -> db_wf (fst (admin_tests_import test_id file db)).
Proof.
  intros Hwf.
  destruct (admin_tests_import_cases test_id file db)
    as [[-> _] | [entries [items [_ [_ ->]]]]]; [exact Hwf|].
  cbn [fst]. apply wf_append_questions; [exact Hwf|].
  apply numbered_rows_fresh; [reflexivity | exact (wf_questions_pk db Hwf)].
Qed.

(** [admin_tests_create] writes nothing, or appends one test. *)
Lemma admin_tests_create_cases `{StrMethods} `{Slugify} (now_ts : Z)
    (form : create_form) (db : DB) :
  fst (admin_tests_create now_ts form db) = db /\
    (exists e, snd (admin_tests_create now_ts form db) = Raised e) \/
  exists audio_filename,
    f_duration form <> Int_invalid /\
    saved_audio (or_default "listening" (f_section form)) (f_audio form)
      = inl audio_filename /\
    test_by_slug (slug_for (strip (or_default "" (f_title form))) now_ts) db = None /\
    admin_tests_create now_ts form db =
      (set_tests db
         (Sql.insert
            {| t_id := Sql.next_rowid (map t_id (tests db));
               t_title := strip (or_default "" (f_title form));
               t_slug := slug_for (strip (or_default "" (f_title form))) now_ts;
               t_section := or_default "listening" (f_section form);
               t_level := or_default "academic" (f_level form);
               t_duration_minutes :=
                 match f_duration form with Int_value z => z | _ => 60 end;
               t_center_id := None;
               t_audio_filename := audio_filename |}
            (tests db)),
       To_admin_tests "Test yaratildi").
Proof.
  unfold admin_tests_create.
  destruct (saved_audio _ _) as [audio_filename|e] eqn:Ea;
    [| destruct (f_duration form); left; (split; [reflexivity | eexists; reflexivity])].
  destruct (test_by_slug _ db) as [t|] eqn:Et;
    [destruct (f_duration form); left; (split; [reflexivity | eexists; reflexivity])|].
  destruct (f_duration form) eqn:Ed;
    [| |left; (split; [reflexivity | eexists; reflexivity])];
    right; exists audio_filename; repeat split; discriminate || reflexivity.
Qed.

Lemma wf_admin_tests_create `{StrMethods} `{Slugify} (now_ts : Z)
    (form : create_form) (db : DB) :
  db_wf db -> db_wf (fst (admin_tests_create now_ts form db)).
Proof.
  intros Hwf.
  destruct (admin_tests_create_cases now_ts form db)
    as [[-> _] | [audio_filename [_ [_ [Hslug ->]]]]]; [exact Hwf|].
  cbn [fst]. apply wf_insert_test; [exact Hwf | reflexivity | exact Hslug].
Qed.
(* ------------------------------------------------------------------ *)
(** ** The seed command                                                *)
(* ------------------------------------------------------------------ *)

Lemma seed_test_cases (slug : string) (mk : Z -> tests_row) (file : seed_file)
    (db : DB) :
  let test_id := Sql.next_rowid (map t_id (tests db)) in
  let db1 := set_tests db (Sql.insert (mk test_id) (tests db)) in
  (exists t, test_by_slug slug db = Some t /\
             seed_test slug mk file db = (db, Seed_done)) \/
  (test_by_slug slug db = None /\
   exists e, seed_test slug mk file db = (db1, Seed_raised e)) \/
  (test_by_slug slug db = None /\
   exists entries items,
     file = Seed_items entries /\ seed_items entries = Some items /\
     seed_test slug mk file db =
       (set_questions db1
          (questions db ++
           numbered_rows (seed_row test_id)
             (Sql.next_rowid (map q_id (questions db))) items),
        Seed_done)).
Proof.
  intros test_id db1. unfold seed_test. fold test_id. fold db1.
  destruct (test_by_slug slug db) as [t|] eqn:Et; [left; eauto|].
  right. destruct file as [e|entries]; [left; eauto|].
  pose proof (seed_rows_spec test_id entries (questions db1)) as Hspec.
  destruct (seed_items entries) as [items|] eqn:Ei.
  - right. split; [reflexivity|]. exists entries, items.
    rewrite Hspec. auto.
  - destruct Hspec as [e ->]. left. eauto.
Qed.

Lemma wf_seed_test (slug : string) (mk : Z -> tests_row) (file : seed_file)
    (db : DB) :
  (forall id, t_id (mk id) = id /\ t_slug (mk id) = slug) ->
  db_wf db -> db_wf (fst (seed_test slug mk file db)).
Proof.
  intros Hmk Hwf.
  assert (Hwf1 : test_by_slug slug db = None ->
                 db_wf (set_tests db (Sql.insert (mk (Sql.next_rowid (map t_id (tests db))))
                                                 (tests db)))).
  { intros Hno. apply wf_insert_test;
      [exact Hwf | apply Hmk | rewrite (proj2 (Hmk _)); exact Hno]. }
  destruct (seed_test_cases slug mk file db)
    as [[t [_ ->]] | [[Hno [e ->]] | [Hno [entries [items [_ [_ ->]]]]]]];
    cbn [fst].
  - exact Hwf.
  - exact (Hwf1 Hno).
  - apply (wf_append_questions _ _ (Hwf1 Hno)).
    cbn [questions set_tests].
    apply numbered_rows_fresh; [reflexivity | exact (wf_questions_pk db Hwf)].
Qed.

Lemma seed_cmd_db (inp : seed_inputs) (s : Site) :
  let center_id := snd (seed_center (centers s)) in
  let out1 := seed_test "listening-sample-1" (listening_sample center_id)
                (sample_listening inp) (site_db s) in
  site_db (fst (seed_cmd inp s)) =
    match snd out1 with
    | Seed_raised _ => fst out1
    | Seed_done =>
        fst (seed_test "reading-sample-1" (reading_sample center_id)
               (sample_reading inp) (fst out1))
    end.
Proof.
  unfold seed_cmd. destruct (seed_center (centers s)) as [centers1 center_id].
  cbn [snd site_db].
  destruct (seed_test "listening-sample-1" _ _ _) as [db2 [|e]]; cbn [fst snd].
  - destruct (seed_test "reading-sample-1" _ _ _) as [db3 result]. reflexivity.
  - reflexivity.
Qed.

Lemma wf_seed_cmd (inp : seed_inputs) (s : Site) :
  db_wf (site_db s) -> db_wf (site_db (fst (seed_cmd inp s))).
Proof.
  intros Hwf. rewrite seed_cmd_db.
  pose proof (wf_seed_test "listening-sample-1"
                (listening_sample (snd (seed_center (centers s))))
                (sample_listening inp) (site_db s)
                (fun id => conj eq_refl eq_refl) Hwf) as Hwf1.
  destruct (snd (seed_test "listening-sample-1" _ _ _)); [|exact Hwf1].
  apply wf_seed_test; [intros id; split; reflexivity | exact Hwf1].
Qed.

(* ------------------------------------------------------------------ *)
(** ** Every reachable database is well formed                         *)
(* ------------------------------------------------------------------ *)

Lemma wf_serve `{StrMethods} `{Slugify} (cu : current_user) (rt : route) (db : DB) :
  db_wf db -> db_wf (fst (serve cu rt db)).
Proof.
  intros Hwf. unfold serve, session, page, admin_required.
  destruct cu as [|u]; [exact Hwf|].
  destruct rt; cbn [fst]; try exact Hwf.
  - apply wf_test_start; exact Hwf.
  - apply wf_api_answer; exact Hwf.
  - apply wf_test_finish; exact Hwf.
  - destruct (is_admin u); [apply wf_admin_tests_create|]; exact Hwf.
  - destruct (is_admin u); [apply wf_admin_tests_import|]; exact Hwf.
Qed.

Lemma wf_run `{StrMethods} `{Slugify} (ev : event) (s : Site) :
  db_wf (site_db s) -> db_wf (site_db (run ev s)).
Proof.
  intros Hwf. destruct ev as [session_user_id rt | inp]; cbn [run].
  - cbn [site_db set_site_db]. apply wf_serve. exact Hwf.
  - apply wf_seed_cmd. exact Hwf.
Qed.

Lemma serve_submission_users `{StrMethods} `{Slugify} (cu : current_user)
    (rt : route) (db : DB) (sub' : submissions_row) :
  In sub' (submissions (fst (serve cu rt db))) ->
  (exists sub, In sub (submissions db) /\ s_user_id sub = s_user_id sub') \/
  (exists u, cu = Authenticated u /\ s_user_id sub' = usr_id u).
Proof.
  assert (Hsame : In sub' (submissions db) ->
            exists sub, In sub (submissions db) /\ s_user_id sub = s_user_id sub')
    by (intros Hin; exists sub'; auto).
  unfold serve, session, page, admin_required.
  destruct cu as [|u]; [intros Hin; left; exact (Hsame Hin)|].
  destruct rt; cbn [fst]; try (intros Hin; left; exact (Hsame Hin)).
  - destruct (test_start_cases (usr_id u) now slug db) as [-> | [test [_ ->]]];
      [intros Hin; left; exact (Hsame Hin)|].
    cbn [submissions set_submissions]. intros Hin. apply in_insert in Hin.
    destruct Hin as [Hin | ->]; [left; exact (Hsame Hin)|].
    right. exists u. split; reflexivity.
  - destruct (api_answer_cases (usr_id u) submission_id question_id response_field db)
      as [-> | [sub [q [Hs [Hu Hq]]]]]; [intros Hin; left; exact (Hsame Hin)|].
    rewrite (api_answer_accepted _ _ _ db sub q Hs Hu Hq).
    intros Hin; left; exact (Hsame Hin).
  - destruct (test_finish_cases (usr_id u) now slug submission_id db)
      as [[-> _] | [test [sub [band [Ht [Hs [Hu Hb]]]]]]];
      [intros Hin; left; exact (Hsame Hin)|].
    rewrite (test_finish_accepted _ now slug _ db test sub band Ht Hs Hu Hb).
    cbn [fst submissions set_submissions]. intros Hin.
    apply in_update_inv in Hin. destruct Hin as [s0 [Hs0 ->]].
    left. exists s0. split; [exact Hs0|].
    destruct (s_id s0 =? submission_id); reflexivity.
  - destruct (is_admin u); [|intros Hin; left; exact (Hsame Hin)].
    destruct (admin_tests_create_cases now_ts form db)
      as [[-> _] | [audio_filename [_ [_ [_ ->]]]]];
      intros Hin; left; exact (Hsame Hin).
  - destruct (is_admin u); [|intros Hin; left; exact (Hsame Hin)].
    destruct (admin_tests_import_cases test_id file db)
      as [[-> _] | [entries [items [_ [_ ->]]]]];
      intros Hin; left; exact (Hsame Hin).
Qed.

Lemma seed_test_submissions (slug : string) (mk : Z -> tests_row) (file : seed_file)
    (db : DB) :
  submissions (fst (seed_test slug mk file db)) = submissions db.
Proof.
  destruct (seed_test_cases slug mk file db)
    as [[t0 [_ ->]] | [[_ [e ->]] | [_ [entries [items [_ [_ ->]]]]]]];
    reflexivity.
Qed.

Lemma seed_user_keeps (full_name email password_hash role : string) (center_id : Z)
    (us : list users_row) (p : users_row -> bool) (u : users_row) :
  Sql.select_one p us = Some u ->
  Sql.select_one p (seed_user full_name email password_hash role center_id us) = Some u.
Proof.
  intros E. unfold seed_user.
  destruct (Sql.select_one (fun u0 => String.eqb (u_email u0) email) us);
    [exact E|].
  apply select_one_insert_found. exact E.
Qed.

Lemma seed_cmd_users (inp : seed_inputs) (s : Site) :
  users (fst (seed_cmd inp s)) =
  seed_user "Student" "student@example.com" (hash_student inp) "student"
    (snd (seed_center (centers s)))
    (seed_user "Admin" "admin@example.com" (hash_admin inp) "admin"
       (snd (seed_center (centers s))) (users s)).
Proof.
  unfold seed_cmd. destruct (seed_center (centers s)) as [centers1 center_id].
  cbn [snd site_db].
  destruct (seed_test "listening-sample-1" _ _ _) as [db2 [|e]]; [|reflexivity].
  destruct (seed_test "reading-sample-1" _ _ _) as [db3 result]. reflexivity.
Qed.

Lemma seed_user_pk (full_name email password_hash role : string) (center_id : Z)
    (us : list users_row) :
  NoDup (map u_id us) ->
  NoDup (map u_id (seed_user full_name email password_hash role center_id us)).
Proof.
  intros Hnd. unfold seed_user.
  destruct (Sql.select_one _ us); [exact Hnd|].
  unfold Sql.insert. rewrite map_app. apply NoDup_snoc; [exact Hnd|].
  apply next_rowid_fresh.
Qed.

Lemma wf_site_run `{StrMethods} `{Slugify} (ev : event) (s : Site) :
  site_wf s -> site_wf (run ev s).
Proof.
  intros [Hdb Hpk Href]. split; [apply wf_run; exact Hdb | |].
  - destruct ev as [session_user_id rt | inp]; cbn [run]; [exact Hpk|].
    unfold users_pk. rewrite seed_cmd_users.
    apply seed_user_pk. apply seed_user_pk. exact Hpk.
  - destruct ev as [session_user_id rt | inp]; cbn [run].
    + intros sub' Hin. cbn [site_db users set_site_db] in *.
      destruct (serve_submission_users _ rt (site_db s) sub' Hin)
        as [[sub [Hsub <-]] | [u [Hcu ->]]]; [exact (Href sub Hsub)|].
      unfold user_of_session, load_user in Hcu.
      destruct session_user_id as [user_id|]; [|discriminate].
      destruct (Sql.select_one _ (users s)) as [row|] eqn:Erow; [|discriminate].
      cbn in Hcu. injection Hcu as <-. cbn [usr_id User_of_row].
      pose proof (proj2 (select_one_some _ _ _ Erow)) as Hid. apply Z.eqb_eq in Hid.
      rewrite Hid. exists row. exact Erow.
    + intros sub' Hin. rewrite seed_cmd_users.
      assert (Hold : In sub' (submissions (site_db s))).
      { rewrite seed_cmd_db in Hin.
        destruct (snd (seed_test "listening-sample-1" _ _ _));
          rewrite ?seed_test_submissions in Hin; exact Hin. }
      destruct (Href sub' Hold) as [u Hu]. exists u.
      apply seed_user_keeps. apply seed_user_keeps. exact Hu.
Qed.

Lemma run_all_reachable `{StrMethods} `{Slugify} (evs : list event) (s : Site) :
  site_reachable s -> site_reachable (run_all evs s).
Proof.
  revert s. unfold run_all.
  induction evs as [|ev evs IH]; intros s Hs; cbn; [exact Hs|].
  apply IH. apply site_step. exact Hs.
Qed.

Lemma reachable_site_wf `{StrMethods} `{Slugify} (s : Site) :
  site_reachable s -> site_wf s.
Proof.
  induction 1 as [|ev s Hs IH].
  - split; [apply empty_db_wf; reflexivity | constructor | intros sub []].
  - apply wf_site_run. exact IH.
Qed.

Lemma reachable_db_wf `{StrMethods} `{Slugify} (s : Site) :
  site_reachable s -> db_wf (site_db s).
Proof. intros Hs. exact (wf_db s (reachable_site_wf s Hs)). Qed.

(** X5: in every state the application reaches from the empty database,
    through any sequence of requests by any sessions and of runs of the
    seed command, the rowids of users, tests, questions, submissions and
    answers are distinct, slugs are unique, there is at most one answer
    per (submission, question), every submission is of a stored user and a
    stored test, every answer is to a stored question in a stored
    submission, every correctness flag is 0 or 1, and every submission has
    a start time, a raw score between 0 and the number of its answers, a
    band the scoring function can return, and score 0 and band 0.0 until
    it is finished. *)
Theorem site_reachable_wf `{StrMethods} `{Slugify} (s : Site) :
  site_reachable s ->
  let db := site_db s in
  users_pk s /\ tests_pk db /\ slug_unique db /\ questions_pk db /\
  submissions_pk db /\ answers_wf db /\
  submissions_user_ref s /\ submissions_ref db /\ answers_ref db /\
  scores_wf db /\ flags_wf db.
Proof.
  intros Hs db. destruct (reachable_site_wf s Hs) as [[] ? ?]. tauto.
Qed.
(* ------------------------------------------------------------------ *)
(** ** The results page                                                *)
(* ------------------------------------------------------------------ *)

Lemma test_by_id_id (test_id : Z) (db : DB) (test : tests_row) :
  test_by_id test_id db = Some test -> In test (tests db) /\ t_id test = test_id.
Proof.
  intros E. destruct (select_one_some _ _ _ E) as [Hin Hid].
  apply Z.eqb_eq in Hid. auto.
Qed.

Lemma results_view_allowed (cu : User) (sid : Z) (db : DB) (sub : submissions_row)
    (test : tests_row) :
  submission_by_id sid db = Some sub ->
  s_user_id sub = usr_id cu \/ is_admin cu = true ->
  test_by_id (s_test_id sub) db = Some test ->
  results_view cu sid db =
    Render_results_view sub test (count_questions (s_test_id sub) db).
Proof.
  intros Hs Hallowed Ht. unfold results_view. rewrite Hs.
  replace (negb (s_user_id sub =? usr_id cu) && negb (is_admin cu)) with false.
  - rewrite Ht. rewrite (proj2 (test_by_id_id _ _ _ Ht)). reflexivity.
  - symmetry. destruct Hallowed as [Hu | Ha].
    + rewrite Hu, Z.eqb_refl. reflexivity.
    + rewrite Ha. apply andb_false_r.
Qed.

(** X6: in a well-formed database, as every reachable one is, the results
    page of a stored submission never fails: its owner and every
    administrator are shown the stored row, the submission's own test and
    the number of questions of that test; every other user is sent to the
    dashboard with "Ruxsat yo'q". *)
Theorem results_view_of_submission (cu : User) (sid : Z) (db : DB)
    (sub : submissions_row) :
  db_wf db ->
  submission_by_id sid db = Some sub ->
  (s_user_id sub = usr_id cu \/ is_admin cu = true ->
   exists test,
     In test (tests db) /\ t_id test = s_test_id sub /\
     results_view cu sid db =
       Render_results_view sub test (count_questions (s_test_id sub) db)) /\
  (s_user_id sub <> usr_id cu -> is_admin cu = false ->
   results_view cu sid db = To_dashboard "Ruxsat yo'q").
Proof.
  intros Hwf Hs. split.
  - intros Hallowed.
    destruct (select_one_some _ _ _ Hs) as [Hin _].
    destruct (wf_submissions_ref db Hwf sub Hin) as [test Ht].
    exists test. destruct (test_by_id_id _ _ _ Ht) as [Hint Hid].
    split; [exact Hint|]. split; [exact Hid|].
    exact (results_view_allowed cu sid db sub test Hs Hallowed Ht).
  - intros Hu Ha. unfold results_view. rewrite Hs, Ha.
    replace (s_user_id sub =? usr_id cu) with false
      by (symmetry; apply Z.eqb_neq; exact Hu).
    reflexivity.
Qed.

Lemma test_by_id_of_row (db : DB) (test : tests_row) :
  tests_pk db -> In test (tests db) -> test_by_id (t_id test) db = Some test.
Proof. intros Hpk Hin. exact (select_one_pk t_id (tests db) test Hpk Hin). Qed.

(** X7: when the owner finishes a submission through the slug of the
    submission's own test, the results page then shows the stored row with
    the count of correct answers as raw score, the finish time, the number
    of questions of the test as total, and as band the value of
    [band_from_raw] on the raw score and the total shown. *)
Theorem results_after_finish (cu : User) (now slug : string) (sid : Z) (db : DB)
    (test : tests_row) (sub : submissions_row) (band : float) :
  db_wf db ->
  test_by_slug slug db = Some test ->
  submission_by_id sid db = Some sub ->
  s_user_id sub = usr_id cu ->
  t_id test = s_test_id sub ->
  band_from_raw (count_correct sid db) (count_questions (t_id test) db) = Return band ->
  let db' := fst (test_finish (usr_id cu) now slug sid db) in
  exists sub' total,
    results_view cu sid db' = Render_results_view sub' test total /\
    s_raw_score sub' = count_correct sid db /\
    s_finished_at sub' = Some now /\
    total = count_questions (t_id test) db /\
    band_from_raw (s_raw_score sub') total = Return (s_band_score sub').
Proof.
  intros Hwf Ht Hs Hu Hid Hb db'.
  exists (set_score (count_correct sid db) band now sub),
         (count_questions (t_id test) db).
  assert (Hdb' : db' = set_submissions db
                   (Sql.update (fun s => s_id s =? sid)
                      (set_score (count_correct sid db) band now) (submissions db))).
  { unfold db'.
    rewrite (test_finish_accepted (usr_id cu) now slug sid db test sub band Ht Hs Hu Hb).
    reflexivity. }
  split; [|cbn; auto].
  destruct (select_one_some _ _ _ Ht) as [Hint _].
  rewrite (results_view_allowed cu sid db' (set_score (count_correct sid db) band now sub) test).
  - rewrite Hdb'. cbn [s_test_id set_score]. rewrite <- Hid. reflexivity.
  - rewrite Hdb'. apply submission_by_id_set_score. exact Hs.
  - left. exact Hu.
  - rewrite Hdb'. cbn [s_test_id set_score]. rewrite <- Hid.
    exact (test_by_id_of_row db test (wf_tests_pk db Hwf) Hint).
Qed.
(* ------------------------------------------------------------------ *)
(** ** What a request can touch                                        *)
(* ------------------------------------------------------------------ *)

Lemma owned_by_same_submissions (uid : Z) (db db' : DB) (sid : Z) :
  submissions db' = submissions db -> owned_by uid db' sid = owned_by uid db sid.
Proof. intros E. unfold owned_by, submission_by_id. rewrite E. reflexivity. Qed.

Lemma answers_of_others_same (uid : Z) (db db' : DB) :
  submissions db' = submissions db -> answers db' = answers db ->
  answers_of_others uid db' = answers_of_others uid db.
Proof.
  intros Es Ea. unfold answers_of_others. rewrite Ea.
  apply filter_ext. intros a. rewrite (owned_by_same_submissions uid db db' _ Es).
  reflexivity.
Qed.

Lemma update_update {row : Type} (q : row -> bool) (f g : row -> row) (t : list row) :
  (forall r, q (g r) = q r) -> (forall r, f (g r) = f r) ->
  Sql.update q f (Sql.update q g t) = Sql.update q f t.
Proof.
  intros Hq Hf. unfold Sql.update. rewrite map_map. apply map_ext.
  intros r. destruct (q r) eqn:E.
  - rewrite Hq, E. apply Hf.
  - rewrite E. reflexivity.
Qed.

Lemma isolation_test_start (uid : Z) (now slug : string) (db : DB) :
  db_wf db ->
  let db' := fst (test_start uid now slug db) in
  submissions_of_others uid db' = submissions_of_others uid db /\
  answers_of_others uid db' = answers_of_others uid db.
Proof.
  intros Hwf db'. unfold db'.
  destruct (test_start_cases uid now slug db) as [-> | [test [Ht ->]]];
    [split; reflexivity|].
  split.
  - unfold submissions_of_others. cbn [submissions set_submissions].
    unfold Sql.insert. rewrite filter_app. cbn. rewrite Z.eqb_refl. cbn.
    apply app_nil_r.
  - unfold answers_of_others. cbn [answers set_submissions].
    apply filter_ext_in. intros a Ha.
    destruct (wf_answers_ref db Hwf a Ha) as [[s Es] _].
    unfold owned_by, submission_by_id in *. cbn [submissions set_submissions].
    rewrite (select_one_insert_found _ _ _ _ Es), Es. reflexivity.
Qed.

Lemma isolation_api_answer `{StrMethods} (uid sid qid : Z) (r : option string) (db : DB) :
  db_wf db ->
  let db' := fst (api_answer uid sid qid r db) in
  submissions_of_others uid db' = submissions_of_others uid db /\
  answers_of_others uid db' = answers_of_others uid db.
Proof.
  intros Hwf db'. unfold db'.
  destruct (api_answer_cases uid sid qid r db) as [-> | [sub [q [Hs [Hu Hq]]]]];
    [split; reflexivity|].
  rewrite (api_answer_accepted uid sid qid db sub q Hs Hu Hq). cbn [fst].
  split; [reflexivity|].
  assert (Hown : owned_by uid db sid = true)
    by (unfold owned_by; rewrite Hs; apply Z.eqb_eq; exact Hu).
  unfold answers_of_others. cbn [answers set_answers].
  destruct (Sql.select_one (answer_for sid qid) (answers db)) as [ex|] eqn:Esel.
  - destruct (select_one_some _ _ _ Esel) as [Hin Hp].
    apply answer_for_iff in Hp. injection Hp as Hexs Hexq.
    transitivity (filter (fun a => negb (owned_by uid db (a_submission_id a)))
                    (Sql.update (fun a => a_id a =? a_id ex)
                       (set_answer (trimmed r)
                          (grade (q_qtype q) (q_answer_key q) (trimmed r)))
                       (answers db))).
    { apply filter_ext. intros a. reflexivity. }
    rewrite filter_update by reflexivity.
    apply update_id_on. intros a Ha.
    apply filter_In in Ha. destruct Ha as [Ha Hnp].
    destruct (a_id a =? a_id ex) eqn:E; [exfalso | reflexivity].
    apply Z.eqb_eq in E.
    rewrite (NoDup_map_inj a_id (answers db) a ex
               (proj1 (wf_answers db Hwf)) Ha Hin E), Hexs, Hown in Hnp.
    discriminate.
  - transitivity (filter (fun a => negb (owned_by uid db (a_submission_id a)))
                    (Sql.insert
                       {| a_id := Sql.next_rowid (map a_id (answers db));
                          a_submission_id := sid; a_question_id := qid;
                          a_response := trimmed r;
                          a_is_correct := grade (q_qtype q) (q_answer_key q) (trimmed r) |}
                       (answers db))).
    { apply filter_ext. intros a. reflexivity. }
    unfold Sql.insert. rewrite filter_app. cbn [filter a_submission_id].
    rewrite Hown. cbn. apply app_nil_r.
Qed.

Lemma isolation_test_finish (uid : Z) (now slug : string) (sid : Z) (db : DB) :
  db_wf db ->
  let db' := fst (test_finish uid now slug sid db) in
  submissions_of_others uid db' = submissions_of_others uid db /\
  answers_of_others uid db' = answers_of_others uid db.
Proof.
  intros Hwf db'. unfold db'.
  destruct (test_finish_cases uid now slug sid db)
    as [[-> _] | [test [sub [band [Ht [Hs [Hu Hb]]]]]]]; [split; reflexivity|].
  rewrite (test_finish_accepted uid now slug sid db test sub band Ht Hs Hu Hb).
  cbn [fst]. destruct (select_one_some _ _ _ Hs) as [Hin Hid].
  apply Z.eqb_eq in Hid. split.
  - unfold submissions_of_others. cbn [submissions set_submissions].
    rewrite filter_update by reflexivity.
    apply update_id_on. intros s Hsin.
    apply filter_In in Hsin. destruct Hsin as [Hsin Hother].
    destruct (Z.eqb_spec (s_id s) sid) as [E|E]; [exfalso | reflexivity].
    rewrite (NoDup_map_inj s_id (submissions db) s sub
               (wf_submissions_pk db Hwf) Hsin Hin (eq_trans E (eq_sym Hid))) in Hother.
    rewrite Hu, Z.eqb_refl in Hother. discriminate.
  - unfold answers_of_others. cbn [answers set_submissions].
    apply filter_ext. intros a. f_equal.
    unfold owned_by, submission_by_id. cbn [submissions set_submissions].
    rewrite select_one_update_key by reflexivity.
    destruct (Sql.select_one _ (submissions db)) as [s|]; cbn; [|reflexivity].
    destruct (s_id s =? sid); reflexivity.
Qed.

(** X8: in a well-formed database no request of a logged-in user, on any
    route and with any arguments, changes, adds or removes a submission of
    another user or an answer in a submission of another user. *)
Theorem serve_isolation `{StrMethods} `{Slugify} (u : User) (rt : route) (db : DB) :
  db_wf db ->
  let db' := fst (serve (Authenticated u) rt db) in
  submissions_of_others (usr_id u) db' = submissions_of_others (usr_id u) db /\
  answers_of_others (usr_id u) db' = answers_of_others (usr_id u) db.
Proof.
  intros Hwf db'. unfold db', serve, session, page, admin_required.
  destruct rt; cbn [fst]; try (split; reflexivity).
  - apply isolation_test_start; exact Hwf.
  - apply isolation_api_answer; exact Hwf.
  - apply isolation_test_finish; exact Hwf.
  - destruct (is_admin u); [|split; reflexivity].
    destruct (admin_tests_create_cases now_ts form db)
      as [[-> _] | [audio_filename [_ [_ [_ ->]]]]]; [split; reflexivity|].
    cbn [fst]. split; [reflexivity | apply answers_of_others_same; reflexivity].
  - destruct (is_admin u); [|split; reflexivity].
    destruct (admin_tests_import_cases test_id file db)
      as [[-> _] | [entries [items [_ [_ ->]]]]]; [split; reflexivity|].
    cbn [fst]. split; [reflexivity | apply answers_of_others_same; reflexivity].
Qed.
(* ------------------------------------------------------------------ *)
(** ** Who can write                                                   *)
(* ------------------------------------------------------------------ *)

Lemma set_site_db_same (s : Site) : set_site_db s (site_db s) = s.
Proof. destruct s. reflexivity. Qed.

Lemma serve_content `{StrMethods} `{Slugify} (u : User) (rt : route) (db : DB) :
  is_admin u = false ->
  tests (fst (serve (Authenticated u) rt db)) = tests db /\
  questions (fst (serve (Authenticated u) rt db)) = questions db.
Proof.
  intros Hna. unfold serve, session, page, admin_required. rewrite Hna.
  destruct rt; cbn [fst]; try (split; reflexivity).
  - destruct (test_start_cases (usr_id u) now slug db) as [-> | [test [_ ->]]];
      split; reflexivity.
  - destruct (api_answer_cases (usr_id u) submission_id question_id response_field db)
      as [-> | [sub [q [Hs [Hu Hq]]]]]; [split; reflexivity|].
    rewrite (api_answer_accepted _ _ _ db sub q Hs Hu Hq). split; reflexivity.
  - destruct (test_finish_cases (usr_id u) now slug submission_id db)
      as [[-> _] | [test [sub [band [Ht [Hs [Hu Hb]]]]]]]; [split; reflexivity|].
    rewrite (test_finish_accepted _ now slug _ db test sub band Ht Hs Hu Hb).
    split; reflexivity.
Qed.

(** X9: a request never writes the users and centers tables.  A request
    whose session names no stored user changes nothing at all, on any
    route.  A request of a stored user whose role is not "admin", null
    included, leaves the tests and questions tables as they are: only an
    administrator's request can create a test or import questions. *)
Theorem content_written_by_admin_only `{StrMethods} `{Slugify}
    (session_user_id : option Z) (rt : route) (s : Site) :
  let s' := run (Request session_user_id rt) s in
  users s' = users s /\ centers s' = centers s /\
  (session_user_id = None \/
   (exists user_id, session_user_id = Some user_id /\
      Sql.select_one (fun u => u_id u =? user_id) (users s) = None) ->
   s' = s) /\
  (forall user_id row,
     session_user_id = Some user_id ->
     Sql.select_one (fun u => u_id u =? user_id) (users s) = Some row ->
     u_role row <> Some "admin" ->
     tests (site_db s') = tests (site_db s) /\
     questions (site_db s') = questions (site_db s)).
Proof.
  intros s'. unfold s'. cbn [run].
  split; [reflexivity|]. split; [reflexivity|]. split.
  - intros Hanon.
    assert (E : user_of_session session_user_id (users s) = Anonymous).
    { destruct Hanon as [-> | [user_id [-> Hl]]]; [reflexivity|].
      unfold user_of_session, load_user. rewrite Hl. reflexivity. }
    rewrite E. cbn. apply set_site_db_same.
  - intros user_id row -> Hrow Hrole. cbn [site_db set_site_db].
    unfold user_of_session, load_user. rewrite Hrow. cbn [option_map].
    apply serve_content. unfold is_admin. cbn.
    destruct (u_role row) as [role|]; [|reflexivity].
    destruct (String.eqb_spec role "admin") as [-> | Hne]; [|reflexivity].
    exfalso. apply Hrole. reflexivity.
Qed.

(* ------------------------------------------------------------------ *)
(** ** Finishing is not final                                          *)
(* ------------------------------------------------------------------ *)

Lemma api_answer_after_finish `{StrMethods} (uid : Z) (now slug : string)
    (sid qid : Z) (r : option string) (db : DB) :
  let db1 := fst (test_finish uid now slug sid db) in
  api_answer uid sid qid r db1 =
    (set_submissions (fst (api_answer uid sid qid r db)) (submissions db1),
     snd (api_answer uid sid qid r db)).
Proof.
  intros db1. unfold db1.
  destruct (test_finish_cases uid now slug sid db)
    as [[-> _] | [test [sub [band [Ht [Hs [Hu Hb]]]]]]].
  - destruct (api_answer_cases uid sid qid r db) as [-> | [sub [q [Hs [Hu Hq]]]]].
    + destruct db; reflexivity.
    + rewrite (api_answer_accepted uid sid qid db sub q Hs Hu Hq). reflexivity.
  - rewrite (test_finish_accepted uid now slug sid db test sub band Ht Hs Hu Hb).
    cbn [fst].
    pose proof (submission_by_id_set_score sid (count_correct sid db) band now db sub Hs)
      as Hs1.
    destruct (question_by_id qid db) as [q|] eqn:Hq.
    + rewrite (api_answer_accepted uid sid qid _ _ q Hs1 Hu Hq).
      rewrite (api_answer_accepted uid sid qid db sub q Hs Hu Hq).
      reflexivity.
    + unfold api_answer at 1. rewrite Hs1. cbn [s_user_id set_score].
      unfold question_by_id in *. cbn [questions set_submissions]. rewrite Hq.
      unfold api_answer. rewrite Hs. unfold question_by_id. rewrite Hq.
      destruct (negb (s_user_id sub =? uid)); reflexivity.
Qed.

Lemma test_finish_over_finish (uid : Z) (now now0 slug : string) (sid raw0 : Z)
    (band0 : float) (db0 db : DB) :
  tests db = tests db0 -> questions db = questions db0 -> answers db = answers db0 ->
  submissions db =
    Sql.update (fun s => s_id s =? sid) (set_score raw0 band0 now0) (submissions db0) ->
  snd (test_finish uid now slug sid db) = Redirect_results_view sid ->
  test_finish uid now slug sid db = test_finish uid now slug sid db0.
Proof.
  intros Et Eq Ea Es Hok.
  destruct (test_finish_cases uid now slug sid db)
    as [[_ Hno] | [test [sub [band [Ht [Hs [Hu Hb]]]]]]]; [contradiction|].
  assert (Hs0 : exists sub0, submission_by_id sid db0 = Some sub0 /\ s_user_id sub0 = uid).
  { unfold submission_by_id in *. rewrite Es in Hs.
    rewrite select_one_update_key in Hs by reflexivity.
    destruct (Sql.select_one _ (submissions db0)) as [sub0|]; [|discriminate].
    exists sub0. split; [reflexivity|].
    injection Hs as <-. rewrite <- Hu. destruct (s_id sub0 =? sid); reflexivity. }
  destruct Hs0 as [sub0 [Hs0 Hu0]].
  assert (Ht0 : test_by_slug slug db0 = Some test)
    by (unfold test_by_slug in *; rewrite <- Et; exact Ht).
  assert (Hc : count_correct sid db = count_correct sid db0)
    by (unfold count_correct; rewrite Ea; reflexivity).
  assert (Hq : count_questions (t_id test) db = count_questions (t_id test) db0)
    by (unfold count_questions; rewrite Eq; reflexivity).
  rewrite (test_finish_accepted uid now slug sid db test sub band Ht Hs Hu Hb).
  rewrite Hc, Hq in Hb.
  rewrite (test_finish_accepted uid now slug sid db0 test sub0 band Ht0 Hs0 Hu0 Hb).
  f_equal. unfold set_submissions. rewrite Et, Eq, Ea, Es, Hc. f_equal.
  apply update_update; reflexivity.
Qed.

(** X10: a finished submission is not closed.  After a finish,
    [api_answer] answers as it would have before it and leaves the same
    answers table; and when the submission is finished again, the
    database is the one this second finish would have produced had the
    first never happened: score, band and finish time are overwritten. *)
Theorem finish_not_final `{StrMethods} (uid : Z) (now1 now2 slug1 slug2 : string)
    (sid qid : Z) (r : option string) (db : DB) :
  let db1 := fst (test_finish uid now1 slug1 sid db) in
  let answered_late := api_answer uid sid qid r db1 in
  let answered_early := api_answer uid sid qid r db in
  snd answered_late = snd answered_early /\
  answers (fst answered_late) = answers (fst answered_early) /\
  (snd (test_finish uid now2 slug2 sid (fst answered_late)) = Redirect_results_view sid ->
   test_finish uid now2 slug2 sid (fst answered_late) =
   test_finish uid now2 slug2 sid (fst answered_early)).
Proof.
  intros db1 late early. unfold late, early, db1.
  rewrite api_answer_after_finish. cbn [fst snd].
  split; [reflexivity|]. split; [reflexivity|].
  set (dba := fst (api_answer uid sid qid r db)).
  assert (Hsubs : submissions dba = submissions db).
  { unfold dba.
    destruct (api_answer_cases uid sid qid r db) as [-> | [sub [q [Hs [Hu Hq]]]]];
      [reflexivity|].
    rewrite (api_answer_accepted uid sid qid db sub q Hs Hu Hq). reflexivity. }
  destruct (test_finish_cases uid now1 slug1 sid db)
    as [[-> _] | [test [sub [band [Ht [Hs [Hu Hb]]]]]]].
  - intros _. rewrite <- Hsubs. destruct dba; reflexivity.
  - rewrite (test_finish_accepted uid now1 slug1 sid db test sub band Ht Hs Hu Hb).
    cbn [fst submissions set_submissions].
    apply (test_finish_over_finish uid now2 now1 slug2 sid (count_correct sid db) band);
      try reflexivity.
    cbn [submissions set_submissions]. rewrite Hsubs. reflexivity.
Qed.

(* ------------------------------------------------------------------ *)
(** ** The raw score against the number of questions                   *)
(* ------------------------------------------------------------------ *)

Lemma keys_of_filter_NoDup {row K : Type} (key : row -> K) (keep : row -> bool)
    (t : list row) :
  NoDup (map key t) -> NoDup (map key (filter keep t)).
Proof.
  induction t as [|r t IH]; cbn; [auto|].
  intros Hnd. inversion Hnd as [|? ? Hnotin Hnd']; subst.
  destruct (keep r); [|exact (IH Hnd')].
  cbn. constructor; [|exact (IH Hnd')].
  intros Hin. apply Hnotin. apply in_map_iff in Hin.
  destruct Hin as [y [E Hy]]. apply filter_In in Hy.
  apply in_map_iff. exists y. tauto.
Qed.

Lemma NoDup_questions_of_submission (sid : Z) (l : list answers_row) :
  NoDup (map (fun a => (a_submission_id a, a_question_id a)) l) ->
  (forall a, In a l -> a_submission_id a = sid) ->
  NoDup (map a_question_id l).
Proof.
  induction l as [|x l IH]; cbn; [constructor|].
  intros Hnd Hsid. inversion Hnd as [|? ? Hnotin Hnd']; subst.
  constructor.
  - intros Hin. apply Hnotin. apply in_map_iff in Hin.
    destruct Hin as [y [E Hy]]. apply in_map_iff. exists y.
    split; [|exact Hy].
    rewrite E, (Hsid y (or_intror Hy)), (Hsid x (or_introl eq_refl)). reflexivity.
  - apply IH; [exact Hnd' | intros a Ha; apply Hsid; right; exact Ha].
Qed.

(** X11: in a well-formed database the number of answers of a submission
    flagged correct is at most the number of stored questions; and when
    every answer of the submission is to a question of one test, it is at
    most the number of questions of that test, so that the percentage
    [band_from_raw] computes for that test is at most 1. *)
Theorem correct_at_most_total (sid test_id : Z) (db : DB) :
  db_wf db ->
  count_correct sid db <= Z.of_nat (List.length (questions db)) /\
  ((forall a, In a (answers db) -> a_submission_id a = sid ->
      exists q, question_by_id (a_question_id a) db = Some q /\ q_test_id q = test_id) ->
   count_correct sid db <= count_questions test_id db).
Proof.
  intros Hwf.
  set (mine := filter (fun a => (a_submission_id a =? sid) && (a_is_correct a =? 1))
                 (answers db)).
  assert (Hnd : NoDup (map a_question_id mine)).
  { apply (NoDup_questions_of_submission sid).
    - apply keys_of_filter_NoDup. exact (proj2 (wf_answers db Hwf)).
    - intros a Ha. apply filter_In in Ha. destruct Ha as [_ Ha].
      apply andb_true_iff in Ha. apply Z.eqb_eq. tauto. }
  assert (Hlen : forall ids : list Z,
             incl (map a_question_id mine) ids ->
             count_correct sid db <= Z.of_nat (List.length ids)).
  { intros ids Hincl. unfold count_correct, Sql.count. fold mine.
    apply inj_le. rewrite <- (length_map a_question_id mine).
    apply NoDup_incl_length; assumption. }
  split.
  - rewrite <- (length_map q_id (questions db)). apply Hlen.
    intros id Hin. apply in_map_iff in Hin. destruct Hin as [a [<- Ha]].
    apply filter_In in Ha. destruct Ha as [Ha _].
    destruct (wf_answers_ref db Hwf a Ha) as [_ [q Eq]].
    destruct (select_one_some _ _ _ Eq) as [Hq Hid]. apply Z.eqb_eq in Hid.
    apply in_map_iff. exists q. auto.
  - intros Hall. unfold count_questions, Sql.count.
    rewrite <- (length_map q_id (filter _ (questions db))). apply Hlen.
    intros id Hin. apply in_map_iff in Hin. destruct Hin as [a [<- Ha]].
    apply filter_In in Ha. destruct Ha as [Ha Hp].
    apply andb_true_iff in Hp. destruct Hp as [Hp _]. apply Z.eqb_eq in Hp.
    destruct (Hall a Ha Hp) as [q [Eq Ht]].
    destruct (select_one_some _ _ _ Eq) as [Hq Hid]. apply Z.eqb_eq in Hid.
    apply in_map_iff. exists q. split; [exact Hid|].
    apply filter_In. split; [exact Hq | apply Z.eqb_eq; exact Ht].
Qed.
(* ------------------------------------------------------------------ *)
(** ** The question page                                               *)
(* ------------------------------------------------------------------ *)

Section OrderByFacts.
Context {row : Type} (le : row -> row -> bool).
Hypothesis le_total : forall a b, le a b = true \/ le b a = true.

Lemma insert_sorted_perm (r : row) (t : list row) :
  Permutation (insert_sorted le r t) (r :: t).
Proof.
  induction t as [|x t IH]; cbn; [reflexivity|].
  destruct (le r x); [reflexivity|].
  rewrite IH. apply perm_swap.
Qed.

Lemma order_by_perm (t : list row) : Permutation (order_by le t) t.
Proof.
  induction t as [|x t IH]; cbn; [reflexivity|].
  rewrite insert_sorted_perm. constructor. exact IH.
Qed.

Lemma insert_sorted_sorted (r : row) (t : list row) :
  Sorted (fun a b => le a b = true) t ->
  Sorted (fun a b => le a b = true) (insert_sorted le r t).
Proof.
  induction t as [|x t IH]; cbn; intros Hs.
  - repeat constructor.
  - destruct (le r x) eqn:E.
    + constructor; [exact Hs | constructor; exact E].
    + inversion Hs as [|? ? Hs' Hhd]; subst.
      constructor; [exact (IH Hs')|].
      assert (Hxr : le x r = true) by (destruct (le_total r x); congruence).
      destruct t as [|y t]; cbn.
      * constructor. exact Hxr.
      * destruct (le r y); constructor; [exact Hxr|].
        inversion Hhd; assumption.
Qed.

Lemma order_by_sorted (t : list row) :
  Sorted (fun a b => le a b = true) (order_by le t).
Proof.
  induction t as [|x t IH]; cbn; [constructor|].
  apply insert_sorted_sorted. exact IH.
Qed.
End OrderByFacts.

Lemma order_index_total (a b : questions_row) :
  (q_order_index a <=? q_order_index b) = true \/
  (q_order_index b <=? q_order_index a) = true.
Proof. rewrite !Z.leb_le. lia. Qed.

Lemma questions_in_order_spec (test_id : Z) (db : DB) :
  Permutation (questions_in_order test_id db)
              (filter (fun q => q_test_id q =? test_id) (questions db)) /\
  StronglySorted (fun q q' => q_order_index q <= q_order_index q')
                 (questions_in_order test_id db).
Proof.
  unfold questions_in_order. split; [apply order_by_perm|].
  apply Sorted_StronglySorted; [intros a b c; lia|].
  pose proof (order_by_sorted (fun q q' => q_order_index q <=? q_order_index q')
                order_index_total
                (filter (fun q => q_test_id q =? test_id) (questions db))) as Hs.
  induction Hs as [|x l Hs IH Hhd]; constructor; [exact IH|].
  destruct Hhd; constructor. apply Z.leb_le. assumption.
Qed.

(** X12: the question page of an existing test is shown to the owner of
    the submission named in the address, and to nobody else; it lists the
    questions of that test, each stored row once and no other, in
    ascending [order_index].  The test is the one the slug names: nothing
    ties it to the submission's test. *)
Theorem test_take_questions (uid : Z) (slug : string) (sid : Z) (db : DB)
    (test : tests_row) (sub : submissions_row) :
  test_by_slug slug db = Some test ->
  submission_by_id sid db = Some sub ->
  (s_user_id sub = uid ->
   exists qs,
     test_take uid slug sid db = Render_test_take test sub qs /\
     Permutation qs (filter (fun q => q_test_id q =? t_id test) (questions db)) /\
     StronglySorted (fun q q' => q_order_index q <= q_order_index q') qs) /\
  (s_user_id sub <> uid -> test_take uid slug sid db = To_dashboard "Ruxsat yo'q").
Proof.
  intros Ht Hs. unfold test_take. rewrite Ht, Hs. split; intros Hu.
  - rewrite Hu, Z.eqb_refl. cbn [negb].
    exists (questions_in_order (t_id test) db).
    split; [reflexivity | apply questions_in_order_spec].
  - replace (s_user_id sub =? uid) with false by (symmetry; apply Z.eqb_neq; exact Hu).
    reflexivity.
Qed.
(* ------------------------------------------------------------------ *)
(** ** Importing questions                                             *)
(* ------------------------------------------------------------------ *)


Lemma numbered_rows_test_id {A : Type} (mk : Z -> A -> questions_row) (test_id : Z)
    (first : Z) (items : list A) (q : questions_row) :
  (forall id x, q_test_id (mk id x) = test_id) ->
  In q (numbered_rows mk first items) -> q_test_id q = test_id.
Proof.
  intros Hmk. revert first. induction items as [|x items IH]; intros first; cbn;
    [intros []|].
  intros [<- | Hin]; [apply Hmk | exact (IH _ Hin)].
Qed.





(* ------------------------------------------------------------------ *)
(** ** Creating a test                                                 *)
(* ------------------------------------------------------------------ *)

Lemma test_by_slug_insert (slug : string) (db : DB) (row : tests_row) :
  test_by_slug slug (set_tests db (Sql.insert row (tests db))) =
  match test_by_slug slug db with
  | Some t => Some t
  | None => if String.eqb (t_slug row) slug then Some row else None
  end.
Proof.
  unfold test_by_slug. cbn [tests set_tests]. unfold Sql.insert.
  rewrite select_one_app. reflexivity.
Qed.



(* ------------------------------------------------------------------ *)
(** ** File names and fallback slugs                                   *)
(* ------------------------------------------------------------------ *)

Lemma replace_char_get (old new : ascii) (s : string) (n : nat) :
  String.get n (replace_char old new s) =
  option_map (fun c => if Ascii.eqb c old then new else c) (String.get n s).
Proof.
  revert n. induction s as [|c s IH]; intros n; cbn; [reflexivity|].
  destruct n; [reflexivity | apply IH].
Qed.

Lemma replace_char_length (old new : ascii) (s : string) :
  String.length (replace_char old new s) = String.length s.
Proof. induction s as [|c s IH]; cbn; [reflexivity | rewrite IH; reflexivity]. Qed.

(** X17: the name an uploaded audio file is stored under has the length of
    the uploaded name and the same character at every position, except
    that each slash and each backslash has become an underscore: the
    stored name holds no path separator.  A name without separators is
    kept as it is. *)
Theorem safe_name_no_separator (filename : string) :
  String.length (safe_name filename) = String.length filename /\
  (forall n c, String.get n filename = Some c ->
     String.get n (safe_name filename) =
       Some (if Ascii.eqb c "/" || Ascii.eqb c "\" then "_"%char else c)) /\
  (forall n c, String.get n (safe_name filename) = Some c ->
     c <> "/"%char /\ c <> "\"%char) /\
  ((forall n c, String.get n filename = Some c -> c <> "/"%char /\ c <> "\"%char) ->
   safe_name filename = filename).
Proof.
  assert (Hget : forall n c, String.get n filename = Some c ->
     String.get n (safe_name filename) =
       Some (if Ascii.eqb c "/" || Ascii.eqb c "\" then "_"%char else c)).
  { intros n c Hc. unfold safe_name. rewrite !replace_char_get, Hc. cbn.
    f_equal. destruct (Ascii.eqb_spec c "/") as [-> | H1]; [reflexivity|].
    cbn. reflexivity. }
  split; [unfold safe_name; rewrite !replace_char_length; reflexivity|].
  split; [exact Hget|]. split.
  - intros n c Hc. unfold safe_name in Hc. rewrite !replace_char_get in Hc.
    destruct (String.get n filename) as [c0|]; [|discriminate].
    cbn in Hc. injection Hc as <-.
    destruct (Ascii.eqb_spec c0 "/") as [-> | H1]; [cbn; split; discriminate|].
    destruct (Ascii.eqb_spec c0 "\") as [-> | H2]; [split; discriminate|].
    split; assumption.
  - intros Hclean. unfold safe_name.
    assert (Hid : forall old s,
               (forall n c, String.get n s = Some c -> c <> old) ->
               replace_char old "_" s = s).
    { intros old s. induction s as [|c s IH]; intros Hs; cbn; [reflexivity|].
      destruct (Ascii.eqb_spec c old) as [E|E].
      - exfalso. exact (Hs 0%nat c eq_refl E).
      - f_equal. apply IH. intros n c' Hc'. exact (Hs (S n) c' Hc'). }
    rewrite (Hid "/"%char filename) by (intros n c Hc; apply (Hclean n c Hc)).
    apply Hid. intros n c Hc. apply (Hclean n c Hc).
Qed.

Lemma str_of_int_inj (z z' : Z) : str_of_int z = str_of_int z' -> z = z'.
Proof.
  unfold str_of_int. intros E.
  assert (Hok : forall x, Z.to_int x <> Decimal.Pos Decimal.Nil /\
                          Z.to_int x <> Decimal.Neg Decimal.Nil).
  { intros [|p|p]; cbn; split; try discriminate;
      intros [= Hp]; exact (DecimalPos.Unsigned.to_uint_nonnil p Hp). }
  apply DecimalZ.to_int_inj.
  assert (Hs : Some (Z.to_int z) = Some (Z.to_int z')).
  { rewrite <- (DecimalString.NilZero.isi (Z.to_int z)) by apply Hok.
    rewrite <- (DecimalString.NilZero.isi (Z.to_int z')) by apply Hok.
    rewrite E. reflexivity. }
  injection Hs as Hs. exact Hs.
Qed.

(** X18: a test whose title slugifies to nothing gets the slug "test-"
    followed by the clock reading in seconds.  Two such slugs are equal
    exactly when the two readings are: after one untitled test is created,
    a second untitled test sent within the same second is refused by the
    uniqueness of slugs and leaves the database as it is. *)
Theorem untitled_test_slug `{StrMethods} `{Slugify} (now1 now2 : Z)
    (form1 form2 : create_form) (db : DB) :
  slugify (strip (or_default "" (f_title form1))) = "" ->
  slugify (strip (or_default "" (f_title form2))) = "" ->
  let slug1 := slug_for (strip (or_default "" (f_title form1))) now1 in
  let slug2 := slug_for (strip (or_default "" (f_title form2))) now2 in
  let db1 := fst (admin_tests_create now1 form1 db) in
  (slug1 = slug2 <-> now1 = now2) /\
  (snd (admin_tests_create now1 form1 db) = To_admin_tests "Test yaratildi" ->
   now1 = now2 ->
   fst (admin_tests_create now2 form2 db1) = db1 /\
   exists e, snd (admin_tests_create now2 form2 db1) = Raised e).
Proof.
  intros H1 H2 slug1 slug2 db1.
  assert (Hs1 : slug1 = "test-" ++ str_of_int now1)
    by (unfold slug1, slug_for; rewrite H1; reflexivity).
  assert (Hs2 : slug2 = "test-" ++ str_of_int now2)
    by (unfold slug2, slug_for; rewrite H2; reflexivity).
  split.
  - rewrite Hs1, Hs2. split.
    + cbn. intros [= E]. exact (str_of_int_inj _ _ E).
    + intros ->. reflexivity.
  - intros Hcreated Hnow.
    destruct (admin_tests_create_cases now2 form2 db1)
      as [Hrefused | [audio [_ [_ [Hfree _]]]]]; [exact Hrefused|].
    exfalso. fold slug2 in Hfree.
    assert (E : slug2 = slug1) by (rewrite Hs1, Hs2, Hnow; reflexivity).
    rewrite E in Hfree. unfold db1 in Hfree.
    destruct (admin_tests_create_cases now1 form1 db)
      as [[_ [e He]] | [audio1 [_ [_ [Hslug Hout]]]]];
      [rewrite He in Hcreated; discriminate|].
    rewrite Hout in Hfree. cbn [fst] in Hfree.
    rewrite test_by_slug_insert in Hfree. fold slug1 in Hslug, Hfree.
    rewrite Hslug in Hfree. cbn [t_slug] in Hfree.
    rewrite String.eqb_refl in Hfree. discriminate.
Qed.
(* ------------------------------------------------------------------ *)
(** ** Running the seed command again                                  *)
(* ------------------------------------------------------------------ *)

Lemma seed_center_found (cs : list centers_row) :
  exists c, Sql.select_one (fun c => String.eqb (c_name c) "Default Center")
              (fst (seed_center cs)) = Some c.
Proof.
  unfold seed_center.
  destruct (Sql.select_one _ cs) as [c|] eqn:E; cbn [fst]; [eauto|].
  unfold Sql.insert. rewrite select_one_app, E. cbn. eauto.
Qed.

Lemma seed_user_found (full_name email password_hash role : string) (center_id : Z)
    (us : list users_row) :
  exists u, Sql.select_one (fun u => String.eqb (u_email u) email)
              (seed_user full_name email password_hash role center_id us) = Some u.
Proof.
  unfold seed_user.
  destruct (Sql.select_one _ us) as [u|] eqn:E; [eauto|].
  unfold Sql.insert. rewrite select_one_app, E. cbn.
  rewrite String.eqb_refl. eauto.
Qed.

Lemma seed_test_keeps (slug : string) (mk : Z -> tests_row) (file : seed_file)
    (db : DB) (other : string) (t : tests_row) :
  test_by_slug other db = Some t ->
  test_by_slug other (fst (seed_test slug mk file db)) = Some t.
Proof.
  intros E.
  assert (E1 : test_by_slug other
                 (set_tests db (Sql.insert (mk (Sql.next_rowid (map t_id (tests db))))
                                           (tests db))) = Some t)
    by (rewrite test_by_slug_insert, E; reflexivity).
  destruct (seed_test_cases slug mk file db)
    as [[t0 [_ ->]] | [[_ [e ->]] | [_ [entries [items [_ [_ ->]]]]]]]; cbn [fst];
    [exact E | exact E1 | exact E1].
Qed.

Lemma seed_test_done (slug : string) (mk : Z -> tests_row) (file : seed_file)
    (db : DB) :
  (forall id, t_slug (mk id) = slug) ->
  snd (seed_test slug mk file db) = Seed_done ->
  exists t, test_by_slug slug (fst (seed_test slug mk file db)) = Some t.
Proof.
  intros Hmk Hdone.
  destruct (seed_test_cases slug mk file db)
    as [[t0 [E ->]] | [[_ [e He]] | [_ [entries [items [_ [_ ->]]]]]]]; cbn [fst].
  - eauto.
  - rewrite He in Hdone. discriminate.
  - unfold test_by_slug. cbn [tests set_questions set_tests].
    unfold Sql.insert. rewrite select_one_app.
    destruct (Sql.select_one _ (tests db)); [eauto|].
    cbn. rewrite Hmk, String.eqb_refl. eauto.
Qed.

Lemma seed_cmd_seeded (inp : seed_inputs) (s s1 : Site) :
  seed_cmd inp s = (s1, Seed_done) -> seeded s1.
Proof.
  unfold seed_cmd. intros Hrun.
  pose proof (seed_center_found (centers s)) as Hc.
  destruct (seed_center (centers s)) as [centers1 center_id]. cbn [fst] in Hc.
  cbn [site_db] in Hrun.
  pose proof (seed_test_done "listening-sample-1" (listening_sample center_id)
                (sample_listening inp) (site_db s) (fun _ => eq_refl)) as H1.
  destruct (seed_test "listening-sample-1" _ _ _) as [db2 [|e]];
    [|discriminate Hrun].
  cbn [fst snd] in H1. specialize (H1 eq_refl).
  pose proof (seed_test_done "reading-sample-1" (reading_sample center_id)
                (sample_reading inp) db2 (fun _ => eq_refl)) as H2.
  pose proof (fun t => seed_test_keeps "reading-sample-1" (reading_sample center_id)
                (sample_reading inp) db2 "listening-sample-1" t) as Hkeep.
  destruct (seed_test "reading-sample-1" _ _ _) as [db3 result].
  cbn [fst snd] in H2, Hkeep. injection Hrun as <- ->.
  unfold seeded. cbn [centers users site_db set_site_db].
  split; [exact Hc|]. split; [|split; [|split]].
  - destruct (seed_user_found "Admin" "admin@example.com" (hash_admin inp) "admin"
                center_id (users s)) as [a Ha].
    exists a. apply seed_user_keeps. exact Ha.
  - apply seed_user_found.
  - destruct H1 as [t1 Ht1]. exists t1. exact (Hkeep t1 Ht1).
  - exact (H2 eq_refl).
Qed.

Lemma seeded_seed_cmd (inp : seed_inputs) (s : Site) :
  seeded s -> seed_cmd inp s = (s, Seed_done).
Proof.
  intros [[c Hc] [[a Ha] [[st Hst] [[t1 Ht1] [t2 Ht2]]]]].
  unfold seed_cmd, seed_center. rewrite Hc.
  unfold seed_user. rewrite Ha, Hst. cbn [site_db].
  unfold seed_test. rewrite Ht1, Ht2.
  destruct s. reflexivity.
Qed.

(** X19: the seed command is idempotent.  After a run that came to its
    end, running it again, with any password hashes and any seed files,
    comes to its end too and changes no table: no second center, account,
    test or question is created. *)
Theorem seed_cmd_idempotent (inp inp' : seed_inputs) (s s1 : Site) :
  seed_cmd inp s = (s1, Seed_done) ->
  seed_cmd inp' s1 = (s1, Seed_done).
Proof.
  intros Hrun. apply seeded_seed_cmd. exact (seed_cmd_seeded inp s s1 Hrun).
Qed.

Lemma seed_test_stored_counts (slug : string) (mk : Z -> tests_row)
    (file : seed_file) (db : DB) (test : tests_row) :
  In test (tests db) ->
  In test (tests (fst (seed_test slug mk file db))) /\
  count_questions (t_id test) (fst (seed_test slug mk file db)) =
    count_questions (t_id test) db.
Proof.
  intros Hin.
  assert (Hin1 : In test (Sql.insert (mk (Sql.next_rowid (map t_id (tests db))))
                                     (tests db)))
    by (apply in_insert; left; exact Hin).
  destruct (seed_test_cases slug mk file db)
    as [[t0 [_ ->]] | [[_ [e ->]] | [_ [entries [items [_ [_ ->]]]]]]]; cbn [fst].
  - split; [exact Hin | reflexivity].
  - split; [exact Hin1 | reflexivity].
  - split; [exact Hin1|].
    unfold count_questions. cbn [questions set_questions set_tests].
    rewrite count_app. rewrite (count_none _ (numbered_rows _ _ _)); [lia|].
    intros q Hq. apply Z.eqb_neq.
    rewrite (numbered_rows_test_id (seed_row (Sql.next_rowid (map t_id (tests db))))
               (Sql.next_rowid (map t_id (tests db))) _ items q (fun _ _ => eq_refl) Hq).
    pose proof (next_rowid_above (map t_id (tests db)) (t_id test) (in_map t_id _ _ Hin)).
    lia.
Qed.

(** X20: the seed command never adds a question to a test that is already
    stored.  Since it stores a sample test before it opens the test's file,
    a run that fails on the listening file (unreadable, or with an element
    that is not a complete object) leaves the listening test stored without
    the questions of the file and the reading sample not created; and no
    later run, whatever its files, gives that test a question. *)
Theorem seed_failure_not_repaired (inp : seed_inputs) (s : Site) :
  (forall test, In test (tests (site_db s)) ->
     count_questions (t_id test) (site_db (fst (seed_cmd inp s))) =
     count_questions (t_id test) (site_db s)) /\
  (test_by_slug "listening-sample-1" (site_db s) = None ->
   (match sample_listening inp with
    | Seed_unreadable _ => True
    | Seed_items entries => seed_items entries = None
    end) ->
   exists e test,
     snd (seed_cmd inp s) = Seed_raised e /\
     test_by_slug "listening-sample-1" (site_db (fst (seed_cmd inp s))) = Some test /\
     questions (site_db (fst (seed_cmd inp s))) = questions (site_db s) /\
     test_by_slug "reading-sample-1" (site_db (fst (seed_cmd inp s))) =
       test_by_slug "reading-sample-1" (site_db s) /\
     forall inp',
       count_questions (t_id test)
         (site_db (fst (seed_cmd inp' (fst (seed_cmd inp s))))) =
       count_questions (t_id test) (site_db s)).
Proof.
  assert (Hstored : forall inp s test, In test (tests (site_db s)) ->
     count_questions (t_id test) (site_db (fst (seed_cmd inp s))) =
     count_questions (t_id test) (site_db s)).
  { clear. intros inp s test Hin. rewrite seed_cmd_db.
    destruct (seed_test_stored_counts "listening-sample-1"
                (listening_sample (snd (seed_center (centers s))))
                (sample_listening inp) (site_db s) test Hin) as [Hin1 Hc1].
    destruct (snd (seed_test "listening-sample-1" _ _ _)); [|exact Hc1].
    destruct (seed_test_stored_counts "reading-sample-1"
                (reading_sample (snd (seed_center (centers s))))
                (sample_reading inp) _ test Hin1) as [_ Hc2].
    rewrite Hc2. exact Hc1. }
  split; [apply Hstored|].
  intros Hno Hbad.
  set (center_id := snd (seed_center (centers s))).
  set (test := listening_sample center_id (Sql.next_rowid (map t_id (tests (site_db s))))).
  assert (Hrun : exists e,
            seed_test "listening-sample-1" (listening_sample center_id)
              (sample_listening inp) (site_db s) =
            (set_tests (site_db s) (Sql.insert test (tests (site_db s))), Seed_raised e)).
  { unfold seed_test. rewrite Hno. fold test.
    destruct (sample_listening inp) as [e|entries]; [eauto|].
    pose proof (seed_rows_spec (Sql.next_rowid (map t_id (tests (site_db s)))) entries
                  (questions (set_tests (site_db s) (Sql.insert test (tests (site_db s))))))
      as Hspec.
    rewrite Hbad in Hspec. destruct Hspec as [e ->]. eauto. }
  destruct Hrun as [e Hrun].
  assert (Hdb : site_db (fst (seed_cmd inp s)) =
                set_tests (site_db s) (Sql.insert test (tests (site_db s))))
    by (rewrite seed_cmd_db; fold center_id; rewrite Hrun; reflexivity).
  assert (Hres : snd (seed_cmd inp s) = Seed_raised e).
  { unfold seed_cmd. unfold center_id in Hrun.
    destruct (seed_center (centers s)) as [centers1 cid]. cbn [snd site_db] in *.
    rewrite Hrun. reflexivity. }
  exists e, test. split; [exact Hres|]. rewrite Hdb.
  split; [|split; [|split]].
  - rewrite test_by_slug_insert, Hno. reflexivity.
  - reflexivity.
  - rewrite test_by_slug_insert.
    destruct (test_by_slug "reading-sample-1" (site_db s)); reflexivity.
  - intros inp'. rewrite Hstored.
    + rewrite Hdb. reflexivity.
    + rewrite Hdb. cbn [tests set_tests]. apply in_insert. right. reflexivity.
Qed.
(* ------------------------------------------------------------------ *)
(** ** The administrator's list of results                             *)
(* ------------------------------------------------------------------ *)

Lemma text_le_total (a b : option string) :
  text_le a b = true \/ text_le b a = true.
Proof.
  destruct a as [x|], b as [y|]; cbn; auto. apply String.leb_total.
Qed.

Lemma joined_rows (s : Site) (sub : submissions_row) :
  site_wf s -> In sub (submissions (site_db s)) ->
  exists u t,
    In u (users s) /\ u_id u = s_user_id sub /\
    In t (tests (site_db s)) /\ t_id t = s_test_id sub /\
    flat_map
      (fun u =>
         map (fun t =>
                {| r_submission := sub;
                   r_user_name := u_full_name u;
                   r_test_title := t_title t;
                   r_total_q := count_questions (t_id t) (site_db s) |})
             (filter (fun t => t_id t =? s_test_id sub) (tests (site_db s))))
      (filter (fun u => u_id u =? s_user_id sub) (users s))
    = [{| r_submission := sub;
          r_user_name := u_full_name u;
          r_test_title := t_title t;
          r_total_q := count_questions (s_test_id sub) (site_db s) |}].
Proof.
  intros [Hdb Hpk Href] Hin.
  destruct (Href sub Hin) as [u Hu].
  destruct (wf_submissions_ref _ Hdb sub Hin) as [t Ht].
  destruct (select_one_some _ _ _ Hu) as [Hinu Hidu]. apply Z.eqb_eq in Hidu.
  destruct (test_by_id_id _ _ _ Ht) as [Hint Hidt].
  exists u, t. repeat (split; [assumption|]).
  rewrite (filter_unique u_id _ (users s) u Hpk); [| |exact Hu].
  - cbn [flat_map]. rewrite app_nil_r.
    rewrite (filter_unique t_id _ (tests (site_db s)) t (wf_tests_pk _ Hdb));
      [| |exact Ht].
    + cbn [map]. rewrite Hidt. reflexivity.
    + intros x y _ _ Hx Hy. apply Z.eqb_eq in Hx, Hy. congruence.
  - intros x y _ _ Hx Hy. apply Z.eqb_eq in Hx, Hy. congruence.
Qed.

(** X21: in a well-formed site, as every reachable one is, the list of
    results shown to an administrator holds every stored submission exactly
    once and nothing else, the latest start first, each with the name of
    its user, the title of its own test and the number of questions of
    that test; a logged-in user who is no administrator is sent to the
    dashboard with "Faqat admin". *)
Theorem admin_results_lists_all (u : User) (s : Site) :
  site_wf s ->
  (is_admin u = false ->
   admin_results (Authenticated u) s = To_dashboard "Faqat admin") /\
  (is_admin u = true ->
   exists rows,
     admin_results (Authenticated u) s = Render_admin_results rows /\
     Permutation (map r_submission rows) (submissions (site_db s)) /\
     Sorted (fun r r' => text_le (s_started_at (r_submission r'))
                                 (s_started_at (r_submission r)) = true) rows /\
     forall r, In r rows ->
       r_total_q r = count_questions (s_test_id (r_submission r)) (site_db s) /\
       (exists usr, In usr (users s) /\ u_id usr = s_user_id (r_submission r) /\
                    r_user_name r = u_full_name usr) /\
       (exists t, In t (tests (site_db s)) /\ t_id t = s_test_id (r_submission r) /\
                  r_test_title r = t_title t)).
Proof.
  intros Hwf. split; [intros Hna; unfold admin_results; rewrite Hna; reflexivity|].
  intros Ha. exists (admin_results_rows s).
  split; [unfold admin_results; rewrite Ha; reflexivity|].
  unfold admin_results_rows.
  set (joined := flat_map _ (submissions (site_db s))).
  set (le := fun r r' : results_row => _).
  assert (Hperm : Permutation (order_by le joined) joined) by apply order_by_perm.
  assert (Hall : forall l, (forall sub, In sub l -> In sub (submissions (site_db s))) ->
     map r_submission
       (flat_map
          (fun sub =>
             flat_map
               (fun u =>
                  map (fun t =>
                         {| r_submission := sub;
                            r_user_name := u_full_name u;
                            r_test_title := t_title t;
                            r_total_q := count_questions (t_id t) (site_db s) |})
                      (filter (fun t => t_id t =? s_test_id sub) (tests (site_db s))))
               (filter (fun u => u_id u =? s_user_id sub) (users s))) l) = l).
  { induction l as [|sub l IH]; intros Hl; cbn [flat_map map]; [reflexivity|].
    destruct (joined_rows s sub Hwf (Hl sub (or_introl eq_refl)))
      as [usr [t [_ [_ [_ [_ ->]]]]]].
    cbn. f_equal. apply IH. intros x Hx. apply Hl. right. exact Hx. }
  split; [|split].
  - rewrite (Permutation_map r_submission Hperm). unfold joined.
    rewrite Hall by auto. reflexivity.
  - apply order_by_sorted. intros a b. unfold le. apply text_le_total.
  - intros r Hr. apply (Permutation_in _ Hperm) in Hr.
    unfold joined in Hr. apply in_flat_map in Hr. destruct Hr as [sub [Hsub Hr]].
    destruct (joined_rows s sub Hwf Hsub) as [usr [t [Hu [Hidu [Ht [Hidt E]]]]]].
    rewrite E in Hr. destruct Hr as [<- | []]. cbn.
    split; [reflexivity|]. split; [exists usr | exists t]; auto.
Qed.
(* ------------------------------------------------------------------ *)
(** ** A whole sitting                                                 *)
(* ------------------------------------------------------------------ *)

Lemma answers_of_other_question `{StrMethods} (uid sid qid qid' : Z)
    (r : option string) (db : DB) :
  answers_pk db -> qid' <> qid ->
  answers_of sid qid' (fst (api_answer uid sid qid r db)) = answers_of sid qid' db.
Proof.
  intros Hpk Hne.
  assert (Hvia : forall d, answers_of sid qid' d =
                           filter (answer_for sid qid') (answers_besides sid qid d)).
  { intros d. unfold answers_of, answers_besides.
    induction (answers d) as [|a l IH]; cbn; [reflexivity|].
    destruct (answer_for sid qid' a) eqn:E'.
    - assert (E : answer_for sid qid a = false).
      { destruct (answer_for sid qid a) eqn:E; [|reflexivity].
        apply answer_for_iff in E, E'. congruence. }
      rewrite E. cbn. rewrite E', IH. reflexivity.
    - destruct (answer_for sid qid a); cbn; [|rewrite E']; exact IH. }
  rewrite !Hvia.
  destruct (api_answer_cases uid sid qid r db) as [-> | [sub [q [Hs [Hu Hq]]]]];
    [reflexivity|].
  rewrite (api_answer_besides uid sid qid db sub q Hs Hu Hq r Hpk). reflexivity.
Qed.

Lemma grade_own_key `{StrMethods} (qtype : option string) (key : string) :
  strip key = key -> grade qtype (Some key) (trimmed (Some key)) = 1.
Proof.
  intros Hk. unfold grade, trimmed. cbn [or_empty str_eq_nullable]. rewrite Hk.
  rewrite !String.eqb_refl. destruct (is_mcq qtype); reflexivity.
Qed.

Lemma answer_with_keys_counts `{StrMethods} (uid sid : Z) (sub : submissions_row)
    (qs : list questions_row) (db : DB) :
  NoDup (map q_id qs) ->
  (forall q, In q qs ->
     question_by_id (q_id q) db = Some q /\
     answers_of sid (q_id q) db = [] /\
     exists key, q_answer_key q = Some key /\ strip key = key) ->
  answers_wf db ->
  submission_by_id sid db = Some sub -> s_user_id sub = uid ->
  let db' := answer_with_keys uid sid qs db in
  tests db' = tests db /\ questions db' = questions db /\
  submissions db' = submissions db /\
  count_correct sid db' = count_correct sid db + Z.of_nat (List.length qs).
Proof.
  revert db. induction qs as [|q qs IH]; intros db Hnd Hqs Hwf Hs Hu; cbn.
  - repeat split; lia.
  - cbn [map] in Hnd. apply NoDup_cons_iff in Hnd. destruct Hnd as [Hnotin Hnd'].
    destruct (Hqs q (or_introl eq_refl)) as [Hq [Hnone [key [Hkey Hstrip]]]].
    pose proof (api_answer_keeps_rest uid sid (q_id q) db sub q Hs Hu Hq
                  (q_answer_key q)) as [Et [Eq Es]].
    pose proof (api_answer_stored uid sid (q_id q) (q_answer_key q) db sub q
                  Hs Hu Hq) as [_ [_ [Hcount _]]].
    pose proof (api_answer_upsert uid sid (q_id q) db sub q Hs Hu Hq
                  (q_answer_key q) Hwf) as [Hwf1 _].
    set (db1 := fst (api_answer uid sid (q_id q) (q_answer_key q) db)) in *.
    assert (Hc1 : count_correct sid db1 = count_correct sid db + 1).
    { apply Hcount; [exact Hnone|]. rewrite Hkey. apply grade_own_key. exact Hstrip. }
    destruct (IH db1 Hnd') as [Et' [Eq' [Es' Hc']]].
    + intros q' Hq'.
      destruct (Hqs q' (or_intror Hq')) as [Hq0 [Hnone0 Hk0]].
      split; [unfold question_by_id in *; rewrite Eq; exact Hq0|].
      split; [|exact Hk0].
      unfold db1. rewrite answers_of_other_question; [exact Hnone0 | exact (proj1 Hwf) |].
      intros E. apply Hnotin. rewrite <- E. apply in_map. exact Hq'.
    + exact Hwf1.
    + unfold submission_by_id in *. rewrite Es. exact Hs.
    + exact Hu.
    + fold (answer_with_keys uid sid qs db1).
      rewrite Et', Eq', Es', Hc', Hc1. repeat split; try assumption. lia.
Qed.

Lemma started_submission (uid : Z) (now slug : string) (db : DB) (test : tests_row) :
  db_wf db -> test_by_slug slug db = Some test ->
  let sid := Sql.next_rowid (map s_id (submissions db)) in
  let db1 := fst (test_start uid now slug db) in
  let row := {| s_id := sid; s_user_id := uid; s_test_id := t_id test;
                s_started_at := Some now; s_finished_at := None;
                s_raw_score := 0; s_band_score := f0_0 |} in
  tests db1 = tests db /\ questions db1 = questions db /\ answers db1 = answers db /\
  submission_by_id sid db1 = Some row /\
  (forall a, In a (answers db) -> a_submission_id a <> sid).
Proof.
  intros Hwf Ht sid db1 row. unfold db1, test_start. rewrite Ht. cbn [fst].
  split; [reflexivity|]. split; [reflexivity|]. split; [reflexivity|].
  assert (Hfresh : forall s, In s (submissions db) -> s_id s <> sid).
  { intros s Hs E. apply (next_rowid_fresh (map s_id (submissions db))).
    fold sid. rewrite <- E. apply in_map. exact Hs. }
  split.
  - unfold submission_by_id. cbn [submissions set_submissions]. unfold Sql.insert.
    rewrite select_one_app.
    destruct (Sql.select_one _ (submissions db)) as [s|] eqn:E.
    + destruct (select_one_some _ _ _ E) as [Hin Hid]. apply Z.eqb_eq in Hid.
      exfalso. exact (Hfresh s Hin Hid).
    + cbn. fold sid. rewrite Z.eqb_refl. reflexivity.
  - intros a Ha E. destruct (wf_answers_ref db Hwf a Ha) as [[s Es] _].
    destruct (select_one_some _ _ _ Es) as [Hin Hid]. apply Z.eqb_eq in Hid.
    apply (Hfresh s Hin). congruence.
Qed.

(** X22: a whole sitting.  In a well-formed database, on a test with at
    least one and at most 2^48 questions, a user who starts a submission
    and finishes it at once is given raw score 0 and band 4.0; a user who
    starts a submission, answers every question of the test with the
    question's own key (each key a string that [strip] leaves as it is)
    and then finishes, is given the number of questions as raw score and
    band 9.0. *)
Theorem sitting_with_all_keys `{StrMethods} (uid : Z) (now1 now2 slug : string)
    (db : DB) (test : tests_row) :
  db_wf db ->
  test_by_slug slug db = Some test ->
  0 < count_questions (t_id test) db <= 2 ^ 48 ->
  let sid := Sql.next_rowid (map s_id (submissions db)) in
  let db1 := fst (test_start uid now1 slug db) in
  (exists sub,
     submission_by_id sid (fst (test_finish uid now2 slug sid db1)) = Some sub /\
     s_user_id sub = uid /\ s_finished_at sub = Some now2 /\
     s_raw_score sub = 0 /\ s_band_score sub = f4_0) /\
  ((forall q, In q (questions_of (t_id test) db) ->
      exists key, q_answer_key q = Some key /\ strip key = key) ->
   let db2 := answer_with_keys uid sid (questions_of (t_id test) db) db1 in
   exists sub,
     submission_by_id sid (fst (test_finish uid now2 slug sid db2)) = Some sub /\
     s_user_id sub = uid /\ s_finished_at sub = Some now2 /\
     s_raw_score sub = count_questions (t_id test) db /\ s_band_score sub = f9_0).
Proof.
  intros Hwf Ht Hn sid db1.
  destruct (started_submission uid now1 slug db test Hwf Ht)
    as [Et [Eq [Ea [Hrow Hnone]]]].
  fold sid in Hrow, Hnone. fold db1 in Et, Eq, Ea, Hrow.
  set (row := {| s_id := sid; s_user_id := uid; s_test_id := t_id test;
                 s_started_at := Some now1; s_finished_at := None;
                 s_raw_score := 0; s_band_score := f0_0 |}) in *.
  assert (Hbig : 2 ^ 48 < 2 ^ 1023) by (apply Z.pow_lt_mono_r; lia).
  assert (Hc0 : count_correct sid db1 = 0).
  { unfold count_correct. rewrite Ea. apply count_none. intros a Ha.
    replace (a_submission_id a =? sid) with false
      by (symmetry; apply Z.eqb_neq; exact (Hnone a Ha)).
    reflexivity. }
  assert (Hfinish : forall d c band,
            tests d = tests db -> questions d = questions db ->
            submissions d = submissions db1 -> count_correct sid d = c ->
            band_from_raw c (count_questions (t_id test) db) = Return band ->
            exists sub,
              submission_by_id sid (fst (test_finish uid now2 slug sid d)) = Some sub /\
              s_user_id sub = uid /\ s_finished_at sub = Some now2 /\
              s_raw_score sub = c /\ s_band_score sub = band).
  { intros d c band Etd Eqd Esd Hc Hband.
    assert (Htd : test_by_slug slug d = Some test)
      by (unfold test_by_slug in *; rewrite Etd; exact Ht).
    assert (Hsd : submission_by_id sid d = Some row)
      by (unfold submission_by_id in *; rewrite Esd; exact Hrow).
    assert (Hqd : count_questions (t_id test) d = count_questions (t_id test) db)
      by (unfold count_questions; rewrite Eqd; reflexivity).
    rewrite <- Hc, <- Hqd in Hband.
    rewrite (test_finish_accepted uid now2 slug sid d test row band Htd Hsd eq_refl Hband).
    cbn [fst]. rewrite (submission_by_id_set_score sid _ band now2 d row Hsd).
    eexists. split; [reflexivity|]. cbn. auto. }
  split.
  - apply (Hfinish db1 0 f4_0); [exact Et | exact Eq | reflexivity | exact Hc0 |].
    rewrite band_from_raw_by_count by lia. f_equal.
    unfold band_by_count.
    repeat match goal with
           | |- context [?x <=? ?y] =>
               replace (x <=? y) with false by (symmetry; apply Z.leb_gt; lia)
           end.
    reflexivity.
  - intros Hkeys db2.
    assert (Hnd : NoDup (map q_id (questions_of (t_id test) db)))
      by (apply keys_of_filter_NoDup; exact (wf_questions_pk db Hwf)).
    destruct (answer_with_keys_counts uid sid row (questions_of (t_id test) db) db1 Hnd)
      as [Et2 [Eq2 [Es2 Hc2]]].
    + intros q Hq. split; [|split; [|exact (Hkeys q Hq)]].
      * unfold question_by_id. rewrite Eq.
        unfold questions_of in Hq. apply filter_In in Hq.
        exact (select_one_pk q_id (questions db) q (wf_questions_pk db Hwf) (proj1 Hq)).
      * unfold answers_of. rewrite Ea.
        destruct (filter _ (answers db)) as [|a l] eqn:E; [reflexivity|].
        assert (Hin : In a (filter (answer_for sid (q_id q)) (answers db)))
          by (rewrite E; left; reflexivity).
        apply filter_In in Hin. destruct Hin as [Hin Hp].
        apply answer_for_iff in Hp. injection Hp as Hp _.
        exfalso. exact (Hnone a Hin Hp).
    + pose proof (wf_answers db Hwf) as Haw.
      unfold answers_wf, answers_pk, one_answer_per_pair in *. rewrite Ea. exact Haw.
    + exact Hrow.
    + reflexivity.
    + fold db2 in Et2, Eq2, Es2, Hc2.
      assert (Hlen : Z.of_nat (List.length (questions_of (t_id test) db)) =
                     count_questions (t_id test) db) by reflexivity.
      apply (Hfinish db2 (count_questions (t_id test) db) f9_0);
        [rewrite Et2; exact Et | rewrite Eq2; exact Eq | exact Es2
        | rewrite Hc2, Hc0, Hlen; lia |].
      rewrite band_from_raw_by_count by lia. f_equal.
      unfold band_by_count.
      replace (19 * count_questions (t_id test) db <=? 20 * count_questions (t_id test) db)
        with true by (symmetry; apply Z.leb_le; lia).
      reflexivity.
Qed.
(* ------------------------------------------------------------------ *)
(** ** The properties on the sample site                               *)
(* ------------------------------------------------------------------ *)

Lemma sample_before_reachable :
  site_reachable (H := AsciiStr.methods) (H0 := AsciiSlug.methods) Sample.before.
Proof.
  exact (run_all_reachable (H := AsciiStr.methods) (H0 := AsciiSlug.methods)
           Sample.events_before empty_site site_init).
Qed.

Lemma sample_site_reachable :
  site_reachable (H := AsciiStr.methods) (H0 := AsciiSlug.methods) Sample.site.
Proof.
  exact (run_all_reachable (H := AsciiStr.methods) (H0 := AsciiSlug.methods)
           Sample.events empty_site site_init).
Qed.

Lemma sample_before_wf : db_wf (site_db Sample.before).
Proof.
  exact (reachable_db_wf (H := AsciiStr.methods) (H0 := AsciiSlug.methods)
           _ sample_before_reachable).
Qed.

Lemma sample_site_wf : db_wf (site_db Sample.site).
Proof.
  exact (reachable_db_wf (H := AsciiStr.methods) (H0 := AsciiSlug.methods)
           _ sample_site_reachable).
Qed.

Lemma sample_site_finished :
  site_db Sample.site =
  fst (test_finish (usr_id Sample.student) "2025-01-01T10:30:00"
         "listening-sample-1" 1 (site_db Sample.before)).
Proof. vm_compute. reflexivity. Qed.

Lemma sample_site_wf_users : site_wf Sample.site.
Proof.
  exact (reachable_site_wf (H := AsciiStr.methods) (H0 := AsciiSlug.methods)
           _ sample_site_reachable).
Qed.

(** X4, witness: 17 and 19 correct answers of 20. *)
Lemma band_from_raw_monotone_witness :
  band_from_raw 17 20 = Return f8_0 /\ band_from_raw 19 20 = Return f9_0 /\
  ge f9_0 f8_0 = true.
Proof.
  assert (Ht : 0 < 20 <= 2 ^ 48) by (split; [reflexivity | discriminate]).
  assert (H0 : 0 <= 17) by discriminate.
  assert (H1 : 17 <= 19) by discriminate.
  assert (H2 : 19 < 2 ^ 1023) by reflexivity.
  destruct (band_from_raw_monotone 17 19 20 Ht H0 H1 H2)
    as [b1 [b2 [E1 [E2 [Hge _]]]]].
  assert (Hb1 : b1 = f8_0)
    by (assert (E : Return b1 = Return f8_0)
          by (rewrite <- E1; vm_compute; reflexivity);
        injection E as E; exact E).
  assert (Hb2 : b2 = f9_0)
    by (assert (E : Return b2 = Return f9_0)
          by (rewrite <- E2; vm_compute; reflexivity);
        injection E as E; exact E).
  rewrite Hb1 in E1, Hge. rewrite Hb2 in E2, Hge.
  split; [exact E1 | split; [exact E2 | exact Hge]].
Defined.

(** X5, witness: the sample site is reached from the empty database. *)
Lemma site_reachable_wf_witness :
  submissions_pk (site_db Sample.site) /\ answers_wf (site_db Sample.site) /\
  scores_wf (site_db Sample.site).
Proof.
  destruct (site_reachable_wf (H := AsciiStr.methods) (H0 := AsciiSlug.methods)
              Sample.site sample_site_reachable)
    as [_ [_ [_ [_ [Hs [Ha [_ [_ [_ [Hsc _]]]]]]]]]].
  split; [exact Hs | split; [exact Ha | exact Hsc]].
Defined.

(** X6, witness: the student's submission is shown to the student and to
    the administrator.  *)
Lemma results_view_of_submission_witness :
  exists sub test,
    results_view Sample.student 1 (site_db Sample.site) = Render_results_view sub test 3 /\
    results_view Sample.admin 1 (site_db Sample.site) = Render_results_view sub test 3 /\
    s_raw_score sub = 2 /\ t_slug test = "listening-sample-1".
Proof.
  destruct (submission_by_id 1 (site_db Sample.site)) as [sub|] eqn:Es;
    [|vm_compute in Es; discriminate Es].
  assert (Hu : s_user_id sub = 2)
    by (vm_compute in Es; injection Es as <-; reflexivity).
  assert (Hraw : s_raw_score sub = 2)
    by (vm_compute in Es; injection Es as <-; reflexivity).
  assert (Htid : s_test_id sub = 1)
    by (vm_compute in Es; injection Es as <-; reflexivity).
  destruct (results_view_of_submission Sample.student 1 (site_db Sample.site) sub
              sample_site_wf Es) as [Hown _].
  destruct (results_view_of_submission Sample.admin 1 (site_db Sample.site) sub
              sample_site_wf Es) as [Hadm _].
  destruct (Hown (or_introl Hu)) as [test [Hin [Hid Hview]]].
  destruct (Hadm (or_intror eq_refl)) as [test' [Hin' [Hid' Hview']]].
  assert (Ht : test' = test).
  { apply (NoDup_map_inj t_id (tests (site_db Sample.site)) test' test
             (wf_tests_pk _ sample_site_wf) Hin' Hin). congruence. }
  rewrite Ht in Hview'.
  assert (Hcount : count_questions (s_test_id sub) (site_db Sample.site) = 3)
    by (rewrite Htid; vm_compute; reflexivity).
  rewrite Hcount in Hview, Hview'.
  exists sub, test. split; [exact Hview|]. split; [exact Hview'|].
  split; [exact Hraw|].
  assert (Hall : forall t, In t (tests (site_db Sample.site)) -> t_id t = 1 ->
                   t_slug t = "listening-sample-1").
  { intros t Ht1. vm_compute in Ht1.
    destruct Ht1 as [<- | [<- | [<- | []]]]; intros E; first [reflexivity | discriminate E]. }
  apply Hall; [exact Hin | congruence].
Defined.
(** X7, witness: the student finishes the listening test with two of its
    three questions answered correctly. *)
Lemma results_after_finish_witness :
  exists sub' total,
    results_view Sample.student 1 (site_db Sample.site)
      = Render_results_view sub' Example.listening total /\
    s_raw_score sub' = 2 /\ total = 3 /\
    band_from_raw 2 3 = Return (s_band_score sub').
Proof.
  destruct (submission_by_id 1 (site_db Sample.before)) as [sub|] eqn:Es;
    [|vm_compute in Es; discriminate Es].
  assert (Hu : s_user_id sub = usr_id Sample.student)
    by (vm_compute in Es; injection Es as <-; reflexivity).
  assert (Htid : t_id Example.listening = s_test_id sub)
    by (vm_compute in Es; injection Es as <-; reflexivity).
  assert (Ht : test_by_slug "listening-sample-1" (site_db Sample.before)
               = Some Example.listening) by (vm_compute; reflexivity).
  assert (Hb : band_from_raw (count_correct 1 (site_db Sample.before))
                 (count_questions (t_id Example.listening) (site_db Sample.before))
               = Return f6_5) by (vm_compute; reflexivity).
  destruct (results_after_finish Sample.student "2025-01-01T10:30:00"
              "listening-sample-1" 1 (site_db Sample.before) Example.listening sub
              f6_5 sample_before_wf Ht Es Hu Htid Hb)
    as [sub' [total [Hview [Hraw [_ [Htotal Hband]]]]]].
  exists sub', total.
  split; [rewrite sample_site_finished; exact Hview|].
  assert (Hr : s_raw_score sub' = 2) by (rewrite Hraw; vm_compute; reflexivity).
  assert (Hn : total = 3) by (rewrite Htotal; vm_compute; reflexivity).
  split; [exact Hr|]. split; [exact Hn|].
  rewrite Hr, Hn in Hband. exact Hband.
Defined.

(** X8, witness: the student revises an answer; the administrator's
    submission and answer stay. *)
Lemma serve_isolation_witness :
  let db := site_db Sample.site in
  let db' := fst (serve (H := AsciiStr.methods) (H0 := AsciiSlug.methods)
                    (Authenticated Sample.student) (Api_answer 1 1 (Some "C")) db) in
  submissions_of_others (usr_id Sample.student) db'
    = submissions_of_others (usr_id Sample.student) db /\
  answers_of_others (usr_id Sample.student) db'
    = answers_of_others (usr_id Sample.student) db /\
  List.length (answers_of_others (usr_id Sample.student) db) = 1%nat /\
  answers db' <> answers db.
Proof.
  destruct (serve_isolation (H := AsciiStr.methods) (H0 := AsciiSlug.methods)
              Sample.student (Api_answer 1 1 (Some "C")) (site_db Sample.site)
              sample_site_wf) as [Hs Ha].
  split; [exact Hs|]. split; [exact Ha|].
  split; [vm_compute; reflexivity | vm_compute; discriminate].
Defined.

(** X9, witness: the student's request to create a test, the same request
    from a session that names no stored user, and from the administrator. *)
Lemma content_written_by_admin_only_witness :
  tests (site_db (run (H := AsciiStr.methods) (H0 := AsciiSlug.methods)
                    (Request (Some 2) (Admin_tests_create 1735725700 Sample.untitled_form))
                    Sample.site))
    = tests (site_db Sample.site) /\
  run (H := AsciiStr.methods) (H0 := AsciiSlug.methods)
      (Request (Some 3) (Admin_tests_create 1735725700 Sample.untitled_form))
      Sample.site = Sample.site /\
  tests (site_db (run (H := AsciiStr.methods) (H0 := AsciiSlug.methods)
                    (Request (Some 1) (Admin_tests_create 1735725700 Sample.untitled_form))
                    Sample.site))
    <> tests (site_db Sample.site).
Proof.
  destruct (content_written_by_admin_only (H := AsciiStr.methods)
              (H0 := AsciiSlug.methods) (Some 2)
              (Admin_tests_create 1735725700 Sample.untitled_form) Sample.site)
    as [_ [_ [_ Hstudent]]].
  destruct (content_written_by_admin_only (H := AsciiStr.methods)
              (H0 := AsciiSlug.methods) (Some 3)
              (Admin_tests_create 1735725700 Sample.untitled_form) Sample.site)
    as [_ [_ [Hnobody _]]].
  destruct (Sql.select_one (fun u => u_id u =? 2) (users Sample.site)) as [row|] eqn:Er;
    [|vm_compute in Er; discriminate Er].
  assert (Hrole : u_role row <> Some "admin")
    by (vm_compute in Er; injection Er as <-; discriminate).
  assert (Hnone : Sql.select_one (fun u => u_id u =? 3) (users Sample.site) = None)
    by (vm_compute; reflexivity).
  split; [exact (proj1 (Hstudent 2 row eq_refl Er Hrole))|].
  split.
  - apply Hnobody. right. exists 3. split; [reflexivity | exact Hnone].
  - vm_compute. discriminate.
Defined.

(** X10, witness: the student answers the third question after finishing,
    and finishes again. *)
Lemma finish_not_final_witness :
  let db := site_db Sample.before in
  let db1 := fst (test_finish 2 "2025-01-01T10:30:00" "listening-sample-1" 1 db) in
  let late := api_answer (H := AsciiStr.methods) 2 1 3 (Some "monday") db1 in
  let early := api_answer (H := AsciiStr.methods) 2 1 3 (Some "monday") db in
  snd late = Json_ok true /\
  test_finish 2 "2025-01-01T10:40:00" "listening-sample-1" 1 (fst late) =
  test_finish 2 "2025-01-01T10:40:00" "listening-sample-1" 1 (fst early).
Proof.
  destruct (finish_not_final (H := AsciiStr.methods) 2 "2025-01-01T10:30:00"
              "2025-01-01T10:40:00" "listening-sample-1" "listening-sample-1"
              1 3 (Some "monday") (site_db Sample.before))
    as [Hsnd [_ Hfin]].
  split.
  - rewrite Hsnd. vm_compute. reflexivity.
  - apply Hfin. vm_compute. reflexivity.
Defined.

(** X11, witness: the student's two correct answers against the three
    questions of the listening test. *)
Lemma correct_at_most_total_witness :
  count_correct 1 (site_db Sample.site) = 2 /\
  count_correct 1 (site_db Sample.site) <= count_questions 1 (site_db Sample.site).
Proof.
  split; [vm_compute; reflexivity|].
  apply (proj2 (correct_at_most_total 1 1 (site_db Sample.site) sample_site_wf)).
  intros a Ha Hsid. vm_compute in Ha.
  destruct Ha as [<- | [<- | [<- | []]]];
    first [ discriminate Hsid
          | vm_compute; eexists; split; reflexivity ].
Defined.

(** X12, witness: the listening test as the student sees it, in the order
    of [order_index]; the administrator is refused. *)
Lemma test_take_questions_witness :
  exists test sub qs,
    test_take 2 "listening-sample-1" 1 (site_db Sample.site)
      = Render_test_take test sub qs /\
    map q_id qs = [2; 1; 3] /\
    test_take 1 "listening-sample-1" 1 (site_db Sample.site)
      = To_dashboard "Ruxsat yo'q".
Proof.
  destruct (test_by_slug "listening-sample-1" (site_db Sample.site)) as [test|] eqn:Et;
    [|vm_compute in Et; discriminate Et].
  destruct (submission_by_id 1 (site_db Sample.site)) as [sub|] eqn:Es;
    [|vm_compute in Es; discriminate Es].
  assert (Hu : s_user_id sub = 2)
    by (vm_compute in Es; injection Es as <-; reflexivity).
  destruct (test_take_questions 2 "listening-sample-1" 1 (site_db Sample.site)
              test sub Et Es) as [Hown _].
  destruct (test_take_questions 1 "listening-sample-1" 1 (site_db Sample.site)
              test sub Et Es) as [_ Hother].
  destruct (Hown Hu) as [qs [Hview _]].
  exists test, sub, qs. split; [exact Hview|].
  split.
  - pose proof Hview as Hv. vm_compute in Hv.
    injection Hv as _ _ Hqs. rewrite <- Hqs. reflexivity.
  - apply Hother. rewrite Hu. discriminate.
Defined.





(** X17, witness: a name with both separators, and a name of dots. *)
Lemma safe_name_no_separator_witness :
  safe_name "../intro\part1.mp3" = ".._intro_part1.mp3" /\
  String.length (safe_name "../intro\part1.mp3") = String.length "../intro\part1.mp3" /\
  safe_name ".." = "..".
Proof.
  destruct (safe_name_no_separator "../intro\part1.mp3") as [Hlen _].
  destruct (safe_name_no_separator "..") as [_ [_ [_ Hclean]]].
  split; [vm_compute; reflexivity|]. split; [exact Hlen|].
  apply Hclean. intros [|[|n]] c Hc; cbn in Hc; try discriminate Hc;
    injection Hc as <-; split; discriminate.
Defined.

(** X18, witness: two forms without a title, sent within the same second. *)
Lemma untitled_test_slug_witness :
  let db := site_db Sample.site in
  let db1 := fst (admin_tests_create (H := AsciiStr.methods) (H0 := AsciiSlug.methods)
                    1735725700 Sample.untitled_form db) in
  db1 <> db /\
  fst (admin_tests_create (H := AsciiStr.methods) (H0 := AsciiSlug.methods)
         1735725700 Sample.untitled_form db1) = db1 /\
  snd (admin_tests_create (H := AsciiStr.methods) (H0 := AsciiSlug.methods)
         1735725700 Sample.untitled_form db1) = Raised IntegrityError.
Proof.
  assert (Hslug : slugify (Slugify := AsciiSlug.methods)
                    (strip (StrMethods := AsciiStr.methods)
                       (or_default "" (f_title Sample.untitled_form))) = "")
    by (vm_compute; reflexivity).
  assert (Hok : snd (admin_tests_create (H := AsciiStr.methods) (H0 := AsciiSlug.methods)
                       1735725700 Sample.untitled_form (site_db Sample.site))
                = To_admin_tests "Test yaratildi") by (vm_compute; reflexivity).
  destruct (untitled_test_slug (H := AsciiStr.methods) (H0 := AsciiSlug.methods)
              1735725700 1735725700 Sample.untitled_form Sample.untitled_form
              (site_db Sample.site) Hslug Hslug) as [_ Hsame].
  destruct (Hsame Hok eq_refl) as [Hdb _].
  split; [vm_compute; discriminate|].
  split; [exact Hdb | vm_compute; reflexivity].
Defined.

(** X19, witness: the empty database is seeded; a second run, whose files
    cannot even be read, changes nothing. *)
Lemma seed_cmd_idempotent_witness :
  seed_cmd Sample.inputs_unreadable (fst (seed_cmd Sample.inputs empty_site))
    = (fst (seed_cmd Sample.inputs empty_site), Seed_done) /\
  List.length (users (fst (seed_cmd Sample.inputs empty_site))) = 2%nat.
Proof.
  split; [|vm_compute; reflexivity].
  apply (seed_cmd_idempotent Sample.inputs Sample.inputs_unreadable empty_site).
  vm_compute. reflexivity.
Defined.

(** X20, witness: the first run cannot read the listening file; the second
    run has both files, and the listening test stays without questions. *)
Lemma seed_failure_not_repaired_witness :
  exists test,
    test_by_slug "listening-sample-1"
      (site_db (fst (seed_cmd Sample.inputs_unreadable empty_site))) = Some test /\
    count_questions (t_id test)
      (site_db (fst (seed_cmd Sample.inputs
                       (fst (seed_cmd Sample.inputs_unreadable empty_site))))) = 0 /\
    snd (seed_cmd Sample.inputs (fst (seed_cmd Sample.inputs_unreadable empty_site)))
      = Seed_done.
Proof.
  destruct (seed_failure_not_repaired Sample.inputs_unreadable empty_site)
    as [_ Hfail].
  destruct (Hfail eq_refl I) as [e [test [_ [Hfound [_ [_ Hlater]]]]]].
  exists test. split; [exact Hfound|].
  split; [rewrite (Hlater Sample.inputs); reflexivity | vm_compute; reflexivity].
Defined.

(** X21, witness: the two submissions of the sample site as the
    administrator sees them, the later start first; the student is
    refused. *)
Lemma admin_results_lists_all_witness :
  exists rows,
    admin_results (Authenticated Sample.admin) Sample.site = Render_admin_results rows /\
    map (fun r => (s_id (r_submission r), r_user_name r, r_test_title r, r_total_q r)) rows
      = [(2, "Admin", "Reading Sample 1", 2); (1, "Student", "Listening Sample 1", 3)] /\
    admin_results (Authenticated Sample.student) Sample.site = To_dashboard "Faqat admin".
Proof.
  destruct (admin_results_lists_all Sample.admin Sample.site sample_site_wf_users)
    as [_ Hadmin].
  destruct (admin_results_lists_all Sample.student Sample.site sample_site_wf_users)
    as [Hstudent _].
  destruct (Hadmin eq_refl) as [rows [Hview _]].
  exists rows. split; [exact Hview|]. split; [|exact (Hstudent eq_refl)].
  pose proof Hview as Hv. vm_compute in Hv. injection Hv as Hrows.
  rewrite <- Hrows. reflexivity.
Defined.

(** X22, witness: on the sample site the administrator sits the listening
    test, answers "B", "Paris" and "Monday", and finishes. *)
Lemma sitting_with_all_keys_witness :
  let db := site_db Sample.site in
  let db1 := fst (test_start 1 "2025-01-02T09:00:00" "listening-sample-1" db) in
  let db2 := answer_with_keys (H := AsciiStr.methods) 1 3 (questions_of 1 db) db1 in
  exists sub,
    submission_by_id 3
      (fst (test_finish 1 "2025-01-02T09:30:00" "listening-sample-1" 3 db2)) = Some sub /\
    s_raw_score sub = 3 /\ s_band_score sub = f9_0.
Proof.
  assert (Ht : test_by_slug "listening-sample-1" (site_db Sample.site)
               = Some Example.listening) by (vm_compute; reflexivity).
  assert (Hcount : count_questions (t_id Example.listening) (site_db Sample.site) = 3)
    by (vm_compute; reflexivity).
  assert (Hn : 0 < count_questions (t_id Example.listening) (site_db Sample.site)
               <= 2 ^ 48)
    by (rewrite Hcount; split; [reflexivity | discriminate]).
  destruct (sitting_with_all_keys (H := AsciiStr.methods) 1 "2025-01-02T09:00:00"
              "2025-01-02T09:30:00" "listening-sample-1" (site_db Sample.site)
              Example.listening sample_site_wf Ht Hn) as [_ Hkeys].
  destruct Hkeys as [sub [Hsub [_ [_ [Hraw Hband]]]]].
  { intros q Hq. vm_compute in Hq.
    destruct Hq as [<- | [<- | [<- | []]]];
      eexists; (split; [reflexivity | vm_compute; reflexivity]). }
  exists sub. split; [|split; [rewrite Hraw; exact Hcount | exact Hband]].
  vm_compute in Hsub. vm_compute. exact Hsub.
Defined.
